(** * mcp-cps-data: the query guard, the relational executor, the semantic
      search executor and the tool dispatcher of [server.py]

    The development follows [src/mcp_cps_data/server.py].  Python values are
    embedded as follows.

    - A Python [str], a sequence of code points, is the [string] that
      holds its UTF-8 encoding ([PyStr.encode]; a surrogate is encoded like
      any code point of its size).  [strip], [upper], [casefold] and
      [title] work on the code points ([PyStr.decode]), with the character
      tables of CPython 3.11 (Unicode 14).
    - An exception is a value of [exn], which has the instances of
      [Exception] the server can meet and those that derive from
      [BaseException] only; a call returns a [result], a value or a raised
      exception.
    - Effects (connections to the SQLite file, calls to the embedding model
      and to the vector table, log records) are threaded through a [World]
      by a state-and-error monad [M].
    - The answers of the SQLite file, of the embedding model, of the vector
      table and of the reranking model are oracles carried by records
      ([Sqlite3], [lancedb.Table], [lancedb.Reranker],
      [SqliteLanceDB.Embedder]); relevance scores and vector distances are
      integers that order the floating-point numbers of the libraries. *)

From Stdlib Require Import List String Ascii Bool Arith ZArith NArith Lia.
From Stdlib Require Import Sorting.Permutation Sorting.Sorted.
From Stdlib Require Import DecimalString.
Import ListNotations.
Local Open Scope string_scope.
Local Open Scope list_scope.
Local Open Scope nat_scope.

(** String concatenation, Python's [+] on [str] and the joints of an
    f-string. *)
Infix "+++" := String.append (at level 60, right associativity).

(* ================================================================== *)
(** ** Bytes read as ASCII *)

Module Ascii7.

Definition code (c : ascii) : nat := nat_of_ascii c.

Definition is_lower (c : ascii) : bool :=
  let n := code c in (97 <=? n) && (n <=? 122).

Definition is_upper (c : ascii) : bool :=
  let n := code c in (65 <=? n) && (n <=? 90).

(** C's [tolower] in the "C" locale, [Py_TOLOWER]. *)
Definition lower_char (c : ascii) : ascii :=
  if is_upper c then ascii_of_nat (code c + 32) else c.

Fixpoint lower (s : string) : string :=
  match s with
  | EmptyString => EmptyString
  | String c s' => String (lower_char c) (lower s')
  end.

(** Every byte is below 128: [PyUnicode_IS_ASCII]. *)
Fixpoint is_ascii (s : string) : bool :=
  match s with
  | EmptyString => true
  | String c s' => (code c <? 128) && is_ascii s'
  end.

End Ascii7.

(* ================================================================== *)
(** ** The character tables *)

Module Unicode.

(** The character data of CPython 3.11 (Unicode 14.0.0), as ranges of code
    points and as tables from a code point to the code points it maps to.
    The tables list the code points from 128 on; below, the mappings are
    those of the ASCII letters. *)

(** The code points for which [str.isspace] holds. *)
Definition space_ranges : list (N * N) :=
  [(9, 13); (28, 32); (133, 133); (160, 160); (5760, 5760); (8192, 8202);
   (8232, 8233); (8239, 8239); (8287, 8287); (12288, 12288)]%N.

(** The cased code points. *)
Definition cased_ranges : list (N * N) :=
  [(65, 90); (97, 122); (170, 170); (181, 181); (186, 186); (192, 214);
   (216, 246); (248, 442); (444, 447); (452, 659); (661, 696); (704, 705);
   (736, 740); (837, 837); (880, 883); (886, 887); (890, 893); (895, 895);
   (902, 902); (904, 906); (908, 908); (910, 929); (931, 1013); (1015, 1153);
   (1162, 1327); (1329, 1366); (1376, 1416); (4256, 4293); (4295, 4295);
   (4301, 4301); (4304, 4346); (4349, 4351); (5024, 5109); (5112, 5117);
   (7296, 7304); (7312, 7354); (7357, 7359); (7424, 7615); (7680, 7957);
   (7960, 7965); (7968, 8005); (8008, 8013); (8016, 8023); (8025, 8025);
   (8027, 8027); (8029, 8029); (8031, 8061); (8064, 8116); (8118, 8124);
   (8126, 8126); (8130, 8132); (8134, 8140); (8144, 8147); (8150, 8155);
   (8160, 8172); (8178, 8180); (8182, 8188); (8305, 8305); (8319, 8319);
   (8336, 8348); (8450, 8450); (8455, 8455); (8458, 8467); (8469, 8469);
   (8473, 8477); (8484, 8484); (8486, 8486); (8488, 8488); (8490, 8493);
   (8495, 8500); (8505, 8505); (8508, 8511); (8517, 8521); (8526, 8526);
   (8544, 8575); (8579, 8580); (9398, 9449); (11264, 11492); (11499, 11502);
   (11506, 11507); (11520, 11557); (11559, 11559); (11565, 11565);
   (42560, 42605); (42624, 42653); (42786, 42887); (42891, 42894);
   (42896, 42954); (42960, 42961); (42963, 42963); (42965, 42969);
   (42997, 42998); (43000, 43002); (43824, 43866); (43868, 43880);
   (43888, 43967); (64256, 64262); (64275, 64279); (65313, 65338);
   (65345, 65370); (66560, 66639); (66736, 66771); (66776, 66811);
   (66928, 66938); (66940, 66954); (66956, 66962); (66964, 66965);
   (66967, 66977); (66979, 66993); (66995, 67001); (67003, 67004);
   (67456, 67456); (67459, 67461); (67463, 67504); (67506, 67514);
   (68736, 68786); (68800, 68850); (71840, 71903); (93760, 93823);
   (119808, 119892); (119894, 119964); (119966, 119967); (119970, 119970);
   (119973, 119974); (119977, 119980); (119982, 119993); (119995, 119995);
   (119997, 120003); (120005, 120069); (120071, 120074); (120077, 120084);
   (120086, 120092); (120094, 120121); (120123, 120126); (120128, 120132);
   (120134, 120134); (120138, 120144); (120146, 120485); (120488, 120512);
   (120514, 120538); (120540, 120570); (120572, 120596); (120598, 120628);
   (120630, 120654); (120656, 120686); (120688, 120712); (120714, 120744);
   (120746, 120770); (120772, 120779); (122624, 122633); (122635, 122654);
   (125184, 125251); (127280, 127305); (127312, 127337); (127344, 127369)]%N.

(** The case-ignorable code points. *)
Definition case_ignorable_ranges : list (N * N) :=
  [(39, 39); (46, 46); (58, 58); (94, 94); (96, 96); (168, 168); (173, 173);
   (175, 175); (180, 180); (183, 184); (688, 879); (884, 885); (890, 890);
   (900, 901); (903, 903); (1155, 1161); (1369, 1369); (1375, 1375);
   (1425, 1469); (1471, 1471); (1473, 1474); (1476, 1477); (1479, 1479);
   (1524, 1524); (1536, 1541); (1552, 1562); (1564, 1564); (1600, 1600);
   (1611, 1631); (1648, 1648); (1750, 1757); (1759, 1768); (1770, 1773);
   (1807, 1807); (1809, 1809); (1840, 1866); (1958, 1968); (2027, 2037);
   (2042, 2042); (2045, 2045); (2070, 2093); (2137, 2139); (2184, 2184);
   (2192, 2193); (2200, 2207); (2249, 2306); (2362, 2362); (2364, 2364);
   (2369, 2376); (2381, 2381); (2385, 2391); (2402, 2403); (2417, 2417);
   (2433, 2433); (2492, 2492); (2497, 2500); (2509, 2509); (2530, 2531);
   (2558, 2558); (2561, 2562); (2620, 2620); (2625, 2626); (2631, 2632);
   (2635, 2637); (2641, 2641); (2672, 2673); (2677, 2677); (2689, 2690);
   (2748, 2748); (2753, 2757); (2759, 2760); (2765, 2765); (2786, 2787);
   (2810, 2815); (2817, 2817); (2876, 2876); (2879, 2879); (2881, 2884);
   (2893, 2893); (2901, 2902); (2914, 2915); (2946, 2946); (3008, 3008);
   (3021, 3021); (3072, 3072); (3076, 3076); (3132, 3132); (3134, 3136);
   (3142, 3144); (3146, 3149); (3157, 3158); (3170, 3171); (3201, 3201);
   (3260, 3260); (3263, 3263); (3270, 3270); (3276, 3277); (3298, 3299);
   (3328, 3329); (3387, 3388); (3393, 3396); (3405, 3405); (3426, 3427);
   (3457, 3457); (3530, 3530); (3538, 3540); (3542, 3542); (3633, 3633);
   (3636, 3642); (3654, 3662); (3761, 3761); (3764, 3772); (3782, 3782);
   (3784, 3789); (3864, 3865); (3893, 3893); (3895, 3895); (3897, 3897);
   (3953, 3966); (3968, 3972); (3974, 3975); (3981, 3991); (3993, 4028);
   (4038, 4038); (4141, 4144); (4146, 4151); (4153, 4154); (4157, 4158);
   (4184, 4185); (4190, 4192); (4209, 4212); (4226, 4226); (4229, 4230);
   (4237, 4237); (4253, 4253); (4348, 4348); (4957, 4959); (5906, 5908);
   (5938, 5939); (5970, 5971); (6002, 6003); (6068, 6069); (6071, 6077);
   (6086, 6086); (6089, 6099); (6103, 6103); (6109, 6109); (6155, 6159);
   (6211, 6211); (6277, 6278); (6313, 6313); (6432, 6434); (6439, 6440);
   (6450, 6450); (6457, 6459); (6679, 6680); (6683, 6683); (6742, 6742);
   (6744, 6750); (6752, 6752); (6754, 6754); (6757, 6764); (6771, 6780);
   (6783, 6783); (6823, 6823); (6832, 6862); (6912, 6915); (6964, 6964);
   (6966, 6970); (6972, 6972); (6978, 6978); (7019, 7027); (7040, 7041);
   (7074, 7077); (7080, 7081); (7083, 7085); (7142, 7142); (7144, 7145);
   (7149, 7149); (7151, 7153); (7212, 7219); (7222, 7223); (7288, 7293);
   (7376, 7378); (7380, 7392); (7394, 7400); (7405, 7405); (7412, 7412);
   (7416, 7417); (7468, 7530); (7544, 7544); (7579, 7679); (8125, 8125);
   (8127, 8129); (8141, 8143); (8157, 8159); (8173, 8175); (8189, 8190);
   (8203, 8207); (8216, 8217); (8228, 8228); (8231, 8231); (8234, 8238);
   (8288, 8292); (8294, 8303); (8305, 8305); (8319, 8319); (8336, 8348);
   (8400, 8432); (11388, 11389); (11503, 11505); (11631, 11631);
   (11647, 11647); (11744, 11775); (11823, 11823); (12293, 12293);
   (12330, 12333); (12337, 12341); (12347, 12347); (12441, 12446);
   (12540, 12542); (40981, 40981); (42232, 42237); (42508, 42508);
   (42607, 42610); (42612, 42621); (42623, 42623); (42652, 42655);
   (42736, 42737); (42752, 42785); (42864, 42864); (42888, 42890);
   (42994, 42996); (43000, 43001); (43010, 43010); (43014, 43014);
   (43019, 43019); (43045, 43046); (43052, 43052); (43204, 43205);
   (43232, 43249); (43263, 43263); (43302, 43309); (43335, 43345);
   (43392, 43394); (43443, 43443); (43446, 43449); (43452, 43453);
   (43471, 43471); (43493, 43494); (43561, 43566); (43569, 43570);
   (43573, 43574); (43587, 43587); (43596, 43596); (43632, 43632);
   (43644, 43644); (43696, 43696); (43698, 43700); (43703, 43704);
   (43710, 43711); (43713, 43713); (43741, 43741); (43756, 43757);
   (43763, 43764); (43766, 43766); (43867, 43871); (43881, 43883);
   (44005, 44005); (44008, 44008); (44013, 44013); (64286, 64286);
   (64434, 64450); (65024, 65039); (65043, 65043); (65056, 65071);
   (65106, 65106); (65109, 65109); (65279, 65279); (65287, 65287);
   (65294, 65294); (65306, 65306); (65342, 65342); (65344, 65344);
   (65392, 65392); (65438, 65439); (65507, 65507); (65529, 65531);
   (66045, 66045); (66272, 66272); (66422, 66426); (67456, 67461);
   (67463, 67504); (67506, 67514); (68097, 68099); (68101, 68102);
   (68108, 68111); (68152, 68154); (68159, 68159); (68325, 68326);
   (68900, 68903); (69291, 69292); (69446, 69456); (69506, 69509);
   (69633, 69633); (69688, 69702); (69744, 69744); (69747, 69748);
   (69759, 69761); (69811, 69814); (69817, 69818); (69821, 69821);
   (69826, 69826); (69837, 69837); (69888, 69890); (69927, 69931);
   (69933, 69940); (70003, 70003); (70016, 70017); (70070, 70078);
   (70089, 70092); (70095, 70095); (70191, 70193); (70196, 70196);
   (70198, 70199); (70206, 70206); (70367, 70367); (70371, 70378);
   (70400, 70401); (70459, 70460); (70464, 70464); (70502, 70508);
   (70512, 70516); (70712, 70719); (70722, 70724); (70726, 70726);
   (70750, 70750); (70835, 70840); (70842, 70842); (70847, 70848);
   (70850, 70851); (71090, 71093); (71100, 71101); (71103, 71104);
   (71132, 71133); (71219, 71226); (71229, 71229); (71231, 71232);
   (71339, 71339); (71341, 71341); (71344, 71349); (71351, 71351);
   (71453, 71455); (71458, 71461); (71463, 71467); (71727, 71735);
   (71737, 71738); (71995, 71996); (71998, 71998); (72003, 72003);
   (72148, 72151); (72154, 72155); (72160, 72160); (72193, 72202);
   (72243, 72248); (72251, 72254); (72263, 72263); (72273, 72278);
   (72281, 72283); (72330, 72342); (72344, 72345); (72752, 72758);
   (72760, 72765); (72767, 72767); (72850, 72871); (72874, 72880);
   (72882, 72883); (72885, 72886); (73009, 73014); (73018, 73018);
   (73020, 73021); (73023, 73029); (73031, 73031); (73104, 73105);
   (73109, 73109); (73111, 73111); (73459, 73460); (78896, 78904);
   (92912, 92916); (92976, 92982); (92992, 92995); (94031, 94031);
   (94095, 94111); (94176, 94177); (94179, 94180); (110576, 110579);
   (110581, 110587); (110589, 110590); (113821, 113822); (113824, 113827);
   (118528, 118573); (118576, 118598); (119143, 119145); (119155, 119170);
   (119173, 119179); (119210, 119213); (119362, 119364); (121344, 121398);
   (121403, 121452); (121461, 121461); (121476, 121476); (121499, 121503);
   (121505, 121519); (122880, 122886); (122888, 122904); (122907, 122913);
   (122915, 122916); (122918, 122922); (123184, 123197); (123566, 123566);
   (123628, 123631); (125136, 125142); (125252, 125259); (127995, 127999);
   (917505, 917505); (917536, 917631); (917760, 917999)]%N.

(** The upper-case mapping of the code points from 128 on that have one. *)
Definition upper_table : list (N * list N) :=
  [(181, [924]); (223, [83; 83]); (224, [192]); (225, [193]); (226, [194]);
   (227, [195]); (228, [196]); (229, [197]); (230, [198]); (231, [199]);
   (232, [200]); (233, [201]); (234, [202]); (235, [203]); (236, [204]);
   (237, [205]); (238, [206]); (239, [207]); (240, [208]); (241, [209]);
   (242, [210]); (243, [211]); (244, [212]); (245, [213]); (246, [214]);
   (248, [216]); (249, [217]); (250, [218]); (251, [219]); (252, [220]);
   (253, [221]); (254, [222]); (255, [376]); (257, [256]); (259, [258]);
   (261, [260]); (263, [262]); (265, [264]); (267, [266]); (269, [268]);
   (271, [270]); (273, [272]); (275, [274]); (277, [276]); (279, [278]);
   (281, [280]); (283, [282]); (285, [284]); (287, [286]); (289, [288]);
   (291, [290]); (293, [292]); (295, [294]); (297, [296]); (299, [298]);
   (301, [300]); (303, [302]); (305, [73]); (307, [306]); (309, [308]);
   (311, [310]); (314, [313]); (316, [315]); (318, [317]); (320, [319]);
   (322, [321]); (324, [323]); (326, [325]); (328, [327]); (329, [700; 78]);
   (331, [330]); (333, [332]); (335, [334]); (337, [336]); (339, [338]);
   (341, [340]); (343, [342]); (345, [344]); (347, [346]); (349, [348]);
   (351, [350]); (353, [352]); (355, [354]); (357, [356]); (359, [358]);
   (361, [360]); (363, [362]); (365, [364]); (367, [366]); (369, [368]);
   (371, [370]); (373, [372]); (375, [374]); (378, [377]); (380, [379]);
   (382, [381]); (383, [83]); (384, [579]); (387, [386]); (389, [388]);
   (392, [391]); (396, [395]); (402, [401]); (405, [502]); (409, [408]);
   (410, [573]); (414, [544]); (417, [416]); (419, [418]); (421, [420]);
   (424, [423]); (429, [428]); (432, [431]); (436, [435]); (438, [437]);
   (441, [440]); (445, [444]); (447, [503]); (453, [452]); (454, [452]);
   (456, [455]); (457, [455]); (459, [458]); (460, [458]); (462, [461]);
   (464, [463]); (466, [465]); (468, [467]); (470, [469]); (472, [471]);
   (474, [473]); (476, [475]); (477, [398]); (479, [478]); (481, [480]);
   (483, [482]); (485, [484]); (487, [486]); (489, [488]); (491, [490]);
   (493, [492]); (495, [494]); (496, [74; 780]); (498, [497]); (499, [497]);
   (501, [500]); (505, [504]); (507, [506]); (509, [508]); (511, [510]);
   (513, [512]); (515, [514]); (517, [516]); (519, [518]); (521, [520]);
   (523, [522]); (525, [524]); (527, [526]); (529, [528]); (531, [530]);
   (533, [532]); (535, [534]); (537, [536]); (539, [538]); (541, [540]);
   (543, [542]); (547, [546]); (549, [548]); (551, [550]); (553, [552]);
   (555, [554]); (557, [556]); (559, [558]); (561, [560]); (563, [562]);
   (572, [571]); (575, [11390]); (576, [11391]); (578, [577]); (583, [582]);
   (585, [584]); (587, [586]); (589, [588]); (591, [590]); (592, [11375]);
   (593, [11373]); (594, [11376]); (595, [385]); (596, [390]); (598, [393]);
   (599, [394]); (601, [399]); (603, [400]); (604, [42923]); (608, [403]);
   (609, [42924]); (611, [404]); (613, [42893]); (614, [42922]); (616, [407]);
   (617, [406]); (618, [42926]); (619, [11362]); (620, [42925]); (623, [412]);
   (625, [11374]); (626, [413]); (629, [415]); (637, [11364]); (640, [422]);
   (642, [42949]); (643, [425]); (647, [42929]); (648, [430]); (649, [580]);
   (650, [433]); (651, [434]); (652, [581]); (658, [439]); (669, [42930]);
   (670, [42928]); (837, [921]); (881, [880]); (883, [882]); (887, [886]);
   (891, [1021]); (892, [1022]); (893, [1023]); (912, [921; 776; 769]);
   (940, [902]); (941, [904]); (942, [905]); (943, [906]);
   (944, [933; 776; 769]); (945, [913]); (946, [914]); (947, [915]);
   (948, [916]); (949, [917]); (950, [918]); (951, [919]); (952, [920]);
   (953, [921]); (954, [922]); (955, [923]); (956, [924]); (957, [925]);
   (958, [926]); (959, [927]); (960, [928]); (961, [929]); (962, [931]);
   (963, [931]); (964, [932]); (965, [933]); (966, [934]); (967, [935]);
   (968, [936]); (969, [937]); (970, [938]); (971, [939]); (972, [908]);
   (973, [910]); (974, [911]); (976, [914]); (977, [920]); (981, [934]);
   (982, [928]); (983, [975]); (985, [984]); (987, [986]); (989, [988]);
   (991, [990]); (993, [992]); (995, [994]); (997, [996]); (999, [998]);
   (1001, [1000]); (1003, [1002]); (1005, [1004]); (1007, [1006]);
   (1008, [922]); (1009, [929]); (1010, [1017]); (1011, [895]); (1013, [917]);
   (1016, [1015]); (1019, [1018]); (1072, [1040]); (1073, [1041]);
   (1074, [1042]); (1075, [1043]); (1076, [1044]); (1077, [1045]);
   (1078, [1046]); (1079, [1047]); (1080, [1048]); (1081, [1049]);
   (1082, [1050]); (1083, [1051]); (1084, [1052]); (1085, [1053]);
   (1086, [1054]); (1087, [1055]); (1088, [1056]); (1089, [1057]);
   (1090, [1058]); (1091, [1059]); (1092, [1060]); (1093, [1061]);
   (1094, [1062]); (1095, [1063]); (1096, [1064]); (1097, [1065]);
   (1098, [1066]); (1099, [1067]); (1100, [1068]); (1101, [1069]);
   (1102, [1070]); (1103, [1071]); (1104, [1024]); (1105, [1025]);
   (1106, [1026]); (1107, [1027]); (1108, [1028]); (1109, [1029]);
   (1110, [1030]); (1111, [1031]); (1112, [1032]); (1113, [1033]);
   (1114, [1034]); (1115, [1035]); (1116, [1036]); (1117, [1037]);
   (1118, [1038]); (1119, [1039]); (1121, [1120]); (1123, [1122]);
   (1125, [1124]); (1127, [1126]); (1129, [1128]); (1131, [1130]);
   (1133, [1132]); (1135, [1134]); (1137, [1136]); (1139, [1138]);
   (1141, [1140]); (1143, [1142]); (1145, [1144]); (1147, [1146]);
   (1149, [1148]); (1151, [1150]); (1153, [1152]); (1163, [1162]);
   (1165, [1164]); (1167, [1166]); (1169, [1168]); (1171, [1170]);
   (1173, [1172]); (1175, [1174]); (1177, [1176]); (1179, [1178]);
   (1181, [1180]); (1183, [1182]); (1185, [1184]); (1187, [1186]);
   (1189, [1188]); (1191, [1190]); (1193, [1192]); (1195, [1194]);
   (1197, [1196]); (1199, [1198]); (1201, [1200]); (1203, [1202]);
   (1205, [1204]); (1207, [1206]); (1209, [1208]); (1211, [1210]);
   (1213, [1212]); (1215, [1214]); (1218, [1217]); (1220, [1219]);
   (1222, [1221]); (1224, [1223]); (1226, [1225]); (1228, [1227]);
   (1230, [1229]); (1231, [1216]); (1233, [1232]); (1235, [1234]);
   (1237, [1236]); (1239, [1238]); (1241, [1240]); (1243, [1242]);
   (1245, [1244]); (1247, [1246]); (1249, [1248]); (1251, [1250]);
   (1253, [1252]); (1255, [1254]); (1257, [1256]); (1259, [1258]);
   (1261, [1260]); (1263, [1262]); (1265, [1264]); (1267, [1266]);
   (1269, [1268]); (1271, [1270]); (1273, [1272]); (1275, [1274]);
   (1277, [1276]); (1279, [1278]); (1281, [1280]); (1283, [1282]);
   (1285, [1284]); (1287, [1286]); (1289, [1288]); (1291, [1290]);
   (1293, [1292]); (1295, [1294]); (1297, [1296]); (1299, [1298]);
   (1301, [1300]); (1303, [1302]); (1305, [1304]); (1307, [1306]);
   (1309, [1308]); (1311, [1310]); (1313, [1312]); (1315, [1314]);
   (1317, [1316]); (1319, [1318]); (1321, [1320]); (1323, [1322]);
   (1325, [1324]); (1327, [1326]); (1377, [1329]); (1378, [1330]);
   (1379, [1331]); (1380, [1332]); (1381, [1333]); (1382, [1334]);
   (1383, [1335]); (1384, [1336]); (1385, [1337]); (1386, [1338]);
   (1387, [1339]); (1388, [1340]); (1389, [1341]); (1390, [1342]);
   (1391, [1343]); (1392, [1344]); (1393, [1345]); (1394, [1346]);
   (1395, [1347]); (1396, [1348]); (1397, [1349]); (1398, [1350]);
   (1399, [1351]); (1400, [1352]); (1401, [1353]); (1402, [1354]);
   (1403, [1355]); (1404, [1356]); (1405, [1357]); (1406, [1358]);
   (1407, [1359]); (1408, [1360]); (1409, [1361]); (1410, [1362]);
   (1411, [1363]); (1412, [1364]); (1413, [1365]); (1414, [1366]);
   (1415, [1333; 1362]); (4304, [7312]); (4305, [7313]); (4306, [7314]);
   (4307, [7315]); (4308, [7316]); (4309, [7317]); (4310, [7318]);
   (4311, [7319]); (4312, [7320]); (4313, [7321]); (4314, [7322]);
   (4315, [7323]); (4316, [7324]); (4317, [7325]); (4318, [7326]);
   (4319, [7327]); (4320, [7328]); (4321, [7329]); (4322, [7330]);
   (4323, [7331]); (4324, [7332]); (4325, [7333]); (4326, [7334]);
   (4327, [7335]); (4328, [7336]); (4329, [7337]); (4330, [7338]);
   (4331, [7339]); (4332, [7340]); (4333, [7341]); (4334, [7342]);
   (4335, [7343]); (4336, [7344]); (4337, [7345]); (4338, [7346]);
   (4339, [7347]); (4340, [7348]); (4341, [7349]); (4342, [7350]);
   (4343, [7351]); (4344, [7352]); (4345, [7353]); (4346, [7354]);
   (4349, [7357]); (4350, [7358]); (4351, [7359]); (5112, [5104]);
   (5113, [5105]); (5114, [5106]); (5115, [5107]); (5116, [5108]);
   (5117, [5109]); (7296, [1042]); (7297, [1044]); (7298, [1054]);
   (7299, [1057]); (7300, [1058]); (7301, [1058]); (7302, [1066]);
   (7303, [1122]); (7304, [42570]); (7545, [42877]); (7549, [11363]);
   (7566, [42950]); (7681, [7680]); (7683, [7682]); (7685, [7684]);
   (7687, [7686]); (7689, [7688]); (7691, [7690]); (7693, [7692]);
   (7695, [7694]); (7697, [7696]); (7699, [7698]); (7701, [7700]);
   (7703, [7702]); (7705, [7704]); (7707, [7706]); (7709, [7708]);
   (7711, [7710]); (7713, [7712]); (7715, [7714]); (7717, [7716]);
   (7719, [7718]); (7721, [7720]); (7723, [7722]); (7725, [7724]);
   (7727, [7726]); (7729, [7728]); (7731, [7730]); (7733, [7732]);
   (7735, [7734]); (7737, [7736]); (7739, [7738]); (7741, [7740]);
   (7743, [7742]); (7745, [7744]); (7747, [7746]); (7749, [7748]);
   (7751, [7750]); (7753, [7752]); (7755, [7754]); (7757, [7756]);
   (7759, [7758]); (7761, [7760]); (7763, [7762]); (7765, [7764]);
   (7767, [7766]); (7769, [7768]); (7771, [7770]); (7773, [7772]);
   (7775, [7774]); (7777, [7776]); (7779, [7778]); (7781, [7780]);
   (7783, [7782]); (7785, [7784]); (7787, [7786]); (7789, [7788]);
   (7791, [7790]); (7793, [7792]); (7795, [7794]); (7797, [7796]);
   (7799, [7798]); (7801, [7800]); (7803, [7802]); (7805, [7804]);
   (7807, [7806]); (7809, [7808]); (7811, [7810]); (7813, [7812]);
   (7815, [7814]); (7817, [7816]); (7819, [7818]); (7821, [7820]);
   (7823, [7822]); (7825, [7824]); (7827, [7826]); (7829, [7828]);
   (7830, [72; 817]); (7831, [84; 776]); (7832, [87; 778]); (7833, [89; 778]);
   (7834, [65; 702]); (7835, [7776]); (7841, [7840]); (7843, [7842]);
   (7845, [7844]); (7847, [7846]); (7849, [7848]); (7851, [7850]);
   (7853, [7852]); (7855, [7854]); (7857, [7856]); (7859, [7858]);
   (7861, [7860]); (7863, [7862]); (7865, [7864]); (7867, [7866]);
   (7869, [7868]); (7871, [7870]); (7873, [7872]); (7875, [7874]);
   (7877, [7876]); (7879, [7878]); (7881, [7880]); (7883, [7882]);
   (7885, [7884]); (7887, [7886]); (7889, [7888]); (7891, [7890]);
   (7893, [7892]); (7895, [7894]); (7897, [7896]); (7899, [7898]);
   (7901, [7900]); (7903, [7902]); (7905, [7904]); (7907, [7906]);
   (7909, [7908]); (7911, [7910]); (7913, [7912]); (7915, [7914]);
   (7917, [7916]); (7919, [7918]); (7921, [7920]); (7923, [7922]);
   (7925, [7924]); (7927, [7926]); (7929, [7928]); (7931, [7930]);
   (7933, [7932]); (7935, [7934]); (7936, [7944]); (7937, [7945]);
   (7938, [7946]); (7939, [7947]); (7940, [7948]); (7941, [7949]);
   (7942, [7950]); (7943, [7951]); (7952, [7960]); (7953, [7961]);
   (7954, [7962]); (7955, [7963]); (7956, [7964]); (7957, [7965]);
   (7968, [7976]); (7969, [7977]); (7970, [7978]); (7971, [7979]);
   (7972, [7980]); (7973, [7981]); (7974, [7982]); (7975, [7983]);
   (7984, [7992]); (7985, [7993]); (7986, [7994]); (7987, [7995]);
   (7988, [7996]); (7989, [7997]); (7990, [7998]); (7991, [7999]);
   (8000, [8008]); (8001, [8009]); (8002, [8010]); (8003, [8011]);
   (8004, [8012]); (8005, [8013]); (8016, [933; 787]); (8017, [8025]);
   (8018, [933; 787; 768]); (8019, [8027]); (8020, [933; 787; 769]);
   (8021, [8029]); (8022, [933; 787; 834]); (8023, [8031]); (8032, [8040]);
   (8033, [8041]); (8034, [8042]); (8035, [8043]); (8036, [8044]);
   (8037, [8045]); (8038, [8046]); (8039, [8047]); (8048, [8122]);
   (8049, [8123]); (8050, [8136]); (8051, [8137]); (8052, [8138]);
   (8053, [8139]); (8054, [8154]); (8055, [8155]); (8056, [8184]);
   (8057, [8185]); (8058, [8170]); (8059, [8171]); (8060, [8186]);
   (8061, [8187]); (8064, [7944; 921]); (8065, [7945; 921]);
   (8066, [7946; 921]); (8067, [7947; 921]); (8068, [7948; 921]);
   (8069, [7949; 921]); (8070, [7950; 921]); (8071, [7951; 921]);
   (8072, [7944; 921]); (8073, [7945; 921]); (8074, [7946; 921]);
   (8075, [7947; 921]); (8076, [7948; 921]); (8077, [7949; 921]);
   (8078, [7950; 921]); (8079, [7951; 921]); (8080, [7976; 921]);
   (8081, [7977; 921]); (8082, [7978; 921]); (8083, [7979; 921]);
   (8084, [7980; 921]); (8085, [7981; 921]); (8086, [7982; 921]);
   (8087, [7983; 921]); (8088, [7976; 921]); (8089, [7977; 921]);
   (8090, [7978; 921]); (8091, [7979; 921]); (8092, [7980; 921]);
   (8093, [7981; 921]); (8094, [7982; 921]); (8095, [7983; 921]);
   (8096, [8040; 921]); (8097, [8041; 921]); (8098, [8042; 921]);
   (8099, [8043; 921]); (8100, [8044; 921]); (8101, [8045; 921]);
   (8102, [8046; 921]); (8103, [8047; 921]); (8104, [8040; 921]);
   (8105, [8041; 921]); (8106, [8042; 921]); (8107, [8043; 921]);
   (8108, [8044; 921]); (8109, [8045; 921]); (8110, [8046; 921]);
   (8111, [8047; 921]); (8112, [8120]); (8113, [8121]); (8114, [8122; 921]);
   (8115, [913; 921]); (8116, [902; 921]); (8118, [913; 834]);
   (8119, [913; 834; 921]); (8124, [913; 921]); (8126, [921]);
   (8130, [8138; 921]); (8131, [919; 921]); (8132, [905; 921]);
   (8134, [919; 834]); (8135, [919; 834; 921]); (8140, [919; 921]);
   (8144, [8152]); (8145, [8153]); (8146, [921; 776; 768]);
   (8147, [921; 776; 769]); (8150, [921; 834]); (8151, [921; 776; 834]);
   (8160, [8168]); (8161, [8169]); (8162, [933; 776; 768]);
   (8163, [933; 776; 769]); (8164, [929; 787]); (8165, [8172]);
   (8166, [933; 834]); (8167, [933; 776; 834]); (8178, [8186; 921]);
   (8179, [937; 921]); (8180, [911; 921]); (8182, [937; 834]);
   (8183, [937; 834; 921]); (8188, [937; 921]); (8526, [8498]);
   (8560, [8544]); (8561, [8545]); (8562, [8546]); (8563, [8547]);
   (8564, [8548]); (8565, [8549]); (8566, [8550]); (8567, [8551]);
   (8568, [8552]); (8569, [8553]); (8570, [8554]); (8571, [8555]);
   (8572, [8556]); (8573, [8557]); (8574, [8558]); (8575, [8559]);
   (8580, [8579]); (9424, [9398]); (9425, [9399]); (9426, [9400]);
   (9427, [9401]); (9428, [9402]); (9429, [9403]); (9430, [9404]);
   (9431, [9405]); (9432, [9406]); (9433, [9407]); (9434, [9408]);
   (9435, [9409]); (9436, [9410]); (9437, [9411]); (9438, [9412]);
   (9439, [9413]); (9440, [9414]); (9441, [9415]); (9442, [9416]);
   (9443, [9417]); (9444, [9418]); (9445, [9419]); (9446, [9420]);
   (9447, [9421]); (9448, [9422]); (9449, [9423]); (11312, [11264]);
   (11313, [11265]); (11314, [11266]); (11315, [11267]); (11316, [11268]);
   (11317, [11269]); (11318, [11270]); (11319, [11271]); (11320, [11272]);
   (11321, [11273]); (11322, [11274]); (11323, [11275]); (11324, [11276]);
   (11325, [11277]); (11326, [11278]); (11327, [11279]); (11328, [11280]);
   (11329, [11281]); (11330, [11282]); (11331, [11283]); (11332, [11284]);
   (11333, [11285]); (11334, [11286]); (11335, [11287]); (11336, [11288]);
   (11337, [11289]); (11338, [11290]); (11339, [11291]); (11340, [11292]);
   (11341, [11293]); (11342, [11294]); (11343, [11295]); (11344, [11296]);
   (11345, [11297]); (11346, [11298]); (11347, [11299]); (11348, [11300]);
   (11349, [11301]); (11350, [11302]); (11351, [11303]); (11352, [11304]);
   (11353, [11305]); (11354, [11306]); (11355, [11307]); (11356, [11308]);
   (11357, [11309]); (11358, [11310]); (11359, [11311]); (11361, [11360]);
   (11365, [570]); (11366, [574]); (11368, [11367]); (11370, [11369]);
   (11372, [11371]); (11379, [11378]); (11382, [11381]); (11393, [11392]);
   (11395, [11394]); (11397, [11396]); (11399, [11398]); (11401, [11400]);
   (11403, [11402]); (11405, [11404]); (11407, [11406]); (11409, [11408]);
   (11411, [11410]); (11413, [11412]); (11415, [11414]); (11417, [11416]);
   (11419, [11418]); (11421, [11420]); (11423, [11422]); (11425, [11424]);
   (11427, [11426]); (11429, [11428]); (11431, [11430]); (11433, [11432]);
   (11435, [11434]); (11437, [11436]); (11439, [11438]); (11441, [11440]);
   (11443, [11442]); (11445, [11444]); (11447, [11446]); (11449, [11448]);
   (11451, [11450]); (11453, [11452]); (11455, [11454]); (11457, [11456]);
   (11459, [11458]); (11461, [11460]); (11463, [11462]); (11465, [11464]);
   (11467, [11466]); (11469, [11468]); (11471, [11470]); (11473, [11472]);
   (11475, [11474]); (11477, [11476]); (11479, [11478]); (11481, [11480]);
   (11483, [11482]); (11485, [11484]); (11487, [11486]); (11489, [11488]);
   (11491, [11490]); (11500, [11499]); (11502, [11501]); (11507, [11506]);
   (11520, [4256]); (11521, [4257]); (11522, [4258]); (11523, [4259]);
   (11524, [4260]); (11525, [4261]); (11526, [4262]); (11527, [4263]);
   (11528, [4264]); (11529, [4265]); (11530, [4266]); (11531, [4267]);
   (11532, [4268]); (11533, [4269]); (11534, [4270]); (11535, [4271]);
   (11536, [4272]); (11537, [4273]); (11538, [4274]); (11539, [4275]);
   (11540, [4276]); (11541, [4277]); (11542, [4278]); (11543, [4279]);
   (11544, [4280]); (11545, [4281]); (11546, [4282]); (11547, [4283]);
   (11548, [4284]); (11549, [4285]); (11550, [4286]); (11551, [4287]);
   (11552, [4288]); (11553, [4289]); (11554, [4290]); (11555, [4291]);
   (11556, [4292]); (11557, [4293]); (11559, [4295]); (11565, [4301]);
   (42561, [42560]); (42563, [42562]); (42565, [42564]); (42567, [42566]);
   (42569, [42568]); (42571, [42570]); (42573, [42572]); (42575, [42574]);
   (42577, [42576]); (42579, [42578]); (42581, [42580]); (42583, [42582]);
   (42585, [42584]); (42587, [42586]); (42589, [42588]); (42591, [42590]);
   (42593, [42592]); (42595, [42594]); (42597, [42596]); (42599, [42598]);
   (42601, [42600]); (42603, [42602]); (42605, [42604]); (42625, [42624]);
   (42627, [42626]); (42629, [42628]); (42631, [42630]); (42633, [42632]);
   (42635, [42634]); (42637, [42636]); (42639, [42638]); (42641, [42640]);
   (42643, [42642]); (42645, [42644]); (42647, [42646]); (42649, [42648]);
   (42651, [42650]); (42787, [42786]); (42789, [42788]); (42791, [42790]);
   (42793, [42792]); (42795, [42794]); (42797, [42796]); (42799, [42798]);
   (42803, [42802]); (42805, [42804]); (42807, [42806]); (42809, [42808]);
   (42811, [42810]); (42813, [42812]); (42815, [42814]); (42817, [42816]);
   (42819, [42818]); (42821, [42820]); (42823, [42822]); (42825, [42824]);
   (42827, [42826]); (42829, [42828]); (42831, [42830]); (42833, [42832]);
   (42835, [42834]); (42837, [42836]); (42839, [42838]); (42841, [42840]);
   (42843, [42842]); (42845, [42844]); (42847, [42846]); (42849, [42848]);
   (42851, [42850]); (42853, [42852]); (42855, [42854]); (42857, [42856]);
   (42859, [42858]); (42861, [42860]); (42863, [42862]); (42874, [42873]);
   (42876, [42875]); (42879, [42878]); (42881, [42880]); (42883, [42882]);
   (42885, [42884]); (42887, [42886]); (42892, [42891]); (42897, [42896]);
   (42899, [42898]); (42900, [42948]); (42903, [42902]); (42905, [42904]);
   (42907, [42906]); (42909, [42908]); (42911, [42910]); (42913, [42912]);
   (42915, [42914]); (42917, [42916]); (42919, [42918]); (42921, [42920]);
   (42933, [42932]); (42935, [42934]); (42937, [42936]); (42939, [42938]);
   (42941, [42940]); (42943, [42942]); (42945, [42944]); (42947, [42946]);
   (42952, [42951]); (42954, [42953]); (42961, [42960]); (42967, [42966]);
   (42969, [42968]); (42998, [42997]); (43859, [42931]); (43888, [5024]);
   (43889, [5025]); (43890, [5026]); (43891, [5027]); (43892, [5028]);
   (43893, [5029]); (43894, [5030]); (43895, [5031]); (43896, [5032]);
   (43897, [5033]); (43898, [5034]); (43899, [5035]); (43900, [5036]);
   (43901, [5037]); (43902, [5038]); (43903, [5039]); (43904, [5040]);
   (43905, [5041]); (43906, [5042]); (43907, [5043]); (43908, [5044]);
   (43909, [5045]); (43910, [5046]); (43911, [5047]); (43912, [5048]);
   (43913, [5049]); (43914, [5050]); (43915, [5051]); (43916, [5052]);
   (43917, [5053]); (43918, [5054]); (43919, [5055]); (43920, [5056]);
   (43921, [5057]); (43922, [5058]); (43923, [5059]); (43924, [5060]);
   (43925, [5061]); (43926, [5062]); (43927, [5063]); (43928, [5064]);
   (43929, [5065]); (43930, [5066]); (43931, [5067]); (43932, [5068]);
   (43933, [5069]); (43934, [5070]); (43935, [5071]); (43936, [5072]);
   (43937, [5073]); (43938, [5074]); (43939, [5075]); (43940, [5076]);
   (43941, [5077]); (43942, [5078]); (43943, [5079]); (43944, [5080]);
   (43945, [5081]); (43946, [5082]); (43947, [5083]); (43948, [5084]);
   (43949, [5085]); (43950, [5086]); (43951, [5087]); (43952, [5088]);
   (43953, [5089]); (43954, [5090]); (43955, [5091]); (43956, [5092]);
   (43957, [5093]); (43958, [5094]); (43959, [5095]); (43960, [5096]);
   (43961, [5097]); (43962, [5098]); (43963, [5099]); (43964, [5100]);
   (43965, [5101]); (43966, [5102]); (43967, [5103]); (64256, [70; 70]);
   (64257, [70; 73]); (64258, [70; 76]); (64259, [70; 70; 73]);
   (64260, [70; 70; 76]); (64261, [83; 84]); (64262, [83; 84]);
   (64275, [1348; 1350]); (64276, [1348; 1333]); (64277, [1348; 1339]);
   (64278, [1358; 1350]); (64279, [1348; 1341]); (65345, [65313]);
   (65346, [65314]); (65347, [65315]); (65348, [65316]); (65349, [65317]);
   (65350, [65318]); (65351, [65319]); (65352, [65320]); (65353, [65321]);
   (65354, [65322]); (65355, [65323]); (65356, [65324]); (65357, [65325]);
   (65358, [65326]); (65359, [65327]); (65360, [65328]); (65361, [65329]);
   (65362, [65330]); (65363, [65331]); (65364, [65332]); (65365, [65333]);
   (65366, [65334]); (65367, [65335]); (65368, [65336]); (65369, [65337]);
   (65370, [65338]); (66600, [66560]); (66601, [66561]); (66602, [66562]);
   (66603, [66563]); (66604, [66564]); (66605, [66565]); (66606, [66566]);
   (66607, [66567]); (66608, [66568]); (66609, [66569]); (66610, [66570]);
   (66611, [66571]); (66612, [66572]); (66613, [66573]); (66614, [66574]);
   (66615, [66575]); (66616, [66576]); (66617, [66577]); (66618, [66578]);
   (66619, [66579]); (66620, [66580]); (66621, [66581]); (66622, [66582]);
   (66623, [66583]); (66624, [66584]); (66625, [66585]); (66626, [66586]);
   (66627, [66587]); (66628, [66588]); (66629, [66589]); (66630, [66590]);
   (66631, [66591]); (66632, [66592]); (66633, [66593]); (66634, [66594]);
   (66635, [66595]); (66636, [66596]); (66637, [66597]); (66638, [66598]);
   (66639, [66599]); (66776, [66736]); (66777, [66737]); (66778, [66738]);
   (66779, [66739]); (66780, [66740]); (66781, [66741]); (66782, [66742]);
   (66783, [66743]); (66784, [66744]); (66785, [66745]); (66786, [66746]);
   (66787, [66747]); (66788, [66748]); (66789, [66749]); (66790, [66750]);
   (66791, [66751]); (66792, [66752]); (66793, [66753]); (66794, [66754]);
   (66795, [66755]); (66796, [66756]); (66797, [66757]); (66798, [66758]);
   (66799, [66759]); (66800, [66760]); (66801, [66761]); (66802, [66762]);
   (66803, [66763]); (66804, [66764]); (66805, [66765]); (66806, [66766]);
   (66807, [66767]); (66808, [66768]); (66809, [66769]); (66810, [66770]);
   (66811, [66771]); (66967, [66928]); (66968, [66929]); (66969, [66930]);
   (66970, [66931]); (66971, [66932]); (66972, [66933]); (66973, [66934]);
   (66974, [66935]); (66975, [66936]); (66976, [66937]); (66977, [66938]);
   (66979, [66940]); (66980, [66941]); (66981, [66942]); (66982, [66943]);
   (66983, [66944]); (66984, [66945]); (66985, [66946]); (66986, [66947]);
   (66987, [66948]); (66988, [66949]); (66989, [66950]); (66990, [66951]);
   (66991, [66952]); (66992, [66953]); (66993, [66954]); (66995, [66956]);
   (66996, [66957]); (66997, [66958]); (66998, [66959]); (66999, [66960]);
   (67000, [66961]); (67001, [66962]); (67003, [66964]); (67004, [66965]);
   (68800, [68736]); (68801, [68737]); (68802, [68738]); (68803, [68739]);
   (68804, [68740]); (68805, [68741]); (68806, [68742]); (68807, [68743]);
   (68808, [68744]); (68809, [68745]); (68810, [68746]); (68811, [68747]);
   (68812, [68748]); (68813, [68749]); (68814, [68750]); (68815, [68751]);
   (68816, [68752]); (68817, [68753]); (68818, [68754]); (68819, [68755]);
   (68820, [68756]); (68821, [68757]); (68822, [68758]); (68823, [68759]);
   (68824, [68760]); (68825, [68761]); (68826, [68762]); (68827, [68763]);
   (68828, [68764]); (68829, [68765]); (68830, [68766]); (68831, [68767]);
   (68832, [68768]); (68833, [68769]); (68834, [68770]); (68835, [68771]);
   (68836, [68772]); (68837, [68773]); (68838, [68774]); (68839, [68775]);
   (68840, [68776]); (68841, [68777]); (68842, [68778]); (68843, [68779]);
   (68844, [68780]); (68845, [68781]); (68846, [68782]); (68847, [68783]);
   (68848, [68784]); (68849, [68785]); (68850, [68786]); (71872, [71840]);
   (71873, [71841]); (71874, [71842]); (71875, [71843]); (71876, [71844]);
   (71877, [71845]); (71878, [71846]); (71879, [71847]); (71880, [71848]);
   (71881, [71849]); (71882, [71850]); (71883, [71851]); (71884, [71852]);
   (71885, [71853]); (71886, [71854]); (71887, [71855]); (71888, [71856]);
   (71889, [71857]); (71890, [71858]); (71891, [71859]); (71892, [71860]);
   (71893, [71861]); (71894, [71862]); (71895, [71863]); (71896, [71864]);
   (71897, [71865]); (71898, [71866]); (71899, [71867]); (71900, [71868]);
   (71901, [71869]); (71902, [71870]); (71903, [71871]); (93792, [93760]);
   (93793, [93761]); (93794, [93762]); (93795, [93763]); (93796, [93764]);
   (93797, [93765]); (93798, [93766]); (93799, [93767]); (93800, [93768]);
   (93801, [93769]); (93802, [93770]); (93803, [93771]); (93804, [93772]);
   (93805, [93773]); (93806, [93774]); (93807, [93775]); (93808, [93776]);
   (93809, [93777]); (93810, [93778]); (93811, [93779]); (93812, [93780]);
   (93813, [93781]); (93814, [93782]); (93815, [93783]); (93816, [93784]);
   (93817, [93785]); (93818, [93786]); (93819, [93787]); (93820, [93788]);
   (93821, [93789]); (93822, [93790]); (93823, [93791]); (125218, [125184]);
   (125219, [125185]); (125220, [125186]); (125221, [125187]);
   (125222, [125188]); (125223, [125189]); (125224, [125190]);
   (125225, [125191]); (125226, [125192]); (125227, [125193]);
   (125228, [125194]); (125229, [125195]); (125230, [125196]);
   (125231, [125197]); (125232, [125198]); (125233, [125199]);
   (125234, [125200]); (125235, [125201]); (125236, [125202]);
   (125237, [125203]); (125238, [125204]); (125239, [125205]);
   (125240, [125206]); (125241, [125207]); (125242, [125208]);
   (125243, [125209]); (125244, [125210]); (125245, [125211]);
   (125246, [125212]); (125247, [125213]); (125248, [125214]);
   (125249, [125215]); (125250, [125216]); (125251, [125217])]%N.

(** The lower-case mapping of the code points from 128 on that have one. *)
Definition lower_table : list (N * list N) :=
  [(192, [224]); (193, [225]); (194, [226]); (195, [227]); (196, [228]);
   (197, [229]); (198, [230]); (199, [231]); (200, [232]); (201, [233]);
   (202, [234]); (203, [235]); (204, [236]); (205, [237]); (206, [238]);
   (207, [239]); (208, [240]); (209, [241]); (210, [242]); (211, [243]);
   (212, [244]); (213, [245]); (214, [246]); (216, [248]); (217, [249]);
   (218, [250]); (219, [251]); (220, [252]); (221, [253]); (222, [254]);
   (256, [257]); (258, [259]); (260, [261]); (262, [263]); (264, [265]);
   (266, [267]); (268, [269]); (270, [271]); (272, [273]); (274, [275]);
   (276, [277]); (278, [279]); (280, [281]); (282, [283]); (284, [285]);
   (286, [287]); (288, [289]); (290, [291]); (292, [293]); (294, [295]);
   (296, [297]); (298, [299]); (300, [301]); (302, [303]); (304, [105; 775]);
   (306, [307]); (308, [309]); (310, [311]); (313, [314]); (315, [316]);
   (317, [318]); (319, [320]); (321, [322]); (323, [324]); (325, [326]);
   (327, [328]); (330, [331]); (332, [333]); (334, [335]); (336, [337]);
   (338, [339]); (340, [341]); (342, [343]); (344, [345]); (346, [347]);
   (348, [349]); (350, [351]); (352, [353]); (354, [355]); (356, [357]);
   (358, [359]); (360, [361]); (362, [363]); (364, [365]); (366, [367]);
   (368, [369]); (370, [371]); (372, [373]); (374, [375]); (376, [255]);
   (377, [378]); (379, [380]); (381, [382]); (385, [595]); (386, [387]);
   (388, [389]); (390, [596]); (391, [392]); (393, [598]); (394, [599]);
   (395, [396]); (398, [477]); (399, [601]); (400, [603]); (401, [402]);
   (403, [608]); (404, [611]); (406, [617]); (407, [616]); (408, [409]);
   (412, [623]); (413, [626]); (415, [629]); (416, [417]); (418, [419]);
   (420, [421]); (422, [640]); (423, [424]); (425, [643]); (428, [429]);
   (430, [648]); (431, [432]); (433, [650]); (434, [651]); (435, [436]);
   (437, [438]); (439, [658]); (440, [441]); (444, [445]); (452, [454]);
   (453, [454]); (455, [457]); (456, [457]); (458, [460]); (459, [460]);
   (461, [462]); (463, [464]); (465, [466]); (467, [468]); (469, [470]);
   (471, [472]); (473, [474]); (475, [476]); (478, [479]); (480, [481]);
   (482, [483]); (484, [485]); (486, [487]); (488, [489]); (490, [491]);
   (492, [493]); (494, [495]); (497, [499]); (498, [499]); (500, [501]);
   (502, [405]); (503, [447]); (504, [505]); (506, [507]); (508, [509]);
   (510, [511]); (512, [513]); (514, [515]); (516, [517]); (518, [519]);
   (520, [521]); (522, [523]); (524, [525]); (526, [527]); (528, [529]);
   (530, [531]); (532, [533]); (534, [535]); (536, [537]); (538, [539]);
   (540, [541]); (542, [543]); (544, [414]); (546, [547]); (548, [549]);
   (550, [551]); (552, [553]); (554, [555]); (556, [557]); (558, [559]);
   (560, [561]); (562, [563]); (570, [11365]); (571, [572]); (573, [410]);
   (574, [11366]); (577, [578]); (579, [384]); (580, [649]); (581, [652]);
   (582, [583]); (584, [585]); (586, [587]); (588, [589]); (590, [591]);
   (880, [881]); (882, [883]); (886, [887]); (895, [1011]); (902, [940]);
   (904, [941]); (905, [942]); (906, [943]); (908, [972]); (910, [973]);
   (911, [974]); (913, [945]); (914, [946]); (915, [947]); (916, [948]);
   (917, [949]); (918, [950]); (919, [951]); (920, [952]); (921, [953]);
   (922, [954]); (923, [955]); (924, [956]); (925, [957]); (926, [958]);
   (927, [959]); (928, [960]); (929, [961]); (931, [963]); (932, [964]);
   (933, [965]); (934, [966]); (935, [967]); (936, [968]); (937, [969]);
   (938, [970]); (939, [971]); (975, [983]); (984, [985]); (986, [987]);
   (988, [989]); (990, [991]); (992, [993]); (994, [995]); (996, [997]);
   (998, [999]); (1000, [1001]); (1002, [1003]); (1004, [1005]);
   (1006, [1007]); (1012, [952]); (1015, [1016]); (1017, [1010]);
   (1018, [1019]); (1021, [891]); (1022, [892]); (1023, [893]);
   (1024, [1104]); (1025, [1105]); (1026, [1106]); (1027, [1107]);
   (1028, [1108]); (1029, [1109]); (1030, [1110]); (1031, [1111]);
   (1032, [1112]); (1033, [1113]); (1034, [1114]); (1035, [1115]);
   (1036, [1116]); (1037, [1117]); (1038, [1118]); (1039, [1119]);
   (1040, [1072]); (1041, [1073]); (1042, [1074]); (1043, [1075]);
   (1044, [1076]); (1045, [1077]); (1046, [1078]); (1047, [1079]);
   (1048, [1080]); (1049, [1081]); (1050, [1082]); (1051, [1083]);
   (1052, [1084]); (1053, [1085]); (1054, [1086]); (1055, [1087]);
   (1056, [1088]); (1057, [1089]); (1058, [1090]); (1059, [1091]);
   (1060, [1092]); (1061, [1093]); (1062, [1094]); (1063, [1095]);
   (1064, [1096]); (1065, [1097]); (1066, [1098]); (1067, [1099]);
   (1068, [1100]); (1069, [1101]); (1070, [1102]); (1071, [1103]);
   (1120, [1121]); (1122, [1123]); (1124, [1125]); (1126, [1127]);
   (1128, [1129]); (1130, [1131]); (1132, [1133]); (1134, [1135]);
   (1136, [1137]); (1138, [1139]); (1140, [1141]); (1142, [1143]);
   (1144, [1145]); (1146, [1147]); (1148, [1149]); (1150, [1151]);
   (1152, [1153]); (1162, [1163]); (1164, [1165]); (1166, [1167]);
   (1168, [1169]); (1170, [1171]); (1172, [1173]); (1174, [1175]);
   (1176, [1177]); (1178, [1179]); (1180, [1181]); (1182, [1183]);
   (1184, [1185]); (1186, [1187]); (1188, [1189]); (1190, [1191]);
   (1192, [1193]); (1194, [1195]); (1196, [1197]); (1198, [1199]);
   (1200, [1201]); (1202, [1203]); (1204, [1205]); (1206, [1207]);
   (1208, [1209]); (1210, [1211]); (1212, [1213]); (1214, [1215]);
   (1216, [1231]); (1217, [1218]); (1219, [1220]); (1221, [1222]);
   (1223, [1224]); (1225, [1226]); (1227, [1228]); (1229, [1230]);
   (1232, [1233]); (1234, [1235]); (1236, [1237]); (1238, [1239]);
   (1240, [1241]); (1242, [1243]); (1244, [1245]); (1246, [1247]);
   (1248, [1249]); (1250, [1251]); (1252, [1253]); (1254, [1255]);
   (1256, [1257]); (1258, [1259]); (1260, [1261]); (1262, [1263]);
   (1264, [1265]); (1266, [1267]); (1268, [1269]); (1270, [1271]);
   (1272, [1273]); (1274, [1275]); (1276, [1277]); (1278, [1279]);
   (1280, [1281]); (1282, [1283]); (1284, [1285]); (1286, [1287]);
   (1288, [1289]); (1290, [1291]); (1292, [1293]); (1294, [1295]);
   (1296, [1297]); (1298, [1299]); (1300, [1301]); (1302, [1303]);
   (1304, [1305]); (1306, [1307]); (1308, [1309]); (1310, [1311]);
   (1312, [1313]); (1314, [1315]); (1316, [1317]); (1318, [1319]);
   (1320, [1321]); (1322, [1323]); (1324, [1325]); (1326, [1327]);
   (1329, [1377]); (1330, [1378]); (1331, [1379]); (1332, [1380]);
   (1333, [1381]); (1334, [1382]); (1335, [1383]); (1336, [1384]);
   (1337, [1385]); (1338, [1386]); (1339, [1387]); (1340, [1388]);
   (1341, [1389]); (1342, [1390]); (1343, [1391]); (1344, [1392]);
   (1345, [1393]); (1346, [1394]); (1347, [1395]); (1348, [1396]);
   (1349, [1397]); (1350, [1398]); (1351, [1399]); (1352, [1400]);
   (1353, [1401]); (1354, [1402]); (1355, [1403]); (1356, [1404]);
   (1357, [1405]); (1358, [1406]); (1359, [1407]); (1360, [1408]);
   (1361, [1409]); (1362, [1410]); (1363, [1411]); (1364, [1412]);
   (1365, [1413]); (1366, [1414]); (4256, [11520]); (4257, [11521]);
   (4258, [11522]); (4259, [11523]); (4260, [11524]); (4261, [11525]);
   (4262, [11526]); (4263, [11527]); (4264, [11528]); (4265, [11529]);
   (4266, [11530]); (4267, [11531]); (4268, [11532]); (4269, [11533]);
   (4270, [11534]); (4271, [11535]); (4272, [11536]); (4273, [11537]);
   (4274, [11538]); (4275, [11539]); (4276, [11540]); (4277, [11541]);
   (4278, [11542]); (4279, [11543]); (4280, [11544]); (4281, [11545]);
   (4282, [11546]); (4283, [11547]); (4284, [11548]); (4285, [11549]);
   (4286, [11550]); (4287, [11551]); (4288, [11552]); (4289, [11553]);
   (4290, [11554]); (4291, [11555]); (4292, [11556]); (4293, [11557]);
   (4295, [11559]); (4301, [11565]); (5024, [43888]); (5025, [43889]);
   (5026, [43890]); (5027, [43891]); (5028, [43892]); (5029, [43893]);
   (5030, [43894]); (5031, [43895]); (5032, [43896]); (5033, [43897]);
   (5034, [43898]); (5035, [43899]); (5036, [43900]); (5037, [43901]);
   (5038, [43902]); (5039, [43903]); (5040, [43904]); (5041, [43905]);
   (5042, [43906]); (5043, [43907]); (5044, [43908]); (5045, [43909]);
   (5046, [43910]); (5047, [43911]); (5048, [43912]); (5049, [43913]);
   (5050, [43914]); (5051, [43915]); (5052, [43916]); (5053, [43917]);
   (5054, [43918]); (5055, [43919]); (5056, [43920]); (5057, [43921]);
   (5058, [43922]); (5059, [43923]); (5060, [43924]); (5061, [43925]);
   (5062, [43926]); (5063, [43927]); (5064, [43928]); (5065, [43929]);
   (5066, [43930]); (5067, [43931]); (5068, [43932]); (5069, [43933]);
   (5070, [43934]); (5071, [43935]); (5072, [43936]); (5073, [43937]);
   (5074, [43938]); (5075, [43939]); (5076, [43940]); (5077, [43941]);
   (5078, [43942]); (5079, [43943]); (5080, [43944]); (5081, [43945]);
   (5082, [43946]); (5083, [43947]); (5084, [43948]); (5085, [43949]);
   (5086, [43950]); (5087, [43951]); (5088, [43952]); (5089, [43953]);
   (5090, [43954]); (5091, [43955]); (5092, [43956]); (5093, [43957]);
   (5094, [43958]); (5095, [43959]); (5096, [43960]); (5097, [43961]);
   (5098, [43962]); (5099, [43963]); (5100, [43964]); (5101, [43965]);
   (5102, [43966]); (5103, [43967]); (5104, [5112]); (5105, [5113]);
   (5106, [5114]); (5107, [5115]); (5108, [5116]); (5109, [5117]);
   (7312, [4304]); (7313, [4305]); (7314, [4306]); (7315, [4307]);
   (7316, [4308]); (7317, [4309]); (7318, [4310]); (7319, [4311]);
   (7320, [4312]); (7321, [4313]); (7322, [4314]); (7323, [4315]);
   (7324, [4316]); (7325, [4317]); (7326, [4318]); (7327, [4319]);
   (7328, [4320]); (7329, [4321]); (7330, [4322]); (7331, [4323]);
   (7332, [4324]); (7333, [4325]); (7334, [4326]); (7335, [4327]);
   (7336, [4328]); (7337, [4329]); (7338, [4330]); (7339, [4331]);
   (7340, [4332]); (7341, [4333]); (7342, [4334]); (7343, [4335]);
   (7344, [4336]); (7345, [4337]); (7346, [4338]); (7347, [4339]);
   (7348, [4340]); (7349, [4341]); (7350, [4342]); (7351, [4343]);
   (7352, [4344]); (7353, [4345]); (7354, [4346]); (7357, [4349]);
   (7358, [4350]); (7359, [4351]); (7680, [7681]); (7682, [7683]);
   (7684, [7685]); (7686, [7687]); (7688, [7689]); (7690, [7691]);
   (7692, [7693]); (7694, [7695]); (7696, [7697]); (7698, [7699]);
   (7700, [7701]); (7702, [7703]); (7704, [7705]); (7706, [7707]);
   (7708, [7709]); (7710, [7711]); (7712, [7713]); (7714, [7715]);
   (7716, [7717]); (7718, [7719]); (7720, [7721]); (7722, [7723]);
   (7724, [7725]); (7726, [7727]); (7728, [7729]); (7730, [7731]);
   (7732, [7733]); (7734, [7735]); (7736, [7737]); (7738, [7739]);
   (7740, [7741]); (7742, [7743]); (7744, [7745]); (7746, [7747]);
   (7748, [7749]); (7750, [7751]); (7752, [7753]); (7754, [7755]);
   (7756, [7757]); (7758, [7759]); (7760, [7761]); (7762, [7763]);
   (7764, [7765]); (7766, [7767]); (7768, [7769]); (7770, [7771]);
   (7772, [7773]); (7774, [7775]); (7776, [7777]); (7778, [7779]);
   (7780, [7781]); (7782, [7783]); (7784, [7785]); (7786, [7787]);
   (7788, [7789]); (7790, [7791]); (7792, [7793]); (7794, [7795]);
   (7796, [7797]); (7798, [7799]); (7800, [7801]); (7802, [7803]);
   (7804, [7805]); (7806, [7807]); (7808, [7809]); (7810, [7811]);
   (7812, [7813]); (7814, [7815]); (7816, [7817]); (7818, [7819]);
   (7820, [7821]); (7822, [7823]); (7824, [7825]); (7826, [7827]);
   (7828, [7829]); (7838, [223]); (7840, [7841]); (7842, [7843]);
   (7844, [7845]); (7846, [7847]); (7848, [7849]); (7850, [7851]);
   (7852, [7853]); (7854, [7855]); (7856, [7857]); (7858, [7859]);
   (7860, [7861]); (7862, [7863]); (7864, [7865]); (7866, [7867]);
   (7868, [7869]); (7870, [7871]); (7872, [7873]); (7874, [7875]);
   (7876, [7877]); (7878, [7879]); (7880, [7881]); (7882, [7883]);
   (7884, [7885]); (7886, [7887]); (7888, [7889]); (7890, [7891]);
   (7892, [7893]); (7894, [7895]); (7896, [7897]); (7898, [7899]);
   (7900, [7901]); (7902, [7903]); (7904, [7905]); (7906, [7907]);
   (7908, [7909]); (7910, [7911]); (7912, [7913]); (7914, [7915]);
   (7916, [7917]); (7918, [7919]); (7920, [7921]); (7922, [7923]);
   (7924, [7925]); (7926, [7927]); (7928, [7929]); (7930, [7931]);
   (7932, [7933]); (7934, [7935]); (7944, [7936]); (7945, [7937]);
   (7946, [7938]); (7947, [7939]); (7948, [7940]); (7949, [7941]);
   (7950, [7942]); (7951, [7943]); (7960, [7952]); (7961, [7953]);
   (7962, [7954]); (7963, [7955]); (7964, [7956]); (7965, [7957]);
   (7976, [7968]); (7977, [7969]); (7978, [7970]); (7979, [7971]);
   (7980, [7972]); (7981, [7973]); (7982, [7974]); (7983, [7975]);
   (7992, [7984]); (7993, [7985]); (7994, [7986]); (7995, [7987]);
   (7996, [7988]); (7997, [7989]); (7998, [7990]); (7999, [7991]);
   (8008, [8000]); (8009, [8001]); (8010, [8002]); (8011, [8003]);
   (8012, [8004]); (8013, [8005]); (8025, [8017]); (8027, [8019]);
   (8029, [8021]); (8031, [8023]); (8040, [8032]); (8041, [8033]);
   (8042, [8034]); (8043, [8035]); (8044, [8036]); (8045, [8037]);
   (8046, [8038]); (8047, [8039]); (8072, [8064]); (8073, [8065]);
   (8074, [8066]); (8075, [8067]); (8076, [8068]); (8077, [8069]);
   (8078, [8070]); (8079, [8071]); (8088, [8080]); (8089, [8081]);
   (8090, [8082]); (8091, [8083]); (8092, [8084]); (8093, [8085]);
   (8094, [8086]); (8095, [8087]); (8104, [8096]); (8105, [8097]);
   (8106, [8098]); (8107, [8099]); (8108, [8100]); (8109, [8101]);
   (8110, [8102]); (8111, [8103]); (8120, [8112]); (8121, [8113]);
   (8122, [8048]); (8123, [8049]); (8124, [8115]); (8136, [8050]);
   (8137, [8051]); (8138, [8052]); (8139, [8053]); (8140, [8131]);
   (8152, [8144]); (8153, [8145]); (8154, [8054]); (8155, [8055]);
   (8168, [8160]); (8169, [8161]); (8170, [8058]); (8171, [8059]);
   (8172, [8165]); (8184, [8056]); (8185, [8057]); (8186, [8060]);
   (8187, [8061]); (8188, [8179]); (8486, [969]); (8490, [107]);
   (8491, [229]); (8498, [8526]); (8544, [8560]); (8545, [8561]);
   (8546, [8562]); (8547, [8563]); (8548, [8564]); (8549, [8565]);
   (8550, [8566]); (8551, [8567]); (8552, [8568]); (8553, [8569]);
   (8554, [8570]); (8555, [8571]); (8556, [8572]); (8557, [8573]);
   (8558, [8574]); (8559, [8575]); (8579, [8580]); (9398, [9424]);
   (9399, [9425]); (9400, [9426]); (9401, [9427]); (9402, [9428]);
   (9403, [9429]); (9404, [9430]); (9405, [9431]); (9406, [9432]);
   (9407, [9433]); (9408, [9434]); (9409, [9435]); (9410, [9436]);
   (9411, [9437]); (9412, [9438]); (9413, [9439]); (9414, [9440]);
   (9415, [9441]); (9416, [9442]); (9417, [9443]); (9418, [9444]);
   (9419, [9445]); (9420, [9446]); (9421, [9447]); (9422, [9448]);
   (9423, [9449]); (11264, [11312]); (11265, [11313]); (11266, [11314]);
   (11267, [11315]); (11268, [11316]); (11269, [11317]); (11270, [11318]);
   (11271, [11319]); (11272, [11320]); (11273, [11321]); (11274, [11322]);
   (11275, [11323]); (11276, [11324]); (11277, [11325]); (11278, [11326]);
   (11279, [11327]); (11280, [11328]); (11281, [11329]); (11282, [11330]);
   (11283, [11331]); (11284, [11332]); (11285, [11333]); (11286, [11334]);
   (11287, [11335]); (11288, [11336]); (11289, [11337]); (11290, [11338]);
   (11291, [11339]); (11292, [11340]); (11293, [11341]); (11294, [11342]);
   (11295, [11343]); (11296, [11344]); (11297, [11345]); (11298, [11346]);
   (11299, [11347]); (11300, [11348]); (11301, [11349]); (11302, [11350]);
   (11303, [11351]); (11304, [11352]); (11305, [11353]); (11306, [11354]);
   (11307, [11355]); (11308, [11356]); (11309, [11357]); (11310, [11358]);
   (11311, [11359]); (11360, [11361]); (11362, [619]); (11363, [7549]);
   (11364, [637]); (11367, [11368]); (11369, [11370]); (11371, [11372]);
   (11373, [593]); (11374, [625]); (11375, [592]); (11376, [594]);
   (11378, [11379]); (11381, [11382]); (11390, [575]); (11391, [576]);
   (11392, [11393]); (11394, [11395]); (11396, [11397]); (11398, [11399]);
   (11400, [11401]); (11402, [11403]); (11404, [11405]); (11406, [11407]);
   (11408, [11409]); (11410, [11411]); (11412, [11413]); (11414, [11415]);
   (11416, [11417]); (11418, [11419]); (11420, [11421]); (11422, [11423]);
   (11424, [11425]); (11426, [11427]); (11428, [11429]); (11430, [11431]);
   (11432, [11433]); (11434, [11435]); (11436, [11437]); (11438, [11439]);
   (11440, [11441]); (11442, [11443]); (11444, [11445]); (11446, [11447]);
   (11448, [11449]); (11450, [11451]); (11452, [11453]); (11454, [11455]);
   (11456, [11457]); (11458, [11459]); (11460, [11461]); (11462, [11463]);
   (11464, [11465]); (11466, [11467]); (11468, [11469]); (11470, [11471]);
   (11472, [11473]); (11474, [11475]); (11476, [11477]); (11478, [11479]);
   (11480, [11481]); (11482, [11483]); (11484, [11485]); (11486, [11487]);
   (11488, [11489]); (11490, [11491]); (11499, [11500]); (11501, [11502]);
   (11506, [11507]); (42560, [42561]); (42562, [42563]); (42564, [42565]);
   (42566, [42567]); (42568, [42569]); (42570, [42571]); (42572, [42573]);
   (42574, [42575]); (42576, [42577]); (42578, [42579]); (42580, [42581]);
   (42582, [42583]); (42584, [42585]); (42586, [42587]); (42588, [42589]);
   (42590, [42591]); (42592, [42593]); (42594, [42595]); (42596, [42597]);
   (42598, [42599]); (42600, [42601]); (42602, [42603]); (42604, [42605]);
   (42624, [42625]); (42626, [42627]); (42628, [42629]); (42630, [42631]);
   (42632, [42633]); (42634, [42635]); (42636, [42637]); (42638, [42639]);
   (42640, [42641]); (42642, [42643]); (42644, [42645]); (42646, [42647]);
   (42648, [42649]); (42650, [42651]); (42786, [42787]); (42788, [42789]);
   (42790, [42791]); (42792, [42793]); (42794, [42795]); (42796, [42797]);
   (42798, [42799]); (42802, [42803]); (42804, [42805]); (42806, [42807]);
   (42808, [42809]); (42810, [42811]); (42812, [42813]); (42814, [42815]);
   (42816, [42817]); (42818, [42819]); (42820, [42821]); (42822, [42823]);
   (42824, [42825]); (42826, [42827]); (42828, [42829]); (42830, [42831]);
   (42832, [42833]); (42834, [42835]); (42836, [42837]); (42838, [42839]);
   (42840, [42841]); (42842, [42843]); (42844, [42845]); (42846, [42847]);
   (42848, [42849]); (42850, [42851]); (42852, [42853]); (42854, [42855]);
   (42856, [42857]); (42858, [42859]); (42860, [42861]); (42862, [42863]);
   (42873, [42874]); (42875, [42876]); (42877, [7545]); (42878, [42879]);
   (42880, [42881]); (42882, [42883]); (42884, [42885]); (42886, [42887]);
   (42891, [42892]); (42893, [613]); (42896, [42897]); (42898, [42899]);
   (42902, [42903]); (42904, [42905]); (42906, [42907]); (42908, [42909]);
   (42910, [42911]); (42912, [42913]); (42914, [42915]); (42916, [42917]);
   (42918, [42919]); (42920, [42921]); (42922, [614]); (42923, [604]);
   (42924, [609]); (42925, [620]); (42926, [618]); (42928, [670]);
   (42929, [647]); (42930, [669]); (42931, [43859]); (42932, [42933]);
   (42934, [42935]); (42936, [42937]); (42938, [42939]); (42940, [42941]);
   (42942, [42943]); (42944, [42945]); (42946, [42947]); (42948, [42900]);
   (42949, [642]); (42950, [7566]); (42951, [42952]); (42953, [42954]);
   (42960, [42961]); (42966, [42967]); (42968, [42969]); (42997, [42998]);
   (65313, [65345]); (65314, [65346]); (65315, [65347]); (65316, [65348]);
   (65317, [65349]); (65318, [65350]); (65319, [65351]); (65320, [65352]);
   (65321, [65353]); (65322, [65354]); (65323, [65355]); (65324, [65356]);
   (65325, [65357]); (65326, [65358]); (65327, [65359]); (65328, [65360]);
   (65329, [65361]); (65330, [65362]); (65331, [65363]); (65332, [65364]);
   (65333, [65365]); (65334, [65366]); (65335, [65367]); (65336, [65368]);
   (65337, [65369]); (65338, [65370]); (66560, [66600]); (66561, [66601]);
   (66562, [66602]); (66563, [66603]); (66564, [66604]); (66565, [66605]);
   (66566, [66606]); (66567, [66607]); (66568, [66608]); (66569, [66609]);
   (66570, [66610]); (66571, [66611]); (66572, [66612]); (66573, [66613]);
   (66574, [66614]); (66575, [66615]); (66576, [66616]); (66577, [66617]);
   (66578, [66618]); (66579, [66619]); (66580, [66620]); (66581, [66621]);
   (66582, [66622]); (66583, [66623]); (66584, [66624]); (66585, [66625]);
   (66586, [66626]); (66587, [66627]); (66588, [66628]); (66589, [66629]);
   (66590, [66630]); (66591, [66631]); (66592, [66632]); (66593, [66633]);
   (66594, [66634]); (66595, [66635]); (66596, [66636]); (66597, [66637]);
   (66598, [66638]); (66599, [66639]); (66736, [66776]); (66737, [66777]);
   (66738, [66778]); (66739, [66779]); (66740, [66780]); (66741, [66781]);
   (66742, [66782]); (66743, [66783]); (66744, [66784]); (66745, [66785]);
   (66746, [66786]); (66747, [66787]); (66748, [66788]); (66749, [66789]);
   (66750, [66790]); (66751, [66791]); (66752, [66792]); (66753, [66793]);
   (66754, [66794]); (66755, [66795]); (66756, [66796]); (66757, [66797]);
   (66758, [66798]); (66759, [66799]); (66760, [66800]); (66761, [66801]);
   (66762, [66802]); (66763, [66803]); (66764, [66804]); (66765, [66805]);
   (66766, [66806]); (66767, [66807]); (66768, [66808]); (66769, [66809]);
   (66770, [66810]); (66771, [66811]); (66928, [66967]); (66929, [66968]);
   (66930, [66969]); (66931, [66970]); (66932, [66971]); (66933, [66972]);
   (66934, [66973]); (66935, [66974]); (66936, [66975]); (66937, [66976]);
   (66938, [66977]); (66940, [66979]); (66941, [66980]); (66942, [66981]);
   (66943, [66982]); (66944, [66983]); (66945, [66984]); (66946, [66985]);
   (66947, [66986]); (66948, [66987]); (66949, [66988]); (66950, [66989]);
   (66951, [66990]); (66952, [66991]); (66953, [66992]); (66954, [66993]);
   (66956, [66995]); (66957, [66996]); (66958, [66997]); (66959, [66998]);
   (66960, [66999]); (66961, [67000]); (66962, [67001]); (66964, [67003]);
   (66965, [67004]); (68736, [68800]); (68737, [68801]); (68738, [68802]);
   (68739, [68803]); (68740, [68804]); (68741, [68805]); (68742, [68806]);
   (68743, [68807]); (68744, [68808]); (68745, [68809]); (68746, [68810]);
   (68747, [68811]); (68748, [68812]); (68749, [68813]); (68750, [68814]);
   (68751, [68815]); (68752, [68816]); (68753, [68817]); (68754, [68818]);
   (68755, [68819]); (68756, [68820]); (68757, [68821]); (68758, [68822]);
   (68759, [68823]); (68760, [68824]); (68761, [68825]); (68762, [68826]);
   (68763, [68827]); (68764, [68828]); (68765, [68829]); (68766, [68830]);
   (68767, [68831]); (68768, [68832]); (68769, [68833]); (68770, [68834]);
   (68771, [68835]); (68772, [68836]); (68773, [68837]); (68774, [68838]);
   (68775, [68839]); (68776, [68840]); (68777, [68841]); (68778, [68842]);
   (68779, [68843]); (68780, [68844]); (68781, [68845]); (68782, [68846]);
   (68783, [68847]); (68784, [68848]); (68785, [68849]); (68786, [68850]);
   (71840, [71872]); (71841, [71873]); (71842, [71874]); (71843, [71875]);
   (71844, [71876]); (71845, [71877]); (71846, [71878]); (71847, [71879]);
   (71848, [71880]); (71849, [71881]); (71850, [71882]); (71851, [71883]);
   (71852, [71884]); (71853, [71885]); (71854, [71886]); (71855, [71887]);
   (71856, [71888]); (71857, [71889]); (71858, [71890]); (71859, [71891]);
   (71860, [71892]); (71861, [71893]); (71862, [71894]); (71863, [71895]);
   (71864, [71896]); (71865, [71897]); (71866, [71898]); (71867, [71899]);
   (71868, [71900]); (71869, [71901]); (71870, [71902]); (71871, [71903]);
   (93760, [93792]); (93761, [93793]); (93762, [93794]); (93763, [93795]);
   (93764, [93796]); (93765, [93797]); (93766, [93798]); (93767, [93799]);
   (93768, [93800]); (93769, [93801]); (93770, [93802]); (93771, [93803]);
   (93772, [93804]); (93773, [93805]); (93774, [93806]); (93775, [93807]);
   (93776, [93808]); (93777, [93809]); (93778, [93810]); (93779, [93811]);
   (93780, [93812]); (93781, [93813]); (93782, [93814]); (93783, [93815]);
   (93784, [93816]); (93785, [93817]); (93786, [93818]); (93787, [93819]);
   (93788, [93820]); (93789, [93821]); (93790, [93822]); (93791, [93823]);
   (125184, [125218]); (125185, [125219]); (125186, [125220]);
   (125187, [125221]); (125188, [125222]); (125189, [125223]);
   (125190, [125224]); (125191, [125225]); (125192, [125226]);
   (125193, [125227]); (125194, [125228]); (125195, [125229]);
   (125196, [125230]); (125197, [125231]); (125198, [125232]);
   (125199, [125233]); (125200, [125234]); (125201, [125235]);
   (125202, [125236]); (125203, [125237]); (125204, [125238]);
   (125205, [125239]); (125206, [125240]); (125207, [125241]);
   (125208, [125242]); (125209, [125243]); (125210, [125244]);
   (125211, [125245]); (125212, [125246]); (125213, [125247]);
   (125214, [125248]); (125215, [125249]); (125216, [125250]);
   (125217, [125251])]%N.

(** The title-case mapping, where it differs from the upper-case one. *)
Definition title_table : list (N * list N) :=
  [(223, [83; 115]); (452, [453]); (453, [453]); (454, [453]); (455, [456]);
   (456, [456]); (457, [456]); (458, [459]); (459, [459]); (460, [459]);
   (497, [498]); (498, [498]); (499, [498]); (1415, [1333; 1410]);
   (4304, [4304]); (4305, [4305]); (4306, [4306]); (4307, [4307]);
   (4308, [4308]); (4309, [4309]); (4310, [4310]); (4311, [4311]);
   (4312, [4312]); (4313, [4313]); (4314, [4314]); (4315, [4315]);
   (4316, [4316]); (4317, [4317]); (4318, [4318]); (4319, [4319]);
   (4320, [4320]); (4321, [4321]); (4322, [4322]); (4323, [4323]);
   (4324, [4324]); (4325, [4325]); (4326, [4326]); (4327, [4327]);
   (4328, [4328]); (4329, [4329]); (4330, [4330]); (4331, [4331]);
   (4332, [4332]); (4333, [4333]); (4334, [4334]); (4335, [4335]);
   (4336, [4336]); (4337, [4337]); (4338, [4338]); (4339, [4339]);
   (4340, [4340]); (4341, [4341]); (4342, [4342]); (4343, [4343]);
   (4344, [4344]); (4345, [4345]); (4346, [4346]); (4349, [4349]);
   (4350, [4350]); (4351, [4351]); (8064, [8072]); (8065, [8073]);
   (8066, [8074]); (8067, [8075]); (8068, [8076]); (8069, [8077]);
   (8070, [8078]); (8071, [8079]); (8072, [8072]); (8073, [8073]);
   (8074, [8074]); (8075, [8075]); (8076, [8076]); (8077, [8077]);
   (8078, [8078]); (8079, [8079]); (8080, [8088]); (8081, [8089]);
   (8082, [8090]); (8083, [8091]); (8084, [8092]); (8085, [8093]);
   (8086, [8094]); (8087, [8095]); (8088, [8088]); (8089, [8089]);
   (8090, [8090]); (8091, [8091]); (8092, [8092]); (8093, [8093]);
   (8094, [8094]); (8095, [8095]); (8096, [8104]); (8097, [8105]);
   (8098, [8106]); (8099, [8107]); (8100, [8108]); (8101, [8109]);
   (8102, [8110]); (8103, [8111]); (8104, [8104]); (8105, [8105]);
   (8106, [8106]); (8107, [8107]); (8108, [8108]); (8109, [8109]);
   (8110, [8110]); (8111, [8111]); (8114, [8122; 837]); (8115, [8124]);
   (8116, [902; 837]); (8119, [913; 834; 837]); (8124, [8124]);
   (8130, [8138; 837]); (8131, [8140]); (8132, [905; 837]);
   (8135, [919; 834; 837]); (8140, [8140]); (8178, [8186; 837]);
   (8179, [8188]); (8180, [911; 837]); (8183, [937; 834; 837]);
   (8188, [8188]); (64256, [70; 102]); (64257, [70; 105]); (64258, [70; 108]);
   (64259, [70; 102; 105]); (64260, [70; 102; 108]); (64261, [83; 116]);
   (64262, [83; 116]); (64275, [1348; 1398]); (64276, [1348; 1381]);
   (64277, [1348; 1387]); (64278, [1358; 1398]); (64279, [1348; 1389])]%N.

(** The case folding, where it differs from the lower-case mapping. *)
Definition fold_table : list (N * list N) :=
  [(181, [956]); (223, [115; 115]); (329, [700; 110]); (383, [115]);
   (496, [106; 780]); (837, [953]); (912, [953; 776; 769]);
   (944, [965; 776; 769]); (962, [963]); (976, [946]); (977, [952]);
   (981, [966]); (982, [960]); (1008, [954]); (1009, [961]); (1013, [949]);
   (1415, [1381; 1410]); (5024, [5024]); (5025, [5025]); (5026, [5026]);
   (5027, [5027]); (5028, [5028]); (5029, [5029]); (5030, [5030]);
   (5031, [5031]); (5032, [5032]); (5033, [5033]); (5034, [5034]);
   (5035, [5035]); (5036, [5036]); (5037, [5037]); (5038, [5038]);
   (5039, [5039]); (5040, [5040]); (5041, [5041]); (5042, [5042]);
   (5043, [5043]); (5044, [5044]); (5045, [5045]); (5046, [5046]);
   (5047, [5047]); (5048, [5048]); (5049, [5049]); (5050, [5050]);
   (5051, [5051]); (5052, [5052]); (5053, [5053]); (5054, [5054]);
   (5055, [5055]); (5056, [5056]); (5057, [5057]); (5058, [5058]);
   (5059, [5059]); (5060, [5060]); (5061, [5061]); (5062, [5062]);
   (5063, [5063]); (5064, [5064]); (5065, [5065]); (5066, [5066]);
   (5067, [5067]); (5068, [5068]); (5069, [5069]); (5070, [5070]);
   (5071, [5071]); (5072, [5072]); (5073, [5073]); (5074, [5074]);
   (5075, [5075]); (5076, [5076]); (5077, [5077]); (5078, [5078]);
   (5079, [5079]); (5080, [5080]); (5081, [5081]); (5082, [5082]);
   (5083, [5083]); (5084, [5084]); (5085, [5085]); (5086, [5086]);
   (5087, [5087]); (5088, [5088]); (5089, [5089]); (5090, [5090]);
   (5091, [5091]); (5092, [5092]); (5093, [5093]); (5094, [5094]);
   (5095, [5095]); (5096, [5096]); (5097, [5097]); (5098, [5098]);
   (5099, [5099]); (5100, [5100]); (5101, [5101]); (5102, [5102]);
   (5103, [5103]); (5104, [5104]); (5105, [5105]); (5106, [5106]);
   (5107, [5107]); (5108, [5108]); (5109, [5109]); (5112, [5104]);
   (5113, [5105]); (5114, [5106]); (5115, [5107]); (5116, [5108]);
   (5117, [5109]); (7296, [1074]); (7297, [1076]); (7298, [1086]);
   (7299, [1089]); (7300, [1090]); (7301, [1090]); (7302, [1098]);
   (7303, [1123]); (7304, [42571]); (7830, [104; 817]); (7831, [116; 776]);
   (7832, [119; 778]); (7833, [121; 778]); (7834, [97; 702]); (7835, [7777]);
   (7838, [115; 115]); (8016, [965; 787]); (8018, [965; 787; 768]);
   (8020, [965; 787; 769]); (8022, [965; 787; 834]); (8064, [7936; 953]);
   (8065, [7937; 953]); (8066, [7938; 953]); (8067, [7939; 953]);
   (8068, [7940; 953]); (8069, [7941; 953]); (8070, [7942; 953]);
   (8071, [7943; 953]); (8072, [7936; 953]); (8073, [7937; 953]);
   (8074, [7938; 953]); (8075, [7939; 953]); (8076, [7940; 953]);
   (8077, [7941; 953]); (8078, [7942; 953]); (8079, [7943; 953]);
   (8080, [7968; 953]); (8081, [7969; 953]); (8082, [7970; 953]);
   (8083, [7971; 953]); (8084, [7972; 953]); (8085, [7973; 953]);
   (8086, [7974; 953]); (8087, [7975; 953]); (8088, [7968; 953]);
   (8089, [7969; 953]); (8090, [7970; 953]); (8091, [7971; 953]);
   (8092, [7972; 953]); (8093, [7973; 953]); (8094, [7974; 953]);
   (8095, [7975; 953]); (8096, [8032; 953]); (8097, [8033; 953]);
   (8098, [8034; 953]); (8099, [8035; 953]); (8100, [8036; 953]);
   (8101, [8037; 953]); (8102, [8038; 953]); (8103, [8039; 953]);
   (8104, [8032; 953]); (8105, [8033; 953]); (8106, [8034; 953]);
   (8107, [8035; 953]); (8108, [8036; 953]); (8109, [8037; 953]);
   (8110, [8038; 953]); (8111, [8039; 953]); (8114, [8048; 953]);
   (8115, [945; 953]); (8116, [940; 953]); (8118, [945; 834]);
   (8119, [945; 834; 953]); (8124, [945; 953]); (8126, [953]);
   (8130, [8052; 953]); (8131, [951; 953]); (8132, [942; 953]);
   (8134, [951; 834]); (8135, [951; 834; 953]); (8140, [951; 953]);
   (8146, [953; 776; 768]); (8147, [953; 776; 769]); (8150, [953; 834]);
   (8151, [953; 776; 834]); (8162, [965; 776; 768]); (8163, [965; 776; 769]);
   (8164, [961; 787]); (8166, [965; 834]); (8167, [965; 776; 834]);
   (8178, [8060; 953]); (8179, [969; 953]); (8180, [974; 953]);
   (8182, [969; 834]); (8183, [969; 834; 953]); (8188, [969; 953]);
   (43888, [5024]); (43889, [5025]); (43890, [5026]); (43891, [5027]);
   (43892, [5028]); (43893, [5029]); (43894, [5030]); (43895, [5031]);
   (43896, [5032]); (43897, [5033]); (43898, [5034]); (43899, [5035]);
   (43900, [5036]); (43901, [5037]); (43902, [5038]); (43903, [5039]);
   (43904, [5040]); (43905, [5041]); (43906, [5042]); (43907, [5043]);
   (43908, [5044]); (43909, [5045]); (43910, [5046]); (43911, [5047]);
   (43912, [5048]); (43913, [5049]); (43914, [5050]); (43915, [5051]);
   (43916, [5052]); (43917, [5053]); (43918, [5054]); (43919, [5055]);
   (43920, [5056]); (43921, [5057]); (43922, [5058]); (43923, [5059]);
   (43924, [5060]); (43925, [5061]); (43926, [5062]); (43927, [5063]);
   (43928, [5064]); (43929, [5065]); (43930, [5066]); (43931, [5067]);
   (43932, [5068]); (43933, [5069]); (43934, [5070]); (43935, [5071]);
   (43936, [5072]); (43937, [5073]); (43938, [5074]); (43939, [5075]);
   (43940, [5076]); (43941, [5077]); (43942, [5078]); (43943, [5079]);
   (43944, [5080]); (43945, [5081]); (43946, [5082]); (43947, [5083]);
   (43948, [5084]); (43949, [5085]); (43950, [5086]); (43951, [5087]);
   (43952, [5088]); (43953, [5089]); (43954, [5090]); (43955, [5091]);
   (43956, [5092]); (43957, [5093]); (43958, [5094]); (43959, [5095]);
   (43960, [5096]); (43961, [5097]); (43962, [5098]); (43963, [5099]);
   (43964, [5100]); (43965, [5101]); (43966, [5102]); (43967, [5103]);
   (64256, [102; 102]); (64257, [102; 105]); (64258, [102; 108]);
   (64259, [102; 102; 105]); (64260, [102; 102; 108]); (64261, [115; 116]);
   (64262, [115; 116]); (64275, [1396; 1398]); (64276, [1396; 1381]);
   (64277, [1396; 1387]); (64278, [1406; 1398]); (64279, [1396; 1389])]%N.

Fixpoint in_ranges (c : N) (rs : list (N * N)) : bool :=
  match rs with
  | [] => false
  | (lo, hi) :: rs' => ((lo <=? c) && (c <=? hi))%N || in_ranges c rs'
  end.

Fixpoint assoc (c : N) (t : list (N * list N)) : option (list N) :=
  match t with
  | [] => None
  | (k, v) :: t' => if (k =? c)%N then Some v else assoc c t'
  end.

(** [Py_UNICODE_ISSPACE] *)
Definition is_space (c : N) : bool := in_ranges c space_ranges.

(** [_PyUnicode_IsCased] and [_PyUnicode_IsCaseIgnorable] *)
Definition is_cased (c : N) : bool := in_ranges c cased_ranges.
Definition is_case_ignorable (c : N) : bool :=
  in_ranges c case_ignorable_ranges.

(** [_PyUnicode_ToUpperFull]: one code point may become several. *)
Definition to_upper (c : N) : list N :=
  if (c <? 128)%N then
    [if ((97 <=? c) && (c <=? 122))%N then (c - 32)%N else c]
  else match assoc c upper_table with
       | Some l => l
       | None => [c]
       end.

(** [_PyUnicode_ToLowerFull] *)
Definition to_lower (c : N) : list N :=
  if (c <? 128)%N then
    [if ((65 <=? c) && (c <=? 90))%N then (c + 32)%N else c]
  else match assoc c lower_table with
       | Some l => l
       | None => [c]
       end.

(** [_PyUnicode_ToTitleFull] *)
Definition to_title (c : N) : list N :=
  if (c <? 128)%N then to_upper c
  else match assoc c title_table with
       | Some l => l
       | None => to_upper c
       end.

(** [_PyUnicode_ToFoldedFull] *)
Definition to_folded (c : N) : list N :=
  if (c <? 128)%N then to_lower c
  else match assoc c fold_table with
       | Some l => l
       | None => to_lower c
       end.

End Unicode.

(* ================================================================== *)
(** ** Python strings *)

Module PyStr.

Definition str := string.

Definition byte (c : ascii) : N := N_of_ascii c.
Definition chr (n : N) : ascii := ascii_of_N n.

(** *** UTF-8, extended to the surrogates as Python's [surrogatepass]
    does, so that every list of code points has its string *)

Definition is_cont (b : N) : bool := ((128 <=? b) && (b <? 192))%N.

Definition cp2 (b0 b1 : N) : N := ((b0 - 192) * 64 + (b1 - 128))%N.
Definition cp3 (b0 b1 b2 : N) : N :=
  ((b0 - 224) * 4096 + (b1 - 128) * 64 + (b2 - 128))%N.
Definition cp4 (b0 b1 b2 b3 : N) : N :=
  ((b0 - 240) * 262144 + (b1 - 128) * 4096 + (b2 - 128) * 64
   + (b3 - 128))%N.

Definition two_ok (b0 b1 : N) : bool :=
  ((194 <=? b0) && (b0 <? 224))%N && is_cont b1.

(** No overlong form. *)
Definition three_ok (b0 b1 b2 : N) : bool :=
  ((224 <=? b0) && (b0 <? 240))%N && is_cont b1 && is_cont b2
  && (2048 <=? cp3 b0 b1 b2)%N.

Definition four_ok (b0 b1 b2 b3 : N) : bool :=
  ((240 <=? b0) && (b0 <? 245))%N && is_cont b1 && is_cont b2 && is_cont b3
  && ((65536 <=? cp4 b0 b1 b2 b3) && (cp4 b0 b1 b2 b3 <? 1114112))%N.

(** A byte that is not part of a well-formed sequence is read as the lone
    surrogate U+DC80 .. U+DCFF that Python's [surrogateescape] gives it. *)
Definition escape (b : N) : N := (56320 + b)%N.

(** The code points of a string. *)
Fixpoint decode (s : str) : list N :=
  match s with
  | EmptyString => []
  | String c0 s0 =>
      let b0 := byte c0 in
      let stray := fun _ : unit => escape b0 :: decode s0 in
      if (b0 <? 128)%N then b0 :: decode s0 else
      match s0 with
      | String c1 s1 =>
          let b1 := byte c1 in
          if two_ok b0 b1 then cp2 b0 b1 :: decode s1 else
          match s1 with
          | String c2 s2 =>
              let b2 := byte c2 in
              if three_ok b0 b1 b2 then cp3 b0 b1 b2 :: decode s2 else
              match s2 with
              | String c3 s3 =>
                  let b3 := byte c3 in
                  if four_ok b0 b1 b2 b3
                  then cp4 b0 b1 b2 b3 :: decode s3
                  else stray tt
              | EmptyString => stray tt
              end
          | EmptyString => stray tt
          end
      | EmptyString => stray tt
      end
  end.

Definition bytes (l : list N) : str :=
  fold_right (fun b s => String (chr b) s) EmptyString l.

(** The bytes of one code point. *)
Definition encode1 (c : N) : str :=
  if (c <? 128)%N then bytes [c]
  else if (c <? 2048)%N then bytes [192 + c / 64; 128 + c mod 64]%N
  else if (c <? 65536)%N then
    bytes [224 + c / 4096; 128 + (c / 64) mod 64; 128 + c mod 64]%N
  else
    bytes [240 + (c / 262144) mod 8; 128 + (c / 4096) mod 64;
           128 + (c / 64) mod 64; 128 + c mod 64]%N.

(** The string of a list of code points. *)
Fixpoint encode (l : list N) : str :=
  match l with
  | [] => EmptyString
  | c :: l' => encode1 c +++ encode l'
  end.

(** A surrogate: a code point that is no character, and that the UTF-8 of
    other libraries refuses. *)
Definition is_surrogate (c : N) : bool := ((55296 <=? c) && (c <? 57344))%N.

(** *** The methods of [str] the server calls *)

Definition is_empty (s : str) : bool :=
  match s with EmptyString => true | String _ _ => false end.

Fixpoint lstrip_points (l : list N) : list N :=
  match l with
  | [] => []
  | c :: l' => if Unicode.is_space c then lstrip_points l' else l
  end.

Fixpoint rstrip_points (l : list N) : list N :=
  match l with
  | [] => []
  | c :: l' =>
      match rstrip_points l' with
      | [] => if Unicode.is_space c then [] else [c]
      | r => c :: r
      end
  end.

(** [s.strip()] with no argument: white space removed at both ends. *)
Definition strip (s : str) : str :=
  encode (rstrip_points (lstrip_points (decode s))).

(** [s.upper()] *)
Definition upper (s : str) : str :=
  encode (flat_map Unicode.to_upper (decode s)).

(** [s.casefold()] *)
Definition casefold (s : str) : str :=
  encode (flat_map Unicode.to_folded (decode s)).

(** The first code point of a list that is not case-ignorable. *)
Fixpoint first_not_ignorable (l : list N) : option N :=
  match l with
  | [] => None
  | c :: l' => if Unicode.is_case_ignorable c then first_not_ignorable l'
               else Some c
  end.

(** The capital sigma at the end of a word: a cased letter before it and
    none after it, case-ignorable code points set aside.  [before] holds
    the code points before the sigma, the nearest first. *)
Definition final_sigma (before after : list N) : bool :=
  match first_not_ignorable before with
  | Some c =>
      Unicode.is_cased c &&
      match first_not_ignorable after with
      | Some d => negb (Unicode.is_cased d)
      | None => true
      end
  | None => false
  end.

(** The lower-casing of one code point where it stands. *)
Definition lower_at (before : list N) (c : N) (after : list N) : list N :=
  if (c =? 931)%N
  then [if final_sigma before after then 962%N else 963%N]
  else Unicode.to_lower c.

(** [s.title()]: a code point that follows a cased one is lowered, any
    other is put in title case. *)
Fixpoint title_points (previous_is_cased : bool) (before l : list N)
  : list N :=
  match l with
  | [] => []
  | c :: l' =>
      (if previous_is_cased then lower_at before c l'
       else Unicode.to_title c)
      ++ title_points (Unicode.is_cased c) (c :: before) l'
  end.

Definition title (s : str) : str :=
  encode (title_points false [] (decode s)).

(** [s.startswith(p)] *)
Definition startswith (s p : str) : bool := String.prefix p s.

(** [s.startswith((p1, ..., pn))]: some member of the tuple is a prefix. *)
Definition startswith_any (s : str) (ps : list str) : bool :=
  existsb (startswith s) ps.

(** Truth value of a string: [not s] holds of the empty string only. *)
Definition truthy (s : str) : bool := negb (is_empty s).

Definition quote : ascii := ascii_of_nat 39.

Fixpoint contains (c : ascii) (s : str) : bool :=
  match s with
  | EmptyString => false
  | String d s' => Ascii.eqb c d || contains c s'
  end.

(** The decimal numeral of a natural number, as in an f-string. *)
Definition of_nat (n : nat) : str := NilZero.string_of_uint (Nat.to_uint n).

End PyStr.
Import PyStr.

(* ================================================================== *)
(** ** Exceptions, results and the effect monad *)

(** The exceptions the server can meet.  [Sqlite3Error] stands for
    [sqlite3.Error] and its subclasses (its first argument names the
    subclass); [sqlite3.Warning] derives from [Exception] directly.  The
    last four derive from [BaseException] without being instances of
    [Exception]: the interrupt of the keyboard, the exit of the
    interpreter, the panic of a library written in Rust (the vector table
    is one), and any other. *)
Inductive exn : Type :=
| ValueError (msg : str)
| KeyError (key : str)
| TypeError (msg : str)
| Sqlite3Error (subclass : str) (msg : str)
| Sqlite3Warning (msg : str)
| OtherException (class : str) (msg : str)
| KeyboardInterrupt
| SystemExit (msg : str)
| PanicException (msg : str)
| OtherBaseException (class : str) (msg : str).

(** [str(e)].  A [KeyError] prints the [repr] of its key; the keys looked up
    by the server are plain words, whose [repr] is the word in single
    quotes. *)
Definition str_of_exn (e : exn) : str :=
  match e with
  | ValueError m | TypeError m | Sqlite3Error _ m | Sqlite3Warning m
  | OtherException _ m | SystemExit m | PanicException m
  | OtherBaseException _ m => m
  | KeyError k => String quote k +++ String quote EmptyString
  | KeyboardInterrupt => EmptyString
  end.

(** [isinstance(e, sqlite3.Error)] *)
Definition is_sqlite3_Error (e : exn) : bool :=
  match e with Sqlite3Error _ _ => true | _ => false end.

(** [isinstance(e, Exception)] *)
Definition is_Exception (e : exn) : bool :=
  match e with
  | KeyboardInterrupt | SystemExit _ | PanicException _
  | OtherBaseException _ _ => false
  | _ => true
  end.

(** The outcome of a call: it returns or it raises. *)
Inductive result (A : Type) : Type :=
| Return (a : A)
| Raise (e : exn).
Arguments Return {A} a.
Arguments Raise {A} e.

Inductive log_level := DEBUG | INFO | ERROR.

(** What the process does to the outside: the calls on the SQLite library
    (with the handle of the connection or cursor they concern), the calls
    on the embedding model and on the vector table. *)
Inductive event : Type :=
| EvConnect (path : str) (conn : nat)
| EvConnectFailed (path : str)
| EvCursor (conn cursor : nat)
| EvExecute (conn cursor : nat) (sql : str)
| EvFetchall (cursor : nat)
| EvCursorClose (cursor : nat)
| EvConnClose (conn : nat)
| EvEncode (text : str)
| EvVectorSearch (filter : option str) (limit : nat).

Record World : Type := {
  next_handle : nat;           (* handles 0 .. next_handle-1 were given out *)
  open_conns : list nat;       (* connections opened and not yet closed *)
  open_cursors : list nat;     (* cursors opened and not yet closed *)
  trace : list event;          (* most recent event first *)
  logs : list (log_level * str)
}.

Definition M (A : Type) : Type := World -> result A * World.

Definition ret {A} (a : A) : M A := fun w => (Return a, w).
Definition raise {A} (e : exn) : M A := fun w => (Raise e, w).

(** The outcome an oracle gives, the world being left as it is. *)
Definition lift {A} (r : result A) : M A := fun w => (r, w).

Definition bind {A B} (m : M A) (k : A -> M B) : M B :=
  fun w => match m w with
           | (Return a, w') => k a w'
           | (Raise e, w') => (Raise e, w')
           end.

Notation "x <- m ;; k" := (bind m (fun x => k))
  (at level 61, m at next level, right associativity).
Notation "m ;;; k" := (bind m (fun _ => k))
  (at level 61, right associativity).

(** [try: body / except C1 as e: h1(e) / except C2 as e: h2(e) ...]: the
    first clause whose class the exception is an instance of handles it; an
    exception no clause matches goes on. *)
Fixpoint dispatch_exn {A} (clauses : list ((exn -> bool) * (exn -> M A)))
                      (e : exn) : M A :=
  match clauses with
  | [] => raise e
  | (is_instance, handler) :: rest =>
      if is_instance e then handler e else dispatch_exn rest e
  end.

Definition try_except {A} (body : M A)
                      (clauses : list ((exn -> bool) * (exn -> M A))) : M A :=
  fun w => match body w with
           | (Return a, w') => (Return a, w')
           | (Raise e, w') => dispatch_exn clauses e w'
           end.

(** [with closing(resource) as x: body]: [close] runs when the block is
    left, by a return or by an exception, and the outcome of the block is
    kept. *)
Definition with_closing {A} (close : M unit) (body : M A) : M A :=
  fun w => let (r, w1) := body w in
           match close w1 with
           | (Return _, w2) => (r, w2)
           | (Raise e, w2) => (Raise e, w2)
           end.

Definition record_event (e : event) (w : World) : World :=
  {| next_handle := next_handle w; open_conns := open_conns w;
     open_cursors := open_cursors w; trace := e :: trace w;
     logs := logs w |}.

Definition emit (e : event) : M unit :=
  fun w => (Return tt, record_event e w).

Definition log (l : log_level) (msg : str) : M unit :=
  fun w => (Return tt,
            {| next_handle := next_handle w; open_conns := open_conns w;
               open_cursors := open_cursors w; trace := trace w;
               logs := (l, msg) :: logs w |}).

(* ================================================================== *)
(** ** The SQLite library, as the server uses it *)

(** A value stored in a column.  A REAL is kept as its bit pattern. *)
Inductive sqlval : Type :=
| SqlNull
| SqlInt (z : Z)
| SqlReal (bits : Z)
| SqlText (s : str)
| SqlBlob (bytes : list ascii).

(** A [sqlite3.Row]: the columns of one row in the order of the statement,
    each with its name. *)
Definition Row : Type := list (str * sqlval).

(** A Python [dict] with string keys, in insertion order. *)
Definition dict (V : Type) : Type := list (str * V).

Fixpoint dict_set {V} (k : str) (v : V) (d : dict V) : dict V :=
  match d with
  | [] => [(k, v)]
  | (k', v') :: d' =>
      if String.eqb k k' then (k, v) :: d' else (k', v') :: dict_set k v d'
  end.

Fixpoint dict_get {V} (k : str) (d : dict V) : option V :=
  match d with
  | [] => None
  | (k', v) :: d' => if String.eqb k k' then Some v else dict_get k d'
  end.

(** How [sqlite3.Row] compares a name with the name of a column: they are
    equal, or both are ASCII and equal when the case of letters is set
    aside. *)
Definition names_match (column name : str) : bool :=
  String.eqb column name
  || (Ascii7.is_ascii column && Ascii7.is_ascii name
      && String.eqb (Ascii7.lower column) (Ascii7.lower name)).

(** [row[name]]: the value of the first column whose name matches [name];
    [default] when there is none. *)
Fixpoint row_get (name : str) (row : Row) (default : sqlval) : sqlval :=
  match row with
  | [] => default
  | (k, v) :: row' =>
      if names_match k name then v else row_get name row' default
  end.

(** [dict(row)]: for each name of [row.keys()], from left to right, the
    entry [name: row[name]] is set; a name that occurs twice keeps its
    first place, and its value is that of the first column of that name. *)
Definition dict_of_row (row : Row) : dict sqlval :=
  fold_left (fun d kv => dict_set (fst kv) (row_get (fst kv) row (snd kv)) d)
            row [].

(** A RelationalRecord of the specification. *)
Definition RelationalRecord : Type := dict sqlval.

(** The answers of the SQLite file.  They may depend on everything the
    process did before, which is what the trace records. *)
Record Sqlite3 : Type := {
  (* [sqlite3.connect(path)]: the exception raised, if any *)
  connect_outcome : list event -> str -> option exn;
  (* [cursor.execute(sql)]: the exception raised, or the rows that
     [cursor.fetchall()] then delivers *)
  execute_outcome : list event -> str -> result (list Row)
}.

Definition remove_handle (h : nat) (l : list nat) : list nat :=
  filter (fun x => negb (Nat.eqb x h)) l.

Module sqlite3.

(** [sqlite3.connect(path)] *)
Definition connect (lib : Sqlite3) (path : str) : M nat :=
  fun w =>
    match connect_outcome lib (trace w) path with
    | Some e =>
        (Raise e,
         {| next_handle := next_handle w; open_conns := open_conns w;
            open_cursors := open_cursors w;
            trace := EvConnectFailed path :: trace w; logs := logs w |})
    | None =>
        let h := next_handle w in
        (Return h,
         {| next_handle := S h; open_conns := h :: open_conns w;
            open_cursors := open_cursors w;
            trace := EvConnect path h :: trace w; logs := logs w |})
    end.

(** [conn.close()] *)
Definition close (conn : nat) : M unit :=
  fun w =>
    (Return tt,
     {| next_handle := next_handle w;
        open_conns := remove_handle conn (open_conns w);
        open_cursors := open_cursors w;
        trace := EvConnClose conn :: trace w; logs := logs w |}).

(** [conn.cursor()] *)
Definition cursor (conn : nat) : M nat :=
  fun w =>
    let c := next_handle w in
    (Return c,
     {| next_handle := S c; open_conns := open_conns w;
        open_cursors := c :: open_cursors w;
        trace := EvCursor conn c :: trace w; logs := logs w |}).

(** [cursor.close()] *)
Definition cursor_close (c : nat) : M unit :=
  fun w =>
    (Return tt,
     {| next_handle := next_handle w; open_conns := open_conns w;
        open_cursors := remove_handle c (open_cursors w);
        trace := EvCursorClose c :: trace w; logs := logs w |}).

(** [cursor.execute(sql)]; the value is the result set the cursor then
    holds. *)
Definition execute (lib : Sqlite3) (conn c : nat) (sql : str)
  : M (list Row) :=
  fun w =>
    (execute_outcome lib (trace w) sql,
     {| next_handle := next_handle w; open_conns := open_conns w;
        open_cursors := open_cursors w;
        trace := EvExecute conn c sql :: trace w; logs := logs w |}).

(** [cursor.fetchall()] *)
Definition fetchall (c : nat) (pending : list Row) : M (list Row) :=
  emit (EvFetchall c) ;;; ret pending.

End sqlite3.

(* ================================================================== *)
(** ** [class CPSSqliteDB] *)

Module CPSSqliteDB.

Record t : Type := { sqlite_path : str }.

(** The tuple of line 31. *)
Definition write_keywords : list str :=
  ["INSERT"; "UPDATE"; "DELETE"; "CREATE"; "DROP"; "ALTER"].

(** The condition of line 31:
    [query.strip().upper().startswith((...))]. *)
Definition is_write_query (query : str) : bool :=
  startswith_any (upper (strip query)) write_keywords.

(** The QueryClassification of the specification, read off the guard. *)
Inductive QueryClassification := READ | REJECTED.

Definition classify (query : str) : QueryClassification :=
  if is_write_query query then REJECTED else READ.

(** Lines 36-42, the part the specification calls
    RelationalExecutor.execute: the two nested [with closing(...)]
    blocks. *)
Definition run_query (lib : Sqlite3) (self : t) (query : str)
  : M (list RelationalRecord) :=
  conn <- sqlite3.connect lib (sqlite_path self) ;;
  with_closing (sqlite3.close conn)
    (* conn.row_factory = sqlite3.Row: rows carry their column names *)
    (cursor <- sqlite3.cursor conn ;;
     with_closing (sqlite3.cursor_close cursor)
       (pending <- sqlite3.execute lib conn cursor query ;;
        rows <- sqlite3.fetchall cursor pending ;;
        let results := map dict_of_row rows in
        log DEBUG ("Read query returned " +++ of_nat (List.length results)
                   +++ " rows") ;;;
        ret results)).

(** [CPSSqliteDB._execute_query], lines 29-45. *)
Definition _execute_query (lib : Sqlite3) (self : t) (query : str)
  : M (list RelationalRecord) :=
  if is_write_query query then
    raise (ValueError "Only read queries are allowed!!")
  else
    log DEBUG ("Executing query: " +++ query) ;;;
    try_except (run_query lib self query)
      [(is_Exception,
        fun e =>
          log ERROR ("Database error executing query: " +++ str_of_exn e) ;;;
          raise e)].

End CPSSqliteDB.

(* ================================================================== *)
(** ** The vector table, as the server uses it *)

Module lancedb.

(** An embedding; the components stand for the floats of the model. *)
Definition Vector : Type := list Z.

Record Metadata : Type := { school_name : str; page_url : str }.

(** A row of the table ["webpagechunk"]. *)
Record Chunk : Type := {
  vector : Vector;
  text : str;
  metadata : Metadata
}.

(** An opened table. *)
Record Table : Type := {
  rows : list Chunk;
  (* whether the lookup, for a query vector, visits a row of a given
     vector at all: always on a table without a vector index, which is
     searched exhaustively; with an index, on the rows of the partitions
     it probes *)
  visited : Vector -> Vector -> bool;
  (* the distance the lookup computes between the query vector and the
     vector of a row; rows of equal distance come in the order of the
     table *)
  distance : Vector -> Vector -> Z;
  (* how the table reads a filter text that is not of the plain form below:
     the exception it raises, or the rows the filter keeps *)
  read_filter : str -> result (Chunk -> bool);
  (* the exception the lookup raises, if any, given what the process did
     before, the query vector and the filter text *)
  lookup_outcome : list event -> Vector -> option str -> option exn
}.

(** [AnswerdotaiRerankers]. *)
Record Reranker : Type := {
  (* the [_relevance_score] stored for a text and a query string, as an
     integer that orders as the stored floats do (equal floats, equal
     integers); higher is better *)
  relevance : str -> str -> Z;
  (* the exception the reranking raises, if any, given what the process
     did before, the query string and the texts to rank *)
  rerank_outcome : list event -> str -> list str -> option exn
}.

(** *** The plain filter

    The words of a filter text.  A string literal is enclosed in single
    quotes, and a single quote inside it is written twice. *)

Inductive token : Type :=
| TWord (w : str)
| TString (s : str)
| TEq
| TOther (c : ascii).

Inductive lex_state : Type :=
| Idle
| InWord (w : str)
| InString (lit : str)      (* inside a literal, [lit] read so far *)
| QuoteSeen (lit : str).    (* a quote met inside a literal: its end,
                               or the first half of a doubled quote *)

(** Space, tab, line feed, carriage return. *)
Definition is_blank (c : ascii) : bool :=
  let n := Ascii7.code c in
  (n =? 32) || (n =? 9) || (n =? 10) || (n =? 13).

Definition is_word_char (c : ascii) : bool :=
  let n := Ascii7.code c in
  Ascii7.is_lower c || Ascii7.is_upper c || ((48 <=? n) && (n <=? 57))
  || Ascii.eqb c "_" || Ascii.eqb c ".".

Definition snoc (s : str) (c : ascii) : str := s +++ String c EmptyString.

Fixpoint lex (st : lex_state) (out : list token) (s : str)
  : option (list token) :=
  match s with
  | EmptyString =>
      match st with
      | Idle => Some (rev out)
      | InWord w => Some (rev (TWord w :: out))
      | InString _ => None
      | QuoteSeen lit => Some (rev (TString lit :: out))
      end
  | String c s' =>
      let fresh (out' : list token) :=
        if is_blank c then lex Idle out' s'
        else if Ascii.eqb c quote then lex (InString EmptyString) out' s'
        else if Ascii.eqb c "=" then lex Idle (TEq :: out') s'
        else if is_word_char c
             then lex (InWord (String c EmptyString)) out' s'
        else lex Idle (TOther c :: out') s' in
      match st with
      | Idle => fresh out
      | InWord w =>
          if is_word_char c then lex (InWord (snoc w c)) out s'
          else fresh (TWord w :: out)
      | InString lit =>
          if Ascii.eqb c quote then lex (QuoteSeen lit) out s'
          else lex (InString (snoc lit c)) out s'
      | QuoteSeen lit =>
          if Ascii.eqb c quote then lex (InString (snoc lit quote)) out s'
          else fresh (TString lit :: out)
      end
  end.

(** The words of a text; none when a literal is left open. *)
Definition tokens (s : str) : option (list token) := lex Idle [] s.

Definition backslash : ascii := ascii_of_nat 92.

(** A text that a literal holds as it stands in every dialect: no
    backslash, and no surrogate among its code points (so it is
    well-formed UTF-8). *)
Definition sound_text (v : str) : bool :=
  negb (contains backslash v)
  && forallb (fun c => negb (is_surrogate c)) (decode v).

(** The text is the comparison of the column [metadata.school_name] with
    one literal and nothing else: the value of the literal. *)
Definition plain_equality (filter : str) : option str :=
  match tokens filter with
  | Some [TWord w; TEq; TString v] =>
      if String.eqb w "metadata.school_name" && sound_text v then Some v
      else None
  | _ => None
  end.

(** The rows a filter text keeps: those of the named school when the text
    is a plain equality, what the table makes of it otherwise. *)
Definition filter_reading (t : Table) (filter : str)
  : result (Chunk -> bool) :=
  match plain_equality filter with
  | Some v => Return (fun r => String.eqb (school_name (metadata r)) v)
  | None => read_filter t filter
  end.

(** *** Ordering rows by a score *)

Fixpoint insert_by {A} (key : A -> Z) (x : A) (l : list A) : list A :=
  match l with
  | [] => [x]
  | y :: l' => if (key x <=? key y)%Z then x :: l
               else y :: insert_by key x l'
  end.

(** Ascending in [key]; rows of equal key keep their order. *)
Definition sort_by {A} (key : A -> Z) (l : list A) : list A :=
  fold_right (insert_by key) [] l.

(** *** The query builder

    [table.search(v)] makes a builder; [where], [rerank] and [limit]
    record a setting in it and return it; nothing runs before
    [to_list]. *)
Record Query : Type := {
  q_table : Table;
  q_vector : Vector;
  q_where : option str;
  q_prefilter : bool;
  q_reranker : option (Reranker * str);
  q_limit : nat
}.

(** [table.search(v)]; a builder starts with a limit of 10. *)
Definition search (t : Table) (v : Vector) : Query :=
  {| q_table := t; q_vector := v; q_where := None; q_prefilter := false;
     q_reranker := None; q_limit := 10 |}.

(** [q.where(filter, prefilter=...)] *)
Definition where_ (filter : str) (prefilter : bool) (q : Query) : Query :=
  {| q_table := q_table q; q_vector := q_vector q;
     q_where := Some filter; q_prefilter := prefilter;
     q_reranker := q_reranker q; q_limit := q_limit q |}.

(** [q.rerank(query_string=..., reranker=...)] *)
Definition rerank (query_string : str) (r : Reranker) (q : Query) : Query :=
  {| q_table := q_table q; q_vector := q_vector q;
     q_where := q_where q; q_prefilter := q_prefilter q;
     q_reranker := Some (r, query_string); q_limit := q_limit q |}.

(** [q.limit(n)] *)
Definition limit (n : nat) (q : Query) : Query :=
  {| q_table := q_table q; q_vector := q_vector q;
     q_where := q_where q; q_prefilter := q_prefilter q;
     q_reranker := q_reranker q; q_limit := n |}.

(** The reading of the filter of a query, if it has one. *)
Definition reading (t : Table) (filter : option str)
  : result (option (Chunk -> bool)) :=
  match filter with
  | None => Return None
  | Some f =>
      match filter_reading t f with
      | Return p => Return (Some p)
      | Raise e => Raise e
      end
  end.

(** The rows that pass the filter of the query (all of them when there
    is none). *)
Definition matching (p : option (Chunk -> bool)) (l : list Chunk)
  : list Chunk :=
  match p with
  | Some p => filter p l
  | None => l
  end.

(** The nearest-neighbour lookup on the rows [l]: of the rows it visits,
    the [k] nearest to the query vector, nearest first. *)
Definition lookup (t : Table) (v : Vector) (k : nat) (l : list Chunk)
  : list Chunk :=
  firstn k
    (sort_by (fun r => distance t v (vector r))
       (filter (fun r => visited t v (vector r)) l)).

(** The rows a query retrieves.  A prefilter narrows the rows before the
    lookup, a filter that is not a prefilter narrows its outcome. *)
Definition retrieve (q : Query) (p : option (Chunk -> bool)) : list Chunk :=
  if q_prefilter q
  then lookup (q_table q) (q_vector q) (q_limit q)
         (matching p (rows (q_table q)))
  else matching p
         (lookup (q_table q) (q_vector q) (q_limit q) (rows (q_table q))).

(** The rows ordered by descending relevance of their text to the query
    string; rows of equal relevance keep their order. *)
Definition by_relevance (r : Reranker) (query_string : str)
                        (l : list Chunk) : list Chunk :=
  sort_by (fun c => (- relevance r query_string (text c))%Z) l.

(** An oracle says whether a step fails. *)
Definition failing (outcome : list event -> option exn) : M unit :=
  fun w => match outcome (trace w) with
           | Some e => (Raise e, w)
           | None => (Return tt, w)
           end.

(** [q.to_list()]: the query runs.  The filter text is read, the lookup
    retrieves [q_limit] rows, and the reranker, when there is one, scores
    the rows retrieved, which are then ordered by their score. *)
Definition to_list (q : Query) : M (list Chunk) :=
  emit (EvVectorSearch (q_where q) (q_limit q)) ;;;
  p <- lift (reading (q_table q) (q_where q)) ;;
  failing (fun tr => lookup_outcome (q_table q) tr (q_vector q)
                                    (q_where q)) ;;;
  let hits := retrieve q p in
  match q_reranker q with
  | Some (r, query_string) =>
      failing (fun tr => rerank_outcome r tr query_string
                                        (map text hits)) ;;;
      ret (by_relevance r query_string hits)
  | None => ret hits
  end.

End lancedb.

(* ================================================================== *)
(** ** [class SqliteLanceDB] *)

Module SqliteLanceDB.

(** [SentenceTransformer.encode] on a text: the exception raised, or the
    embedding. *)
Record Embedder : Type := {
  encode_outcome : str -> result lancedb.Vector
}.

Record t : Type := {
  lancedb_path : str;
  table : lancedb.Table;
  embedder : Embedder;
  reranker : lancedb.Reranker
}.

(** A SearchResult: the dictionary built at line 66. *)
Record SearchResult : Type := {
  school_name : str;
  page_url : str;
  content : str
}.

(** [self.embedder.encode(text)] *)
Definition encode (e : Embedder) (text : str) : M lancedb.Vector :=
  emit (EvEncode text) ;;;
  lift (encode_outcome e text).

(** The condition of line 61:
    [not school_name or school_name.strip() == ""]. *)
Definition no_filter (school_name : option str) : bool :=
  match school_name with
  | None => true
  | Some s => negb (truthy s) || String.eqb (strip s) EmptyString
  end.

(** The f-string of line 64. *)
Definition school_filter (school_name : str) : str :=
  "metadata.school_name = '" +++ title school_name +++ "'".

(** The dictionary of line 66. *)
Definition project (r : lancedb.Chunk) : SearchResult :=
  {| school_name := lancedb.school_name (lancedb.metadata r);
     page_url := lancedb.page_url (lancedb.metadata r);
     content := lancedb.text r |}.

(** [SqliteLanceDB._execute_query], lines 59-66. *)
Definition _execute_query (self : t) (question : str)
                          (school_name : option str)
  : M (list SearchResult) :=
  question_embedding <- encode (embedder self) question ;;
  search <-
    (if no_filter school_name then
       lancedb.to_list
         (lancedb.limit 10
            (lancedb.rerank question (reranker self)
               (lancedb.search (table self) question_embedding)))
     else
       match school_name with
       | Some name =>
           lancedb.to_list
             (lancedb.limit 10
                (lancedb.rerank question (reranker self)
                   (lancedb.where_ (school_filter name) true
                      (lancedb.search (table self) question_embedding))))
       | None =>
           (* not reached: [no_filter None] holds *)
           raise (OtherException "AttributeError"
                    "'NoneType' object has no attribute 'title'")
       end) ;;
  ret (map project search).

End SqliteLanceDB.

(* ================================================================== *)
(** ** The tool dispatcher of [main] *)

Module server.

(** The content items of the protocol; the server only builds the first
    kind. *)
Inductive Content : Type :=
| TextContent (type : str) (text : str)
| ImageContent (data mimeType : str)
| EmbeddedResource (resource : str).

(** Python's [str] on the two kinds of result list.  The text it yields
    is not looked into. *)
Record Rendering : Type := {
  str_of_records : list RelationalRecord -> str;
  str_of_results : list SqliteLanceDB.SearchResult -> str
}.

(** The [arguments] of a call: [None], or a dictionary whose values are
    strings, as the input schemas of both tools declare. *)
Definition Arguments : Type := option (dict str).

(** [arguments[key]] *)
Definition subscript (arguments : Arguments) (key : str) : M str :=
  match arguments with
  | None => raise (TypeError "'NoneType' object is not subscriptable")
  | Some d =>
      match dict_get key d with
      | Some v => ret v
      | None => raise (KeyError key)
      end
  end.

(** [arguments.get(key, None)] *)
Definition get (arguments : Arguments) (key : str) : M (option str) :=
  match arguments with
  | None => raise (OtherException "AttributeError"
                     "'NoneType' object has no attribute 'get'")
  | Some d => ret (dict_get key d)
  end.

(** The two executors the handler closes over. *)
Record Context : Type := {
  lib : Sqlite3;
  sqlitedb : CPSSqliteDB.t;
  lancedb_ : SqliteLanceDB.t;
  rendering : Rendering
}.

(** The body of the [try] of [handle_call_tool], lines 131-138. *)
Definition call_tool_body (ctx : Context) (name : str)
                          (arguments : Arguments) : M (list Content) :=
  if String.eqb name "query_schools_and_neighborhoods" then
    query <- subscript arguments "query" ;;
    results <- CPSSqliteDB._execute_query (lib ctx) (sqlitedb ctx) query ;;
    ret [TextContent "text" (str_of_records (rendering ctx) results)]
  else if String.eqb name "query_school_websites" then
    question <- subscript arguments "question" ;;
    school <- get arguments "school_name" ;;
    results <- SqliteLanceDB._execute_query (lancedb_ ctx) question school ;;
    ret [TextContent "text" (str_of_results (rendering ctx) results)]
  else
    raise (ValueError ("Unknown tool: " +++ name)).

(** [handle_call_tool], lines 126-142. *)
Definition handle_call_tool (ctx : Context) (name : str)
                            (arguments : Arguments) : M (list Content) :=
  try_except (call_tool_body ctx name arguments)
    [(is_sqlite3_Error,
      fun e => ret [TextContent "text"
                      ("Database error: " +++ str_of_exn e)]);
     (is_Exception,
      fun e => ret [TextContent "text" ("Error: " +++ str_of_exn e)])].

End server.

(* ================================================================== *)
(** ** Notions used to state the properties *)

(** Every handle that is open was given out. *)
Definition well_formed (w : World) : Prop :=
  Forall (fun h => h < next_handle w) (open_conns w) /\
  Forall (fun h => h < next_handle w) (open_cursors w).




(** The filter text of a search: none for an absent or blank school name
    (line 62), the f-string of line 64 otherwise. *)
Definition filter_text (school_name : option str) : option str :=
  if SqliteLanceDB.no_filter school_name then None
  else option_map SqliteLanceDB.school_filter school_name.

(** What the process has done when the table runs the query of a
    search. *)
Definition search_trace (question : str) (school_name : option str)
                        (w : World) : list event :=
  EvVectorSearch (filter_text school_name) 10
  :: EvEncode question :: trace w.

(** Of the rows [l], the ten that the lookup of the table finds nearest to
    [v] (fewer when it visits fewer), nearest first. *)
Definition nearest (self : SqliteLanceDB.t) (v : lancedb.Vector)
                   (l : list lancedb.Chunk) : list lancedb.Chunk :=
  lancedb.lookup (SqliteLanceDB.table self) v 10 l.

(** The ranking of the reranker of [self] for a question: descending
    relevance of the text. *)
Definition ranking (self : SqliteLanceDB.t) (question : str)
                   (l : list lancedb.Chunk) : list lancedb.Chunk :=
  lancedb.by_relevance (SqliteLanceDB.reranker self) question l.

(** Best first: the relevance to the question never increases along the
    list of results. *)
Definition best_first (self : SqliteLanceDB.t) (question : str)
                      (results : list SqliteLanceDB.SearchResult) : Prop :=
  StronglySorted
    (fun a b =>
       (lancedb.relevance (SqliteLanceDB.reranker self) question
          (SqliteLanceDB.content b)
        <= lancedb.relevance (SqliteLanceDB.reranker self) question
             (SqliteLanceDB.content a))%Z)
    results.

(** The intended filter for a school name: the rows of that very name. *)
Definition equality_on (name : str) (r : lancedb.Chunk) : bool :=
  String.eqb (lancedb.school_name (lancedb.metadata r)) name.

(** The rows of a table that belong to a school. *)
Definition rows_of_school (self : SqliteLanceDB.t) (school : str)
  : list lancedb.Chunk :=
  filter (equality_on school) (lancedb.rows (SqliteLanceDB.table self)).

(** What makes a search raise [e] once the question is embedded as [v]:
    the table refuses the filter text, the lookup raises, or the reranking
    of the rows retrieved raises. *)
Definition table_failure (self : SqliteLanceDB.t) (question : str)
                         (school_name : option str) (v : lancedb.Vector)
                         (w : World) (e : exn) : Prop :=
  let t := SqliteLanceDB.table self in
  let f := filter_text school_name in
  let tr := search_trace question school_name w in
  lancedb.reading t f = Raise e \/
  exists p,
    lancedb.reading t f = Return p /\
    (lancedb.lookup_outcome t tr v f = Some e \/
     lancedb.lookup_outcome t tr v f = None /\
     lancedb.rerank_outcome (SqliteLanceDB.reranker self) tr question
       (map lancedb.text (nearest self v (lancedb.matching p (lancedb.rows t))))
     = Some e).

(** The order of the steps in the words of the specification: the rows
    that pass the filter are ranked by the reranker, and the ten best of
    that ranking are kept. *)
Definition spec_ranked_then_truncated
             (self : SqliteLanceDB.t) (question : str)
             (p : option (lancedb.Chunk -> bool))
  : list SqliteLanceDB.SearchResult :=
  map SqliteLanceDB.project
    (firstn 10
       (ranking self question
          (lancedb.matching p (lancedb.rows (SqliteLanceDB.table self))))).

(** Scenario C in the words of the specification: the answer is made of
    the chunks of the index whose school name is "ABC HIGH SCHOOL", ranked
    by relevance, the ten nearest at most. *)
Definition spec_scenario_C (self : SqliteLanceDB.t) (question : str)
                           (v : lancedb.Vector)
  : list SqliteLanceDB.SearchResult :=
  map SqliteLanceDB.project
    (ranking self question
       (nearest self v (rows_of_school self "ABC HIGH SCHOOL"))).


(** The label the handler puts before the message of an exception. *)
Definition error_label (e : exn) : str :=
  if is_sqlite3_Error e then "Database error: " else "Error: ".


(** Failing fast on a question: a ValueError is raised and the question
    never reaches the embedding model. *)
Definition fails_fast (self : SqliteLanceDB.t) (question : str)
                      (school_name : option str) (w : World) : Prop :=
  let out := SqliteLanceDB._execute_query self question school_name w in
  (exists msg, fst out = Raise (ValueError msg)) /\
  ~ In (EvEncode question) (trace (snd out)).

(** *** The guard, code point by code point *)

(** [a] is a prefix of [b]. *)
Fixpoint lprefix (a b : list N) : bool :=
  match a with
  | [] => true
  | x :: a' =>
      match b with
      | [] => false
      | y :: b' => (x =? y)%N && lprefix a' b'
      end
  end.

Fixpoint list_eqb (a b : list N) : bool :=
  match a, b with
  | [], [] => true
  | x :: a', y :: b' => (x =? y)%N && list_eqb a' b'
  | _, _ => false
  end.

(** The ends of the keywords of the guard: for each keyword and each
    position in it, what is left of the case-folded keyword and what is
    left of the keyword. *)
Definition keyword_suffixes : list (list N * list N) :=
  flat_map
    (fun kw =>
       map (fun n => (skipn n (decode (casefold kw)), skipn n (decode kw)))
           (seq 0 (S (String.length kw))))
    CPSSqliteDB.write_keywords.

Definition mem_pair (p : list N * list N) (l : list (list N * list N))
  : bool :=
  existsb (fun q => list_eqb (fst p) (fst q) && list_eqb (snd p) (snd q)) l.

(** One code point whose case folding is [f] and whose upper-casing is
    [u] takes the end [p] of a keyword to another end, or leaves the
    folded text off the keyword. *)
Definition step_ok (f u : list N) (p : list N * list N) : bool :=
  if lprefix (fst p) f then lprefix (snd p) u
  else if lprefix f (fst p) then
    lprefix u (snd p)
    && mem_pair (skipn (List.length f) (fst p),
                 skipn (List.length u) (snd p)) keyword_suffixes
  else true.

Definition char_ok (c : N) : bool :=
  forallb (step_ok (Unicode.to_folded c) (Unicode.to_upper c))
          keyword_suffixes.

(** The code points from 128 on that a case mapping changes. *)
Definition mapped_points : list N :=
  map fst Unicode.fold_table ++ map fst Unicode.lower_table
  ++ map fst Unicode.upper_table.

(** The end of a keyword is empty on both sides, or starts with an ASCII
    letter on both. *)
Definition suffix_shape (p : list N * list N) : bool :=
  match p with
  | ([], []) => true
  | (x :: _, y :: _) => ((x <? 128) && (y <? 128))%N
  | _ => false
  end.

(** The letters a keyword of the guard starts with. *)
Definition keyword_initials : list N := [73; 85; 68; 67; 65]%N.

(** A starting world, a SQLite file that answers every statement with no
    rows, and small vector tables; used to exhibit instances. *)
Module Scenario.

Definition w0 : World :=
  {| next_handle := 0; open_conns := []; open_cursors := [];
     trace := []; logs := [] |}.

Definition empty_store : Sqlite3 :=
  {| connect_outcome := fun _ _ => None;
     execute_outcome := fun _ _ => Return [] |}.

Definition cps : CPSSqliteDB.t := {| CPSSqliteDB.sqlite_path := "cps.db" |}.

(** U+00A0, the no-break space; U+2003, the em space; U+017F, the long s;
    U+00E9, e with acute accent. *)
Definition nbsp : str := encode [160%N].
Definition em_space : str := encode [8195%N].
Definition long_s : str := encode [383%N].
Definition e_acute : str := encode [233%N].

Definition chunk (school url body : str) (v : lancedb.Vector)
  : lancedb.Chunk :=
  {| lancedb.vector := v; lancedb.text := body;
     lancedb.metadata := {| lancedb.school_name := school;
                            lancedb.page_url := url |} |}.

(** Squared Euclidean distance. *)
Fixpoint l2 (u v : lancedb.Vector) : Z :=
  match u, v with
  | x :: u', y :: v' => ((x - y) * (x - y) + l2 u' v')%Z
  | _, _ => 0%Z
  end.

Definition model : SqliteLanceDB.Embedder :=
  {| SqliteLanceDB.encode_outcome :=
       fun text => Return [Z.of_nat (String.length text)] |}.

(** A reranker that prefers the longer text and never fails. *)
Definition longer_first : lancedb.Reranker :=
  {| lancedb.relevance := fun _ body => Z.of_nat (String.length body);
     lancedb.rerank_outcome := fun _ _ _ => None |}.

(** A table without a vector index, which refuses every filter text that
    is not a plain equality, and whose lookup never fails. *)
Definition table_of (l : list lancedb.Chunk) : lancedb.Table :=
  {| lancedb.rows := l;
     lancedb.visited := fun _ _ => true;
     lancedb.distance := l2;
     lancedb.read_filter :=
       fun f => Raise (ValueError ("Syntax error in filter: " +++ f));
     lancedb.lookup_outcome := fun _ _ _ => None |}.

Definition websites_of (l : list lancedb.Chunk) : SqliteLanceDB.t :=
  {| SqliteLanceDB.lancedb_path := "websites.lance";
     SqliteLanceDB.table := table_of l;
     SqliteLanceDB.embedder := model;
     SqliteLanceDB.reranker := longer_first |}.

(** School names in capitals, as scenario C of the specification has
    them. *)
Definition capitals : SqliteLanceDB.t :=
  websites_of
    [chunk "ABC HIGH SCHOOL" "https://abc.example/bell"
           "School starts at 8:00 am." [25%Z];
     chunk "XYZ ACADEMY" "https://xyz.example/hours"
           "Doors open at 7:45." [19%Z]].

(** School names in title case. *)
Definition titled : SqliteLanceDB.t :=
  websites_of
    [chunk "Abc High School" "https://abc.example/bell"
           "School starts at 8:00 am." [25%Z];
     chunk "Xyz Academy" "https://xyz.example/hours"
           "Doors open at 7:45." [19%Z]].

(** A school whose name has a letter outside ASCII. *)
Definition accented : SqliteLanceDB.t :=
  websites_of
    [chunk ("Rub" +++ e_acute +++ "n Salazar") "https://salazar.example/"
           "Bilingual education center." [27%Z];
     chunk "Xyz Academy" "https://xyz.example/hours"
           "Doors open at 7:45." [19%Z]].

(** Eleven chunks of one school; chunk [i] lies at distance [i * i] from
    the embedding of the empty question and has a text of [i] letters, so
    the farthest chunk is the one [longer_first] likes best. *)
Fixpoint letters (n : nat) : str :=
  match n with
  | O => EmptyString
  | S n' => String "a" (letters n')
  end.

Definition eleven : SqliteLanceDB.t :=
  websites_of
    (map (fun i => chunk "Abc High School" "https://abc.example/"
                         (letters i) [Z.of_nat i])
         (seq 1 11)).

(** The table of [titled], with a lookup that panics. *)
Definition panicking : SqliteLanceDB.t :=
  {| SqliteLanceDB.lancedb_path := "websites.lance";
     SqliteLanceDB.table :=
       {| lancedb.rows := lancedb.rows (SqliteLanceDB.table titled);
          lancedb.visited := fun _ _ => true;
          lancedb.distance := l2;
          lancedb.read_filter :=
            fun f => Raise (ValueError ("Syntax error in filter: " +++ f));
          lancedb.lookup_outcome :=
            fun _ _ _ => Some (PanicException "index out of bounds") |};
     SqliteLanceDB.embedder := model;
     SqliteLanceDB.reranker := longer_first |}.

End Scenario.

(* ================================================================== *)
(** ** The tool registry of [main] *)

Module tools.

(** The [inputSchema] of a tool: a JSON object with the keys ["type"],
    ["properties"] and ["required"]; each property is itself an object
    whose values are strings. *)
Record Schema : Type := {
  type : str;
  properties : dict (dict str);
  required : list str
}.

Record Tool : Type := {
  name : str;
  description : str;
  inputSchema : Schema
}.

Definition nl : str := String (ascii_of_nat 10) EmptyString.
Definition dq : str := String (ascii_of_nat 34) EmptyString.

(** The two triple-quoted descriptions, line by line. *)
Definition schools_description : str :=
  nl
  +++ "                Excecute a SELECT query on a table of Ch"
  +++ "icago public schools and their neighborhoods called "
  +++ dq
  +++ "schooltoneighborhood"
  +++ dq
  +++ " with the following schema:"
  +++ nl
  +++ "                    id INTEGER NOT NULL, "
  +++ nl
  +++ "                    created_at DATETIME NOT NULL, "
  +++ nl
  +++ "                    school_id INTEGER NOT NULL, "
  +++ nl
  +++ "                    school_name VARCHAR NOT NULL, "
  +++ nl
  +++ "                    neighborhood VARCHAR NOT NULL, "
  +++ nl
  +++ "                    PRIMARY KEY (id)"
  +++ nl
  +++ nl
  +++ "                "
  +++ dq
  +++ "school_name"
  +++ dq
  +++ " is always all-caps but "
  +++ dq
  +++ "neighborhood"
  +++ dq
  +++ " is not."
  +++ nl
  +++ "                ".

Definition websites_description : str :=
  nl
  +++ "                Query a database of Chicago public schoo"
  +++ "l websites for context relevant to answering a given que"
  +++ "stion."
  +++ nl
  +++ "                ".

(** [handle_list_tools], lines 82-122. *)
Definition handle_list_tools : list Tool :=
  [ {| name := "query_schools_and_neighborhoods";
       description := schools_description;
       inputSchema :=
         {| type := "object";
            properties :=
              [("query",
                [("type", "string");
                 ("description", "SELECT SQL query to execute")])];
            required := ["query"] |} |};
    {| name := "query_school_websites";
       description := websites_description;
       inputSchema :=
         {| type := "object";
            properties :=
              [("question",
                [("type", "string");
                 ("description",
                  "Question to answer using relevant context from "
                  +++ "the school websites.")]);
               ("school_name",
                [("type", "string");
                 ("description",
                  "Optional filter to only search within a specific "
                  +++ "school's website.")])];
            required := ["question"] |} |} ].

End tools.

(* ================================================================== *)
(** ** Notions used to state further properties *)

(** The events of the SQLite library and those of the semantic search. *)
Definition is_store_event (ev : event) : bool :=
  match ev with
  | EvEncode _ | EvVectorSearch _ _ => false
  | _ => true
  end.

Definition is_search_event (ev : event) : bool :=
  match ev with
  | EvEncode _ | EvVectorSearch _ _ => true
  | _ => false
  end.

(** A name as [sqlite3.Row] tells names apart: an ASCII name without
    regard to the case of its letters, any other name as it is. *)
Definition column_key (name : str) : str :=
  if Ascii7.is_ascii name then Ascii7.lower name else name.

(** The names of the columns of a row, as the row tells them apart. *)
Definition column_names (row : Row) : list str :=
  map (fun kv => column_key (fst kv)) row.

(** A session: the invocations the transport delivers, handled one after
    the other for as long as [handle_call_tool] answers; the answers, the
    exception that ended the session if one escaped the handler, and the
    world at the end. *)
Fixpoint run_session (ctx : server.Context)
                     (calls : list (str * server.Arguments)) (w : World)
  : list (list server.Content) * option exn * World :=
  match calls with
  | [] => ([], None, w)
  | (name, arguments) :: rest =>
      match server.handle_call_tool ctx name arguments w with
      | (Return answer, w1) =>
          let '(answers, escaped, w2) := run_session ctx rest w1 in
          (answer :: answers, escaped, w2)
      | (Raise e, w1) => ([], Some e, w1)
      end
  end.

(** [chosen] is drawn from [l]: every element of [chosen] is an element of
    [l], and none is taken more often than it occurs there. *)
Definition drawn_from {A} (chosen l : list A) : Prop :=
  exists rest, Permutation (chosen ++ rest) l.

(** A context and the two advertised tools, used to exhibit instances. *)
Module Instances.

Definition ctx : server.Context :=
  {| server.lib := Scenario.empty_store;
     server.sqlitedb := Scenario.cps;
     server.lancedb_ := Scenario.titled;
     server.rendering :=
       {| server.str_of_records := fun _ => "[]";
          server.str_of_results := fun _ => "[]" |} |}.

(** The same, with the table whose lookup panics. *)
Definition ctx_panicking : server.Context :=
  {| server.lib := Scenario.empty_store;
     server.sqlitedb := Scenario.cps;
     server.lancedb_ := Scenario.panicking;
     server.rendering := server.rendering ctx |}.

Definition no_tool : tools.Tool :=
  {| tools.name := EmptyString; tools.description := EmptyString;
     tools.inputSchema := {| tools.type := EmptyString;
                             tools.properties := [];
                             tools.required := [] |} |}.

Definition schools_tool : tools.Tool :=
  nth 0 tools.handle_list_tools no_tool.

Definition websites_tool : tools.Tool :=
  nth 1 tools.handle_list_tools no_tool.

End Instances.
(* ================================================================== *)
(** * Properties *)

(** ** Strings and code points *)

Lemma byte_chr (n : N) : (n < 256)%N -> byte (chr n) = n.
Proof. unfold byte, chr. apply N_ascii_embedding. Qed.

Lemma encode1_ascii (c : N) :
  (c < 128)%N -> encode1 c = String (chr c) EmptyString.
Proof.
  intros H. unfold encode1. apply N.ltb_lt in H. now rewrite H.
Qed.

(** The first byte of a code point from 128 on is no ASCII byte. *)
Lemma encode1_high (c : N) :
  (128 <= c)%N ->
  exists b rest, encode1 c = String (chr b) rest /\ (128 <= b < 256)%N.
Proof.
  intros H. unfold encode1.
  destruct (c <? 128)%N eqn:H1; [apply N.ltb_lt in H1; lia|].
  destruct (c <? 2048)%N eqn:H2; [|destruct (c <? 65536)%N eqn:H3].
  - apply N.ltb_lt in H2. eexists. eexists. split; [reflexivity|].
    assert (c / 64 < 32)%N by (apply N.Div0.div_lt_upper_bound; lia).
    generalize dependent (c / 64)%N. intros; lia.
  - apply N.ltb_lt in H3. eexists. eexists. split; [reflexivity|].
    assert (c / 4096 < 16)%N by (apply N.Div0.div_lt_upper_bound; lia).
    generalize dependent (c / 4096)%N. intros; lia.
  - eexists. eexists. split; [reflexivity|].
    assert ((c / 262144) mod 8 < 8)%N by (apply N.mod_lt; lia).
    generalize dependent ((c / 262144) mod 8)%N. intros; lia.
Qed.

Lemma prefix_empty (s : str) : String.prefix EmptyString s = true.
Proof. now destruct s. Qed.

(** A text of ASCII letters is a prefix of a string when its code points
    are a prefix of the code points the string is made from. *)
Lemma prefix_encode (a : list N) :
  forallb (fun x => x <? 128)%N a = true ->
  forall m, String.prefix (encode a) (encode m) = lprefix a m.
Proof.
  induction a as [|x a IH]; intros Ha m.
  - cbn. apply prefix_empty.
  - cbn [forallb] in Ha. apply andb_true_iff in Ha. destruct Ha as [Hx Ha].
    apply N.ltb_lt in Hx.
    cbn [encode lprefix]. rewrite (encode1_ascii x Hx). cbn [String.append].
    destruct m as [|c m]; [reflexivity|].
    cbn [encode].
    destruct (N.lt_ge_cases c 128) as [Hc|Hc].
    + rewrite (encode1_ascii c Hc). cbn [String.append String.prefix].
      destruct (ascii_dec (chr x) (chr c)) as [E|E].
      * assert (x = c).
        { rewrite <- (byte_chr x), <- (byte_chr c) by lia. now rewrite E. }
        subst c. rewrite N.eqb_refl. cbn. now apply IH.
      * destruct (N.eqb_spec x c) as [->|_]; [now elim E|reflexivity].
    + destruct (encode1_high c Hc) as (b & rest & -> & Hb).
      cbn [String.append String.prefix].
      destruct (ascii_dec (chr x) (chr b)) as [E|E].
      * assert (x = b).
        { rewrite <- (byte_chr x), <- (byte_chr b) by lia. now rewrite E. }
        lia.
      * destruct (N.eqb_spec x c) as [->|_]; [lia|reflexivity].
Qed.

Lemma lprefix_app_r (a b r : list N) :
  lprefix a b = true -> lprefix a (b ++ r) = true.
Proof.
  revert b. induction a as [|x a IH]; intros [|y b] H; cbn in *;
    try reflexivity; try discriminate.
  apply andb_true_iff in H. destruct H as [-> H]. cbn. now apply IH.
Qed.

Lemma lprefix_split (f k : list N) :
  lprefix f k = true -> k = f ++ skipn (List.length f) k.
Proof.
  revert k. induction f as [|x f IH]; intros [|y k] H; cbn in *;
    try reflexivity; try discriminate.
  apply andb_true_iff in H. destruct H as [E H].
  apply N.eqb_eq in E. subst y. f_equal. now apply IH.
Qed.

Lemma lprefix_app_same (f k r : list N) :
  lprefix (f ++ k) (f ++ r) = lprefix k r.
Proof.
  induction f as [|x f IH]; cbn; [reflexivity|].
  now rewrite N.eqb_refl.
Qed.

Lemma lprefix_app_cases (k f r : list N) :
  lprefix k (f ++ r) = true -> lprefix k f = true \/ lprefix f k = true.
Proof.
  revert f. induction k as [|x k IH]; intros f H.
  - now left.
  - destruct f as [|y f]; [now right|].
    cbn in *. apply andb_true_iff in H. destruct H as [E H].
    rewrite E. rewrite N.eqb_sym, E. cbn. now apply IH.
Qed.

Lemma list_eqb_eq (a b : list N) : list_eqb a b = true -> a = b.
Proof.
  revert b. induction a as [|x a IH]; intros [|y b] H; cbn in *;
    try reflexivity; try discriminate.
  apply andb_true_iff in H. destruct H as [E H].
  apply N.eqb_eq in E. subst y. f_equal. now apply IH.
Qed.

Lemma mem_pair_In (p : list N * list N) (l : list (list N * list N)) :
  mem_pair p l = true -> In p l.
Proof.
  unfold mem_pair. intros H. apply existsb_exists in H.
  destruct H as (q & Hq & E). apply andb_true_iff in E.
  destruct E as [E1 E2]. apply list_eqb_eq in E1. apply list_eqb_eq in E2.
  destruct p, q. cbn in *. now subst.
Qed.

Lemma assoc_unmapped (c : N) (t : list (N * list N)) :
  existsb (N.eqb c) (map fst t) = false -> Unicode.assoc c t = None.
Proof.
  induction t as [|[k v] t IH]; cbn; [reflexivity|].
  intros H. apply orb_false_iff in H. destruct H as [E H].
  rewrite N.eqb_sym, E. now apply IH.
Qed.

Lemma suffix_shapes :
  forallb suffix_shape keyword_suffixes = true.
Proof. vm_compute. reflexivity. Qed.

Lemma char_ok_ascii :
  forallb char_ok (map N.of_nat (seq 0 128)) = true.
Proof. vm_compute. reflexivity. Qed.

Lemma char_ok_mapped : forallb char_ok mapped_points = true.
Proof. vm_compute. reflexivity. Qed.

(** Every code point takes the ends of the keywords to ends of the
    keywords. *)
Lemma char_ok_all (c : N) : char_ok c = true.
Proof.
  destruct (N.lt_ge_cases c 128) as [Hc|Hc].
  - pose proof char_ok_ascii as H. rewrite forallb_forall in H.
    apply H. apply in_map_iff. exists (N.to_nat c). split; [lia|].
    apply in_seq. lia.
  - destruct (existsb (N.eqb c) mapped_points) eqn:Hm.
    + apply existsb_exists in Hm. destruct Hm as (d & Hd & E).
      apply N.eqb_eq in E. subst d.
      pose proof char_ok_mapped as H. rewrite forallb_forall in H.
      now apply H.
    + unfold mapped_points in Hm. rewrite !existsb_app in Hm.
      apply orb_false_iff in Hm. destruct Hm as [Hf Hm].
      apply orb_false_iff in Hm. destruct Hm as [Hl Hu].
      assert (Ef : Unicode.to_folded c = [c]).
      { unfold Unicode.to_folded, Unicode.to_lower.
        destruct (c <? 128)%N eqn:E; [apply N.ltb_lt in E; lia|].
        now rewrite (assoc_unmapped _ _ Hf), (assoc_unmapped _ _ Hl). }
      assert (Eu : Unicode.to_upper c = [c]).
      { unfold Unicode.to_upper.
        destruct (c <? 128)%N eqn:E; [apply N.ltb_lt in E; lia|].
        now rewrite (assoc_unmapped _ _ Hu). }
      unfold char_ok. rewrite Ef, Eu. apply forallb_forall.
      intros p Hp. pose proof suffix_shapes as H.
      rewrite forallb_forall in H. specialize (H p Hp).
      destruct p as [[|x kf] [|y ku]]; cbn in H; try discriminate H;
        [reflexivity|].
      apply andb_true_iff in H. destruct H as [Hx Hy].
      apply N.ltb_lt in Hx. unfold step_ok. cbn [fst snd lprefix].
      destruct (N.eqb_spec x c) as [->|_]; [lia|].
      destruct (N.eqb_spec c x) as [->|_]; [lia|]. reflexivity.
Qed.

(** When the case-folded code points start with what is left of a
    case-folded keyword, the upper-cased code points start with what is
    left of the keyword. *)
Lemma folded_prefix_upper (l : list N) :
  forall p, In p keyword_suffixes ->
    lprefix (fst p) (flat_map Unicode.to_folded l) = true ->
    lprefix (snd p) (flat_map Unicode.to_upper l) = true.
Proof.
  induction l as [|c l IH]; intros p Hp H.
  - pose proof suffix_shapes as S. rewrite forallb_forall in S.
    specialize (S p Hp).
    destruct p as [[|x kf] [|y ku]]; cbn in *; congruence.
  - cbn [flat_map] in *.
    pose proof (char_ok_all c) as Hc. unfold char_ok in Hc.
    rewrite forallb_forall in Hc. specialize (Hc p Hp).
    unfold step_ok in Hc.
    destruct (lprefix (fst p) (Unicode.to_folded c)) eqn:E1.
    + now apply lprefix_app_r.
    + destruct (lprefix (Unicode.to_folded c) (fst p)) eqn:E2.
      * apply andb_true_iff in Hc. destruct Hc as [Hu Hmem].
        apply mem_pair_In in Hmem.
        rewrite (lprefix_split _ _ E2), lprefix_app_same in H.
        rewrite (lprefix_split _ _ Hu), lprefix_app_same.
        exact (IH _ Hmem H).
      * apply lprefix_app_cases in H. destruct H; congruence.
Qed.

Lemma keyword_points (kw : str) :
  In kw CPSSqliteDB.write_keywords ->
  In (decode (casefold kw), decode kw) keyword_suffixes /\
  casefold kw = encode (decode (casefold kw)) /\
  kw = encode (decode kw) /\
  forallb (fun x => x <? 128)%N (decode (casefold kw)) = true /\
  forallb (fun x => x <? 128)%N (decode kw) = true.
Proof.
  intros H. cbn in H.
  repeat (destruct H as [<-|H];
          [split; [apply mem_pair_In|repeat split]; vm_compute; reflexivity|]).
  contradiction.
Qed.

(** ** The query guard and the relational executor *)

(** The guard fires on a query whose trimmed, case-folded text starts with
    a case-folded keyword. *)
Lemma is_write_query_casefold (query kw : str) :
  In kw CPSSqliteDB.write_keywords ->
  startswith (casefold (strip query)) (casefold kw) = true ->
  CPSSqliteDB.is_write_query query = true.
Proof.
  intros Hin Hpre.
  unfold CPSSqliteDB.is_write_query, startswith_any.
  apply existsb_exists. exists kw. split; [exact Hin|].
  destruct (keyword_points kw Hin) as (Hp & Ef & Eu & Af & Au).
  unfold startswith, casefold, upper in *.
  fold (casefold kw) in *.
  rewrite Ef in Hpre. rewrite (prefix_encode _ Af) in Hpre.
  rewrite Eu at 1. rewrite (prefix_encode _ Au).
  exact (folded_prefix_upper _ _ Hp Hpre).
Qed.

(** C1.  A query whose trimmed, case-folded text starts with insert, update,
    delete, create, drop or alter is classified REJECTED; the relational
    query operation raises ValueError to its caller and leaves the world as
    it found it: no connection is opened, nothing is executed, no event and
    no log record is added, and no rows are returned. *)
Theorem write_query_rejected (query kw : str) :
  In kw CPSSqliteDB.write_keywords ->
  startswith (casefold (strip query)) (casefold kw) = true ->
  CPSSqliteDB.classify query = CPSSqliteDB.REJECTED /\
  forall (lib : Sqlite3) (self : CPSSqliteDB.t) (w : World),
    CPSSqliteDB._execute_query lib self query w
    = (Raise (ValueError "Only read queries are allowed!!"), w).
Proof.
  intros Hin Hpre.
  pose proof (is_write_query_casefold query kw Hin Hpre) as G.
  split.
  - unfold CPSSqliteDB.classify. now rewrite G.
  - intros lib self w. unfold CPSSqliteDB._execute_query. now rewrite G.
Qed.

Lemma write_query_rejected_witness :
  CPSSqliteDB.classify
    (Scenario.nbsp +++ "in" +++ Scenario.long_s +++ "ert into t values (1) ")
  = CPSSqliteDB.REJECTED /\
  forall (lib : Sqlite3) (self : CPSSqliteDB.t) (w : World),
    CPSSqliteDB._execute_query lib self
      (Scenario.nbsp +++ "in" +++ Scenario.long_s
       +++ "ert into t values (1) ") w
    = (Raise (ValueError "Only read queries are allowed!!"), w).
Proof.
  apply (write_query_rejected
           (Scenario.nbsp +++ "in" +++ Scenario.long_s
            +++ "ert into t values (1) ") "INSERT").
  - simpl. tauto.
  - vm_compute. reflexivity.
Defined.
Lemma remove_handle_fresh (h n : nat) (l : list nat) :
  Forall (fun x => x < n) l -> n <= h -> remove_handle h (h :: l) = l.
Proof.
  intros Hl Hn. unfold remove_handle. simpl. rewrite Nat.eqb_refl. simpl.
  induction Hl as [|x l Hx _ IH]; [reflexivity|].
  simpl. destruct (Nat.eqb_spec x h); [lia|]. simpl. now rewrite IH.
Qed.

(** What lines 36-42 do, by the answers of the SQLite file: the connection
    cannot be opened; the statement raises; the statement delivers rows. *)
Lemma run_query_outcome (lib : Sqlite3) (self : CPSSqliteDB.t) (query : str)
                        (w : World) :
  let path := CPSSqliteDB.sqlite_path self in
  let h := next_handle w in
  let c := S h in
  let closed (tr : list event) (lg : list (log_level * str)) :=
    {| next_handle := S c;
       open_conns := remove_handle h (h :: open_conns w);
       open_cursors := remove_handle c (c :: open_cursors w);
       trace := tr; logs := lg |} in
  CPSSqliteDB.run_query lib self query w =
  match connect_outcome lib (trace w) path with
  | Some e =>
      (Raise e,
       {| next_handle := h; open_conns := open_conns w;
          open_cursors := open_cursors w;
          trace := EvConnectFailed path :: trace w; logs := logs w |})
  | None =>
      match execute_outcome lib
              (EvCursor h c :: EvConnect path h :: trace w) query with
      | Raise e =>
          (Raise e,
           closed (EvConnClose h :: EvCursorClose c :: EvExecute h c query
                   :: EvCursor h c :: EvConnect path h :: trace w)
                  (logs w))
      | Return rows =>
          (Return (map dict_of_row rows),
           closed (EvConnClose h :: EvCursorClose c :: EvFetchall c
                   :: EvExecute h c query :: EvCursor h c
                   :: EvConnect path h :: trace w)
                  ((DEBUG, "Read query returned "
                           +++ of_nat (List.length (map dict_of_row rows))
                           +++ " rows") :: logs w))
      end
  end.
Proof.
  cbv zeta.
  unfold CPSSqliteDB.run_query, bind, with_closing, sqlite3.connect.
  destruct (connect_outcome lib (trace w) (CPSSqliteDB.sqlite_path self));
    [reflexivity|].
  cbn.
  destruct (execute_outcome lib _ query); reflexivity.
Qed.

(** C7.  A query classified READ whose connection opens and whose statement
    succeeds with zero rows makes the relational execute operation return
    the empty list, not an exception. *)
Theorem zero_rows_empty_sequence (lib : Sqlite3) (self : CPSSqliteDB.t)
                                 (query : str) (w : World) :
  CPSSqliteDB.classify query = CPSSqliteDB.READ ->
  connect_outcome lib (trace w) (CPSSqliteDB.sqlite_path self) = None ->
  execute_outcome lib
    (EvCursor (next_handle w) (S (next_handle w))
     :: EvConnect (CPSSqliteDB.sqlite_path self) (next_handle w) :: trace w)
    query = Return [] ->
  fst (CPSSqliteDB._execute_query lib self query w) = Return [].
Proof.
  intros Hread Hconn Hexec.
  unfold CPSSqliteDB.classify in Hread.
  unfold CPSSqliteDB._execute_query.
  destruct (CPSSqliteDB.is_write_query query); [discriminate Hread|].
  unfold bind, try_except, log. cbn [fst].
  rewrite run_query_outcome. cbn [trace logs next_handle].
  rewrite Hconn, Hexec. reflexivity.
Qed.

Lemma zero_rows_empty_sequence_witness :
  fst (CPSSqliteDB._execute_query Scenario.empty_store Scenario.cps
         "SELECT school_name FROM schooltoneighborhood WHERE school_id = 0"
         Scenario.w0) = Return [].
Proof.
  apply (zero_rows_empty_sequence Scenario.empty_store Scenario.cps
           "SELECT school_name FROM schooltoneighborhood WHERE school_id = 0"
           Scenario.w0); reflexivity.
Defined.

Lemma well_formed_later (w : World) (n : nat) tr lg :
  well_formed w -> next_handle w <= n ->
  well_formed {| next_handle := n; open_conns := open_conns w;
                 open_cursors := open_cursors w; trace := tr; logs := lg |}.
Proof.
  intros [Hc Hk] Hn. split; cbn;
    (eapply Forall_impl; [|eassumption]); cbn; intros; lia.
Qed.



(** ** Ordering by a score *)

Section SortBy.

Context {A : Type} (key : A -> Z).

Lemma insert_by_perm (x : A) (l : list A) :
  Permutation (lancedb.insert_by key x l) (x :: l).
Proof.
  induction l as [|y l IH]; cbn; [reflexivity|].
  destruct (key x <=? key y)%Z; [reflexivity|].
  rewrite IH. apply perm_swap.
Qed.

Lemma sort_by_perm (l : list A) : Permutation (lancedb.sort_by key l) l.
Proof.
  induction l as [|x l IH]; cbn; [reflexivity|].
  rewrite insert_by_perm. now apply perm_skip.
Qed.

Lemma sort_by_length (l : list A) :
  List.length (lancedb.sort_by key l) = List.length l.
Proof. apply Permutation_length, sort_by_perm. Qed.

Lemma sort_by_In (x : A) (l : list A) :
  In x (lancedb.sort_by key l) -> In x l.
Proof. apply Permutation_in, sort_by_perm. Qed.

Lemma insert_by_sorted (x : A) (l : list A) :
  StronglySorted (fun a b => (key a <= key b)%Z) l ->
  StronglySorted (fun a b => (key a <= key b)%Z) (lancedb.insert_by key x l).
Proof.
  induction 1 as [|y l Hl IH Hy]; cbn.
  - repeat constructor.
  - destruct (Z.leb_spec (key x) (key y)) as [Hxy|Hxy].
    + constructor; [now constructor|].
      constructor; [exact Hxy|].
      eapply Forall_impl; [|exact Hy]. cbn. intros; lia.
    + constructor; [exact IH|].
      eapply Permutation_Forall; [symmetry; apply insert_by_perm|].
      constructor; [lia|exact Hy].
Qed.

Lemma sort_by_sorted (l : list A) :
  StronglySorted (fun a b => (key a <= key b)%Z) (lancedb.sort_by key l).
Proof.
  induction l as [|x l IH]; cbn; [constructor|].
  now apply insert_by_sorted.
Qed.

End SortBy.

Lemma StronglySorted_map {A B} (f : A -> B) (R : B -> B -> Prop)
                         (l : list A) :
  StronglySorted (fun a b => R (f a) (f b)) l -> StronglySorted R (map f l).
Proof.
  induction 1 as [|a l _ IH Ha]; cbn; constructor; [exact IH|].
  apply Forall_map. exact Ha.
Qed.

Lemma StronglySorted_impl {A} (R R' : A -> A -> Prop) (l : list A) :
  (forall a b, R a b -> R' a b) ->
  StronglySorted R l -> StronglySorted R' l.
Proof.
  intros HR. induction 1 as [|a l _ IH Ha]; constructor; [exact IH|].
  eapply Forall_impl; [|exact Ha]. apply HR.
Qed.


(** ** The semantic search executor *)

(** What lines 59-66 do, by the answers of the embedding model, of the
    table and of the reranker. *)
Lemma search_outcome (self : SqliteLanceDB.t) (question : str)
                     (school_name : option str) (w : World) :
  SqliteLanceDB._execute_query self question school_name w =
  let w1 := record_event (EvEncode question) w in
  match SqliteLanceDB.encode_outcome (SqliteLanceDB.embedder self) question
  with
  | Raise e => (Raise e, w1)
  | Return v =>
      let t := SqliteLanceDB.table self in
      let f := filter_text school_name in
      let w2 := record_event (EvVectorSearch f 10) w1 in
      match lancedb.reading t f with
      | Raise e => (Raise e, w2)
      | Return p =>
          match lancedb.lookup_outcome t (trace w2) v f with
          | Some e => (Raise e, w2)
          | None =>
              let hits := nearest self v (lancedb.matching p (lancedb.rows t))
              in
              match lancedb.rerank_outcome (SqliteLanceDB.reranker self)
                      (trace w2) question (map lancedb.text hits) with
              | Some e => (Raise e, w2)
              | None =>
                  (Return (map SqliteLanceDB.project
                             (ranking self question hits)), w2)
              end
          end
      end
  end.
Proof.
  unfold SqliteLanceDB._execute_query, SqliteLanceDB.encode, bind, emit, lift.
  cbv zeta. unfold filter_text.
  destruct (SqliteLanceDB.encode_outcome _ question) as [v|e]; [|reflexivity].
  destruct (SqliteLanceDB.no_filter school_name) eqn:Hno.
  - unfold lancedb.to_list, bind, emit, lift, lancedb.failing.
    cbn [lancedb.q_where lancedb.limit lancedb.rerank lancedb.search
         lancedb.q_limit lancedb.q_table lancedb.q_vector
         lancedb.q_reranker lancedb.reading trace record_event].
    destruct (lancedb.lookup_outcome _ _ v None); [reflexivity|].
    cbn [trace].
    destruct (lancedb.rerank_outcome _ _ question _); reflexivity.
  - destruct school_name as [name|]; [|discriminate Hno].
    unfold lancedb.to_list, bind, emit, lift, lancedb.failing.
    cbn [lancedb.q_where lancedb.limit lancedb.rerank lancedb.where_
         lancedb.search lancedb.q_limit lancedb.q_table lancedb.q_vector
         lancedb.q_reranker lancedb.reading trace record_event option_map].
    destruct (lancedb.filter_reading _ _) as [p|e]; [|reflexivity].
    destruct (lancedb.lookup_outcome _ _ v _); [reflexivity|].
    cbn [trace].
    destruct (lancedb.rerank_outcome _ _ question _); reflexivity.
Qed.

Lemma nearest_length (self : SqliteLanceDB.t) (v : lancedb.Vector)
                     (l : list lancedb.Chunk) :
  List.length (nearest self v l) <= 10.
Proof. apply firstn_le_length. Qed.

Lemma In_firstn {A} (n : nat) (l : list A) (x : A) :
  In x (firstn n l) -> In x l.
Proof.
  revert l. induction n as [|n IH]; intros [|y l]; cbn; try tauto.
  intros [->|H]; [now left|right; now apply IH].
Qed.

Lemma nearest_In (self : SqliteLanceDB.t) (v : lancedb.Vector)
                 (l : list lancedb.Chunk) (r : lancedb.Chunk) :
  In r (nearest self v l) -> In r l.
Proof.
  intros H. apply In_firstn, sort_by_In in H. now apply filter_In in H.
Qed.

Lemma ranking_length (self : SqliteLanceDB.t) (question : str)
                     (l : list lancedb.Chunk) :
  List.length (ranking self question l) = List.length l.
Proof. apply sort_by_length. Qed.

Lemma ranking_In (self : SqliteLanceDB.t) (question : str)
                 (l : list lancedb.Chunk) (r : lancedb.Chunk) :
  In r (ranking self question l) -> In r l.
Proof. apply sort_by_In. Qed.

Lemma ranking_best_first (self : SqliteLanceDB.t) (question : str)
                         (l : list lancedb.Chunk) :
  best_first self question
    (map SqliteLanceDB.project (ranking self question l)).
Proof.
  unfold best_first. apply StronglySorted_map.
  unfold ranking, lancedb.by_relevance.
  eapply StronglySorted_impl; [|apply sort_by_sorted].
  cbn. intros a b Hab. lia.
Qed.

(** A search that returns: the question was embedded, the filter text was
    read, and the results are the ranking of the rows nearest to the
    embedding among those that pass the filter. *)
Lemma search_returns (self : SqliteLanceDB.t) (question : str)
      (school_name : option str) (w : World)
      (results : list SqliteLanceDB.SearchResult) :
  fst (SqliteLanceDB._execute_query self question school_name w)
  = Return results ->
  exists v p,
    SqliteLanceDB.encode_outcome (SqliteLanceDB.embedder self) question
    = Return v /\
    lancedb.reading (SqliteLanceDB.table self) (filter_text school_name)
    = Return p /\
    results
    = map SqliteLanceDB.project
        (ranking self question
           (nearest self v
              (lancedb.matching p
                 (lancedb.rows (SqliteLanceDB.table self))))).
Proof.
  rewrite search_outcome. cbv zeta.
  destruct (SqliteLanceDB.encode_outcome _ question) as [v|e];
    [|discriminate].
  destruct (lancedb.reading _ _) as [p|e]; [|discriminate].
  destruct (lancedb.lookup_outcome _ _ v _); [discriminate|].
  destruct (lancedb.rerank_outcome _ _ question _); [discriminate|].
  cbn. intros [= <-]. exists v, p. repeat split.
Qed.

(** A search that raises: the embedding model raised, or the table or the
    reranker did. *)
Lemma search_raises (self : SqliteLanceDB.t) (question : str)
      (school_name : option str) (w : World) (e : exn) :
  fst (SqliteLanceDB._execute_query self question school_name w) = Raise e ->
  SqliteLanceDB.encode_outcome (SqliteLanceDB.embedder self) question
  = Raise e \/
  exists v,
    SqliteLanceDB.encode_outcome (SqliteLanceDB.embedder self) question
    = Return v /\
    table_failure self question school_name v w e.
Proof.
  rewrite search_outcome. cbv zeta. unfold table_failure, search_trace.
  destruct (SqliteLanceDB.encode_outcome _ question) as [v|e'].
  - intros H. right. exists v. split; [reflexivity|]. cbv zeta.
    destruct (lancedb.reading _ _) as [p|e1];
      [|left; cbn [fst] in H; congruence].
    right. exists p. split; [reflexivity|]. cbn [trace record_event] in H.
    destruct (lancedb.lookup_outcome _ _ v _) as [e2|].
    + left. cbn [fst] in H. congruence.
    + right. split; [reflexivity|].
      destruct (lancedb.rerank_outcome _ _ question _) as [e3|].
      * cbn [fst] in H. congruence.
      * discriminate H.
  - intros H. left. cbn [fst] in H. congruence.
Qed.

(** A search returns unless something raises. *)
Lemma search_returns_or_raises (self : SqliteLanceDB.t) (question : str)
      (school_name : option str) (w : World) (v : lancedb.Vector) :
  SqliteLanceDB.encode_outcome (SqliteLanceDB.embedder self) question
  = Return v ->
  (exists results,
     fst (SqliteLanceDB._execute_query self question school_name w)
     = Return results) \/
  (exists e,
     fst (SqliteLanceDB._execute_query self question school_name w)
     = Raise e /\
     table_failure self question school_name v w e).
Proof.
  intros Hv.
  destruct (fst (SqliteLanceDB._execute_query self question school_name w))
    as [results|e] eqn:Hout.
  - left. now exists results.
  - right. exists e. split; [reflexivity|].
    destruct (search_raises _ _ _ _ _ Hout) as [He|(v' & Hv' & Hf)].
    + congruence.
    + rewrite Hv in Hv'. injection Hv' as <-. exact Hf.
Qed.

(** The first ten of the ranking of all the rows that pass the filter are
    not what the search returns: on a table of eleven chunks of which the
    farthest is the most relevant, the search returns the ten nearest,
    ranked, and the most relevant chunk is not among them. *)
Lemma truncation_precedes_reranking :
  fst (SqliteLanceDB._execute_query Scenario.eleven EmptyString None
         Scenario.w0)
  <> Return (spec_ranked_then_truncated Scenario.eleven EmptyString None).
Proof. vm_compute. intros H. discriminate H. Qed.

(** C3, amended.  A semantic search that returns, returns at most 10
    results, best first by the relevance the reranker gives them: they are
    the reranker's ranking of the rows that the nearest-neighbour lookup
    retrieved, which are the 10 nearest to the embedding of the question
    among the rows that pass the filter.  The cut to 10 is made by the
    lookup, before the reranking.  A search that raises does so because the
    embedding model, the table or the reranker raised. *)
Theorem search_at_most_ten_ranked (self : SqliteLanceDB.t) (question : str)
        (school_name : option str) (w : World) :
  match fst (SqliteLanceDB._execute_query self question school_name w) with
  | Return results =>
      List.length results <= 10 /\
      best_first self question results /\
      exists v p,
        SqliteLanceDB.encode_outcome (SqliteLanceDB.embedder self) question
        = Return v /\
        lancedb.reading (SqliteLanceDB.table self) (filter_text school_name)
        = Return p /\
        results
        = map SqliteLanceDB.project
            (ranking self question
               (nearest self v
                  (lancedb.matching p
                     (lancedb.rows (SqliteLanceDB.table self)))))
  | Raise e =>
      SqliteLanceDB.encode_outcome (SqliteLanceDB.embedder self) question
      = Raise e \/
      exists v,
        SqliteLanceDB.encode_outcome (SqliteLanceDB.embedder self) question
        = Return v /\
        table_failure self question school_name v w e
  end.
Proof.
  destruct (fst (SqliteLanceDB._execute_query self question school_name w))
    as [results|e] eqn:Hout.
  - destruct (search_returns _ _ _ _ _ Hout) as (v & p & Hv & Hp & ->).
    split; [|split].
    + rewrite length_map, ranking_length. apply nearest_length.
    + apply ranking_best_first.
    + now exists v, p.
  - now apply search_raises.
Qed.

(** C9.  A school name that is empty or made of blanks only gives the very
    outcome, results and effects alike, that an absent school name gives;
    the query sent to the table then carries no filter. *)
Theorem blank_school_name_as_absent (self : SqliteLanceDB.t)
        (question name : str) (w : World) :
  strip name = EmptyString ->
  SqliteLanceDB._execute_query self question (Some name) w
  = SqliteLanceDB._execute_query self question None w /\
  forall v,
    SqliteLanceDB.encode_outcome (SqliteLanceDB.embedder self) question
    = Return v ->
    trace (snd (SqliteLanceDB._execute_query self question (Some name) w))
    = EvVectorSearch None 10 :: EvEncode question :: trace w.
Proof.
  intros Hblank.
  assert (Hno : SqliteLanceDB.no_filter (Some name) = true).
  { unfold SqliteLanceDB.no_filter. rewrite Hblank. cbn.
    apply orb_true_r. }
  assert (Hf : filter_text (Some name) = None).
  { unfold filter_text. now rewrite Hno. }
  rewrite !search_outcome. cbv zeta. rewrite Hf.
  change (filter_text None) with (@None str).
  split; [reflexivity|].
  intros v Hv. rewrite Hv. cbn [lancedb.reading].
  destruct (lancedb.lookup_outcome _ _ v None); [reflexivity|].
  destruct (lancedb.rerank_outcome _ _ question _); reflexivity.
Qed.

Lemma blank_school_name_as_absent_witness :
  SqliteLanceDB._execute_query Scenario.titled "When is recess?"
    (Some (Scenario.nbsp +++ " " +++ Scenario.em_space)) Scenario.w0
  = SqliteLanceDB._execute_query Scenario.titled "When is recess?"
      None Scenario.w0 /\
  forall v,
    SqliteLanceDB.encode_outcome (SqliteLanceDB.embedder Scenario.titled)
      "When is recess?" = Return v ->
    trace (snd (SqliteLanceDB._execute_query Scenario.titled
                  "When is recess?"
                  (Some (Scenario.nbsp +++ " " +++ Scenario.em_space))
                  Scenario.w0))
    = EvVectorSearch None 10 :: EvEncode "When is recess?"
      :: trace Scenario.w0.
Proof.
  apply (blank_school_name_as_absent Scenario.titled "When is recess?"
           (Scenario.nbsp +++ " " +++ Scenario.em_space) Scenario.w0).
  vm_compute. reflexivity.
Defined.

(** C2, as the claim states it, fails: on the empty question the search
    does not fail fast.  With a model that embeds the empty string, the
    call returns results and the empty string has reached [encode]. *)
Lemma empty_question_not_rejected :
  ~ fails_fast Scenario.titled EmptyString None Scenario.w0.
Proof.
  unfold fails_fast. intros [[msg Hmsg] _]. vm_compute in Hmsg.
  discriminate Hmsg.
Qed.

(** C2, amended.  The search does no validation of the question: the empty
    question is passed to [encode] before anything else.  If [encode]
    raises, that exception is the outcome and nothing else happened; if it
    returns, the search goes on to the table as for any other question:
    the query is sent to the table, and the search returns results unless
    the table or the reranker raises. *)
Theorem empty_question_forwarded (self : SqliteLanceDB.t)
        (school_name : option str) (w : World) :
  let out := SqliteLanceDB._execute_query self EmptyString school_name w in
  ~ fails_fast self EmptyString school_name w /\
  match SqliteLanceDB.encode_outcome (SqliteLanceDB.embedder self)
          EmptyString with
  | Raise e => out = (Raise e, record_event (EvEncode EmptyString) w)
  | Return v =>
      (exists filter,
         trace (snd out)
         = EvVectorSearch filter 10 :: EvEncode EmptyString :: trace w) /\
      ((exists results, fst out = Return results) \/
       (exists e, fst out = Raise e /\
                  table_failure self EmptyString school_name v w e))
  end.
Proof.
  cbv zeta. split.
  - unfold fails_fast. cbv zeta. intros [_ Hnot]. apply Hnot.
    rewrite search_outcome. cbv zeta.
    destruct (SqliteLanceDB.encode_outcome _ _) as [v|e]; [|now left].
    destruct (lancedb.reading _ _); [|right; now left].
    destruct (lancedb.lookup_outcome _ _ v _); [right; now left|].
    destruct (lancedb.rerank_outcome _ _ _ _); right; now left.
  - destruct (SqliteLanceDB.encode_outcome _ _) as [v|e] eqn:Hv.
    + split; [|now apply search_returns_or_raises].
      rewrite search_outcome. cbv zeta. rewrite Hv.
      exists (filter_text school_name).
      destruct (lancedb.reading _ _); [|reflexivity].
      destruct (lancedb.lookup_outcome _ _ v _); [reflexivity|].
      destruct (lancedb.rerank_outcome _ _ _ _); reflexivity.
    + rewrite search_outcome. cbv zeta. now rewrite Hv.
Qed.

(** ** The filter text *)

Lemma append_snoc (acc : str) (c : ascii) (s : str) :
  lancedb.snoc acc c +++ s = acc +++ String c s.
Proof.
  unfold lancedb.snoc. induction acc as [|a acc IH]; cbn; [reflexivity|].
  now rewrite IH.
Qed.

Lemma append_empty_r (s : str) : s +++ EmptyString = s.
Proof. induction s as [|a s IH]; cbn; [reflexivity|now rewrite IH]. Qed.



(** Inside a literal, characters other than the quote are taken as they
    are. *)
Lemma lex_literal_run (body rest : str) :
  contains quote body = false ->
  forall (acc : str) (out : list lancedb.token),
    lancedb.lex (lancedb.InString acc) out (body +++ rest)
    = lancedb.lex (lancedb.InString (acc +++ body)) out rest.
Proof.
  induction body as [|c body IH]; intros Hq acc out.
  - cbn. now rewrite append_empty_r.
  - change (contains quote (String c body))
      with (Ascii.eqb quote c || contains quote body) in Hq.
    apply orb_false_elim in Hq as [Hc Hq].
    cbn [String.append lancedb.lex].
    rewrite Ascii.eqb_sym, Hc.
    rewrite (IH Hq). now rewrite append_snoc.
Qed.

(** The fixed part of the f-string of line 64 is read as the column, the
    equals sign and the opening quote of a literal. *)
Lemma tokens_school_filter (rest : str) :
  lancedb.tokens ("metadata.school_name = '" +++ rest)
  = lancedb.lex (lancedb.InString EmptyString)
      [lancedb.TEq; lancedb.TWord "metadata.school_name"] rest.
Proof. reflexivity. Qed.

(** A name without a quote makes the filter text the words of the
    equality with that name. *)
Lemma tokens_quote_free (name : str) :
  contains quote name = false ->
  lancedb.tokens ("metadata.school_name = '" +++ name +++ "'")
  = Some [lancedb.TWord "metadata.school_name"; lancedb.TEq;
          lancedb.TString name].
Proof.
  intros Hq. rewrite tokens_school_filter, (lex_literal_run _ _ Hq).
  reflexivity.
Qed.

(** The table reads the filter text of a name whose title-cased form has
    no quote and is sound as the equality with that form. *)
Lemma reading_quote_free (t : lancedb.Table) (name : str) :
  contains quote (title name) = false ->
  lancedb.sound_text (title name) = true ->
  lancedb.filter_reading t (SqliteLanceDB.school_filter name)
  = Return (equality_on (title name)).
Proof.
  intros Hq Hs.
  unfold lancedb.filter_reading, lancedb.plain_equality,
    SqliteLanceDB.school_filter.
  rewrite (tokens_quote_free _ Hq), Hs. reflexivity.
Qed.

Lemma equality_on_eq (name : str) (r : lancedb.Chunk) :
  equality_on name r = true ->
  lancedb.school_name (lancedb.metadata r) = name.
Proof. apply String.eqb_eq. Qed.

(** The results of a search whose filter keeps the rows of one school
    carry the name of that school. *)
Lemma results_of_school (self : SqliteLanceDB.t) (question school : str)
                        (v : lancedb.Vector) :
  Forall (fun r => SqliteLanceDB.school_name r = school)
    (map SqliteLanceDB.project
       (ranking self question
          (nearest self v (rows_of_school self school)))).
Proof.
  apply Forall_map, Forall_forall. intros r Hin.
  apply ranking_In, nearest_In in Hin. unfold rows_of_school in Hin.
  apply filter_In in Hin. cbn. now apply equality_on_eq.
Qed.


(** The outcome of a search with the filter of one school. *)
Lemma school_search_outcome (self : SqliteLanceDB.t) (question name : str)
                            (w : World) :
  SqliteLanceDB.no_filter (Some name) = false ->
  lancedb.filter_reading (SqliteLanceDB.table self)
    (SqliteLanceDB.school_filter name)
  = Return (equality_on (title name)) ->
  match fst (SqliteLanceDB._execute_query self question (Some name) w) with
  | Return results =>
      exists v,
        SqliteLanceDB.encode_outcome (SqliteLanceDB.embedder self) question
        = Return v /\
        results
        = map SqliteLanceDB.project
            (ranking self question
               (nearest self v (rows_of_school self (title name))))
  | Raise e =>
      SqliteLanceDB.encode_outcome (SqliteLanceDB.embedder self) question
      = Raise e \/
      exists v,
        SqliteLanceDB.encode_outcome (SqliteLanceDB.embedder self) question
        = Return v /\
        (lancedb.lookup_outcome (SqliteLanceDB.table self)
           (search_trace question (Some name) w) v
           (Some (SqliteLanceDB.school_filter name)) = Some e \/
         lancedb.rerank_outcome (SqliteLanceDB.reranker self)
           (search_trace question (Some name) w) question
           (map lancedb.text
              (nearest self v (rows_of_school self (title name))))
         = Some e)
  end.
Proof.
  intros Hno Hread.
  assert (Hf : filter_text (Some name)
               = Some (SqliteLanceDB.school_filter name)).
  { unfold filter_text. now rewrite Hno. }
  rewrite search_outcome. cbv zeta. unfold search_trace. rewrite Hf.
  cbn [lancedb.reading trace record_event]. rewrite Hread.
  cbn [lancedb.matching]. fold (rows_of_school self (title name)).
  destruct (SqliteLanceDB.encode_outcome _ question) as [v|e];
    [|now left].
  destruct (lancedb.lookup_outcome _ _ v _) as [e|] eqn:Hl.
  - right. exists v. split; [reflexivity|]. now left.
  - destruct (lancedb.rerank_outcome _ _ question _) as [e|] eqn:Hr.
    + right. exists v. split; [reflexivity|]. now right.
    + now exists v.
Qed.



(** The search of the witness returns the chunk of the school with the
    accented name. *)
Lemma accented_name_found :
  fst (SqliteLanceDB._execute_query Scenario.accented
         "Is there a bilingual program?"
         (Some ("rub" +++ Scenario.e_acute +++ "n salazar")) Scenario.w0)
  = Return [{| SqliteLanceDB.school_name :=
                 "Rub" +++ Scenario.e_acute +++ "n Salazar";
               SqliteLanceDB.page_url := "https://salazar.example/";
               SqliteLanceDB.content := "Bilingual education center." |}].
Proof. vm_compute. reflexivity. Qed.

(** ** Scenario C *)

(** Scenario C, as the specification states it, fails: on an index with a
    chunk of "ABC HIGH SCHOOL" and one of "XYZ ACADEMY", the search with the
    school name "abc high school" returns no result, and not the chunk of
    "ABC HIGH SCHOOL". *)
Lemma scenario_C_returns_nothing :
  fst (SqliteLanceDB._execute_query Scenario.capitals
         "What time does school start?" (Some "abc high school")
         Scenario.w0) = Return [] /\
  forall v,
    spec_scenario_C Scenario.capitals "What time does school start?" v
    = [{| SqliteLanceDB.school_name := "ABC HIGH SCHOOL";
          SqliteLanceDB.page_url := "https://abc.example/bell";
          SqliteLanceDB.content := "School starts at 8:00 am." |}] /\
    fst (SqliteLanceDB._execute_query Scenario.capitals
           "What time does school start?" (Some "abc high school")
           Scenario.w0)
    <> Return (spec_scenario_C Scenario.capitals
                 "What time does school start?" v).
Proof.
  assert (H : fst (SqliteLanceDB._execute_query Scenario.capitals
                     "What time does school start?"
                     (Some "abc high school") Scenario.w0) = Return [])
    by (vm_compute; reflexivity).
  split; [exact H|]. intros v.
  assert (E : spec_scenario_C Scenario.capitals
                "What time does school start?" v
              = [{| SqliteLanceDB.school_name := "ABC HIGH SCHOOL";
                    SqliteLanceDB.page_url := "https://abc.example/bell";
                    SqliteLanceDB.content := "School starts at 8:00 am." |}])
    by reflexivity.
  split; [exact E|]. rewrite H, E. discriminate.
Qed.

(** C5, amended.  Scenario C: the question "What time does school start?"
    with the school name "abc high school".  The filter text compares the
    school name with "Abc High School", the title-cased input.  A search
    that returns, returns the ranking of the 10 nearest chunks among those
    whose school name is exactly "Abc High School": every result carries
    that name, they are best first by the reranker, and there are at most
    10; on an index whose school names are "ABC HIGH SCHOOL" and
    "XYZ ACADEMY" there is none.  The search raises only if the embedding
    model, the lookup or the reranker does. *)
Theorem scenario_C (self : SqliteLanceDB.t) (w : World) :
  filter_text (Some "abc high school")
  = Some "metadata.school_name = 'Abc High School'" /\
  match fst (SqliteLanceDB._execute_query self
               "What time does school start?" (Some "abc high school") w)
  with
  | Return results =>
      Forall (fun r => SqliteLanceDB.school_name r = "Abc High School")
             results /\
      best_first self "What time does school start?" results /\
      List.length results <= 10 /\
      (exists v,
         SqliteLanceDB.encode_outcome (SqliteLanceDB.embedder self)
           "What time does school start?" = Return v /\
         results
         = map SqliteLanceDB.project
             (ranking self "What time does school start?"
                (nearest self v (rows_of_school self "Abc High School")))) /\
      (Forall (fun r =>
                 lancedb.school_name (lancedb.metadata r)
                 = "ABC HIGH SCHOOL" \/
                 lancedb.school_name (lancedb.metadata r) = "XYZ ACADEMY")
              (lancedb.rows (SqliteLanceDB.table self)) ->
       results = [])
  | Raise e =>
      SqliteLanceDB.encode_outcome (SqliteLanceDB.embedder self)
        "What time does school start?" = Raise e \/
      exists v,
        SqliteLanceDB.encode_outcome (SqliteLanceDB.embedder self)
          "What time does school start?" = Return v /\
        (lancedb.lookup_outcome (SqliteLanceDB.table self)
           (search_trace "What time does school start?"
              (Some "abc high school") w) v
           (Some "metadata.school_name = 'Abc High School'") = Some e \/
         lancedb.rerank_outcome (SqliteLanceDB.reranker self)
           (search_trace "What time does school start?"
              (Some "abc high school") w)
           "What time does school start?"
           (map lancedb.text
              (nearest self v (rows_of_school self "Abc High School")))
         = Some e)
  end.
Proof.
  split; [vm_compute; reflexivity|].
  assert (Hno : SqliteLanceDB.no_filter (Some "abc high school") = false)
    by (vm_compute; reflexivity).
  assert (Ht : title "abc high school" = "Abc High School")
    by (vm_compute; reflexivity).
  assert (Hq : contains quote (title "abc high school") = false)
    by (vm_compute; reflexivity).
  assert (Hs : lancedb.sound_text (title "abc high school") = true)
    by (vm_compute; reflexivity).
  pose proof (school_search_outcome self "What time does school start?"
                "abc high school" w Hno
                (reading_quote_free _ _ Hq Hs)) as H.
  unfold SqliteLanceDB.school_filter in H. rewrite Ht in H.
  change ("metadata.school_name = '" +++ "Abc High School" +++ "'")
    with "metadata.school_name = 'Abc High School'" in H.
  destruct (fst (SqliteLanceDB._execute_query self _ _ w))
    as [results|e]; [|exact H].
  destruct H as (v & Hv & ->).
  split; [apply results_of_school|].
  split; [apply ranking_best_first|].
  split; [rewrite length_map, ranking_length; apply nearest_length|].
  split; [now exists v|].
  intros Hrows.
  assert (Hnone : rows_of_school self "Abc High School" = []).
  { unfold rows_of_school.
    induction Hrows as [|r l Hr _ IH]; [reflexivity|].
    cbn [filter]. rewrite IH. unfold equality_on.
    destruct Hr as [-> | ->]; reflexivity. }
  rewrite Hnone. reflexivity.
Qed.

(** On an index that writes the school names in title case, the search of
    scenario C returns the chunk of the school. *)
Lemma scenario_C_on_titled_names :
  fst (SqliteLanceDB._execute_query Scenario.titled
         "What time does school start?" (Some "abc high school")
         Scenario.w0)
  = Return [{| SqliteLanceDB.school_name := "Abc High School";
               SqliteLanceDB.page_url := "https://abc.example/bell";
               SqliteLanceDB.content := "School starts at 8:00 am." |}].
Proof. vm_compute. reflexivity. Qed.

(** ** A name with a quote *)








(** Two instances.  A name that ends the literal early leaves a text that
    is no plain equality: what becomes of it is up to the table, and on a
    table that refuses it the search raises. *)
Lemma quote_breaks_filter :
  lancedb.tokens (SqliteLanceDB.school_filter "o'brien") = None /\
  lancedb.plain_equality (SqliteLanceDB.school_filter "o'brien") = None /\
  fst (SqliteLanceDB._execute_query Scenario.titled "When is recess?"
         (Some "o'brien") Scenario.w0)
  = Raise (ValueError
             "Syntax error in filter: metadata.school_name = 'O'Brien'").
Proof. repeat split; vm_compute; reflexivity. Qed.

(** A name with a doubled quote makes the plain equality with another
    name, the one with a single quote in its place. *)
Lemma quote_alters_filter :
  title "mary''s" = "Mary''S" /\
  lancedb.plain_equality (SqliteLanceDB.school_filter "mary''s")
  = Some "Mary'S".
Proof. split; vm_compute; reflexivity. Qed.

(** ** The dispatcher *)

(** What the body of the [try] returns, when it returns, is one text
    item. *)
Lemma call_tool_body_returns (ctx : server.Context) (name : str)
      (arguments : server.Arguments) (w w' : World)
      (items : list server.Content) :
  server.call_tool_body ctx name arguments w = (Return items, w') ->
  exists text, items = [server.TextContent "text" text].
Proof.
  unfold server.call_tool_body.
  destruct (String.eqb name "query_schools_and_neighborhoods").
  - unfold bind.
    destruct (server.subscript arguments "query" w) as [[query|e] w1];
      [|discriminate].
    destruct (CPSSqliteDB._execute_query _ _ query w1) as [[rows|e] w2];
      [|discriminate].
    cbn. intros [= <- _]. eexists. reflexivity.
  - destruct (String.eqb name "query_school_websites").
    + unfold bind.
      destruct (server.subscript arguments "question" w) as [[q|e] w1];
        [|discriminate].
      destruct (server.get arguments "school_name" w1) as [[school|e] w2];
        [|discriminate].
      destruct (SqliteLanceDB._execute_query _ q school w2)
        as [[results|e] w3]; [|discriminate].
      cbn. intros [= <- _]. eexists. reflexivity.
    + discriminate.
Qed.

(** What the handler does with the outcome of the body of the [try]. *)
Lemma handle_call_tool_outcome (ctx : server.Context) (name : str)
      (arguments : server.Arguments) (w : World) :
  server.handle_call_tool ctx name arguments w =
  match server.call_tool_body ctx name arguments w with
  | (Return items, w') => (Return items, w')
  | (Raise e, w') =>
      if is_Exception e
      then (Return [server.TextContent "text"
                      (error_label e +++ str_of_exn e)], w')
      else (Raise e, w')
  end.
Proof.
  unfold server.handle_call_tool, try_except, error_label.
  destruct (server.call_tool_body ctx name arguments w) as [[items|e] w'];
    [reflexivity|].
  cbn [dispatch_exn].
  destruct (is_sqlite3_Error e) eqn:Hs.
  - destruct e; try discriminate Hs. reflexivity.
  - destruct (is_Exception e); reflexivity.
Qed.

(** C6, as the claim states it, fails: the handler does not catch every
    exception of an executor.  When the lookup of the vector table panics,
    the exception goes through both [except] clauses, and the handler
    raises it instead of returning a content item. *)
Lemma panic_escapes_dispatcher :
  is_Exception (PanicException "index out of bounds") = false /\
  fst (server.handle_call_tool Instances.ctx_panicking
         "query_school_websites"
         (Some [("question", "When is recess?")]) Scenario.w0)
  = Raise (PanicException "index out of bounds") /\
  ~ exists items,
      fst (server.handle_call_tool Instances.ctx_panicking
             "query_school_websites"
             (Some [("question", "When is recess?")]) Scenario.w0)
      = Return items.
Proof.
  split; [reflexivity|].
  assert (H : fst (server.handle_call_tool Instances.ctx_panicking
                     "query_school_websites"
                     (Some [("question", "When is recess?")]) Scenario.w0)
              = Raise (PanicException "index out of bounds"))
    by (vm_compute; reflexivity).
  split; [exact H|].
  intros [items Hitems]. rewrite H in Hitems. discriminate Hitems.
Qed.

(** C6, amended.  Whatever the tool name, the arguments and the answers of
    the two stores: when the body of the [try] returns, the handler returns
    what the body returned, a list of exactly one text item; when the body
    raises an instance of [Exception], nothing is raised further and the
    handler returns exactly one text item, whose text is a label followed
    by [str(e)], the label being "Database error: " for an instance of
    [sqlite3.Error] and "Error: " for any other, the shape of the response
    being the same; when the body raises an exception that is no instance
    of [Exception], the handler raises it.  For a tool name that is neither
    of the two tools the text is "Error: Unknown tool: " followed by the
    name, and neither store was touched. *)
Theorem dispatcher_always_one_text (ctx : server.Context) (name : str)
        (arguments : server.Arguments) (w : World) :
  match server.call_tool_body ctx name arguments w with
  | (Return items, w') =>
      server.handle_call_tool ctx name arguments w = (Return items, w') /\
      exists text, items = [server.TextContent "text" text]
  | (Raise e, w') =>
      if is_Exception e
      then server.handle_call_tool ctx name arguments w
           = (Return [server.TextContent "text"
                        (error_label e +++ str_of_exn e)], w')
      else server.handle_call_tool ctx name arguments w = (Raise e, w')
  end /\
  (name <> "query_schools_and_neighborhoods" ->
   name <> "query_school_websites" ->
   server.handle_call_tool ctx name arguments w
   = (Return [server.TextContent "text" ("Error: Unknown tool: " +++ name)],
      w)).
Proof.
  split.
  - rewrite handle_call_tool_outcome.
    destruct (server.call_tool_body ctx name arguments w)
      as [[items|e] w'] eqn:Hbody.
    + split; [reflexivity|].
      exact (call_tool_body_returns _ _ _ _ _ _ Hbody).
    + destruct (is_Exception e); reflexivity.
  - intros H1 H2. rewrite handle_call_tool_outcome.
    unfold server.call_tool_body.
    apply String.eqb_neq in H1. apply String.eqb_neq in H2.
    rewrite H1, H2. reflexivity.
Qed.

(** ** Remarks on the scenarios *)

(** Scenario B of the specification, through the dispatcher: the DROP
    statement comes back as an error text and the world is untouched. *)
Lemma scenario_B (ctx : server.Context) (w : World) :
  server.handle_call_tool ctx "query_schools_and_neighborhoods"
    (Some [("query", "DROP TABLE schooltoneighborhood")]) w
  = (Return [server.TextContent "text"
               "Error: Only read queries are allowed!!"], w).
Proof.
  rewrite handle_call_tool_outcome. unfold server.call_tool_body.
  cbn [String.eqb Ascii.eqb Bool.eqb server.subscript dict_get].
  unfold bind, ret.
  assert (G : CPSSqliteDB.is_write_query "DROP TABLE schooltoneighborhood"
              = true) by (vm_compute; reflexivity).
  unfold CPSSqliteDB._execute_query. rewrite G. reflexivity.
Qed.

(** Scenario A of the specification: one matching row, two columns
    selected. *)
Lemma scenario_A (self : CPSSqliteDB.t) (w : World) :
  let row := [("school_name", SqlText "ABC HIGH SCHOOL");
              ("neighborhood", SqlText "Logan Square")] in
  let store := {| connect_outcome := fun _ _ => None;
                  execute_outcome := fun _ _ => Return [row] |} in
  fst (CPSSqliteDB._execute_query store self
         ("SELECT school_name, neighborhood FROM schooltoneighborhood "
          +++ "WHERE neighborhood = 'Logan Square'")
         w)
  = Return [[("school_name", SqlText "ABC HIGH SCHOOL");
             ("neighborhood", SqlText "Logan Square")]].
Proof.
  cbv zeta. unfold CPSSqliteDB._execute_query.
  match goal with
  | |- context [CPSSqliteDB.is_write_query ?q] =>
      assert (G : CPSSqliteDB.is_write_query q = false)
        by (vm_compute; reflexivity)
  end.
  rewrite G. unfold bind, try_except, log. rewrite run_query_outcome.
  reflexivity.
Qed.

(** A call without its required argument, or without arguments at all,
    comes back as an error text too. *)
Lemma missing_argument (ctx : server.Context) (w : World) :
  server.handle_call_tool ctx "query_school_websites" (Some []) w
  = (Return [server.TextContent "text" "Error: 'question'"], w) /\
  server.handle_call_tool ctx "query_school_websites" None w
  = (Return [server.TextContent "text"
               "Error: 'NoneType' object is not subscriptable"], w).
Proof. split; reflexivity. Qed.

(** The rows the search ranks are the outcome of the nearest-neighbour
    lookup, whose size the limit of 10 sets: a row beyond the 10 nearest is
    not ranked at all, however relevant the reranker finds it.  On the table
    [Scenario.eleven] the results are the ten nearest chunks, longest text
    first, and the eleventh chunk, the most relevant of all, is absent. *)
Lemma ranking_covers_nearest_ten_only :
  exists results,
    fst (SqliteLanceDB._execute_query Scenario.eleven EmptyString None
           Scenario.w0) = Return results /\
    map (fun r => String.length (SqliteLanceDB.content r)) results
    = [10; 9; 8; 7; 6; 5; 4; 3; 2; 1] /\
    In (Scenario.chunk "Abc High School" "https://abc.example/"
          (Scenario.letters 11) [11%Z])
       (lancedb.rows (SqliteLanceDB.table Scenario.eleven)).
Proof.
  eexists. split; [vm_compute; reflexivity|].
  split; [reflexivity|].
  cbn. do 10 right. now left.
Qed.

(* ================================================================== *)
(** * Further properties *)

(** ** The guard *)

Lemma keyword_heads (kw : str) :
  In kw CPSSqliteDB.write_keywords ->
  exists k ks, decode kw = k :: ks /\ In k keyword_initials.
Proof.
  intros H. cbn in H.
  repeat (destruct H as [<-|H];
          [eexists; eexists; split;
           [vm_compute; reflexivity|cbn; tauto]|]).
  contradiction.
Qed.

(** A text whose first code point is not the first letter of a keyword
    starts with no keyword. *)
Lemma other_initial_passes (u : N) (m : list N) :
  ~ In u keyword_initials ->
  startswith_any (encode (u :: m)) CPSSqliteDB.write_keywords = false.
Proof.
  intros Hu. unfold startswith_any.
  destruct (existsb _ _) eqn:E; [|reflexivity].
  apply existsb_exists in E. destruct E as (kw & Hin & Hpre).
  destruct (keyword_points kw Hin) as (_ & _ & Eu & _ & Au).
  destruct (keyword_heads kw Hin) as (k & ks & Hk & Hki).
  unfold startswith in Hpre. rewrite Eu in Hpre.
  rewrite (prefix_encode _ Au) in Hpre. rewrite Hk in Hpre.
  cbn [lprefix] in Hpre. apply andb_true_iff in Hpre.
  destruct Hpre as [Hku _]. apply N.eqb_eq in Hku. subst k. contradiction.
Qed.

(** The guard looks at the start of the trimmed query only.  A query whose
    first code point after trimming has an upper-case form that does not
    begin with one of the letters I, U, D, C, A is classified READ whatever
    follows, and when the file opens its text is handed to [cursor.execute]
    exactly as it was given, blanks included. *)
Theorem guard_passes_other_initials (lib : Sqlite3) (self : CPSSqliteDB.t)
        (query : str) (c : N) (rest : list N) (u : N) (us : list N)
        (w : World) :
  decode (strip query) = c :: rest ->
  Unicode.to_upper c = u :: us ->
  ~ In u keyword_initials ->
  CPSSqliteDB.classify query = CPSSqliteDB.READ /\
  (connect_outcome lib (trace w) (CPSSqliteDB.sqlite_path self) = None ->
   In (EvExecute (next_handle w) (S (next_handle w)) query)
      (trace (snd (CPSSqliteDB._execute_query lib self query w)))).
Proof.
  intros Hstrip Hup Hu.
  assert (G : CPSSqliteDB.is_write_query query = false).
  { unfold CPSSqliteDB.is_write_query, upper. rewrite Hstrip.
    cbn [flat_map]. rewrite Hup. cbn [app].
    now apply other_initial_passes. }
  split.
  - unfold CPSSqliteDB.classify. now rewrite G.
  - intros Hconn. unfold CPSSqliteDB._execute_query. rewrite G.
    unfold bind, try_except, log. rewrite run_query_outcome.
    cbn [trace logs next_handle]. rewrite Hconn.
    destruct (execute_outcome lib _ query) as [rows|e]; [cbn; tauto|].
    cbn. destruct (is_Exception e); cbn; tauto.
Qed.

Lemma guard_passes_other_initials_witness :
  CPSSqliteDB.classify
    (Scenario.nbsp +++ "/* */ DROP TABLE schooltoneighborhood")
  = CPSSqliteDB.READ /\
  (connect_outcome Scenario.empty_store (trace Scenario.w0)
     (CPSSqliteDB.sqlite_path Scenario.cps) = None ->
   In (EvExecute (next_handle Scenario.w0) (S (next_handle Scenario.w0))
         (Scenario.nbsp +++ "/* */ DROP TABLE schooltoneighborhood"))
      (trace (snd (CPSSqliteDB._execute_query Scenario.empty_store
                     Scenario.cps
                     (Scenario.nbsp
                      +++ "/* */ DROP TABLE schooltoneighborhood")
                     Scenario.w0)))).
Proof.
  apply (guard_passes_other_initials Scenario.empty_store Scenario.cps
           (Scenario.nbsp +++ "/* */ DROP TABLE schooltoneighborhood")
           47%N
           (decode "* */ DROP TABLE schooltoneighborhood")
           47%N [] Scenario.w0).
  - vm_compute. reflexivity.
  - vm_compute. reflexivity.
  - vm_compute. intros H. repeat (destruct H as [H|H]; [discriminate H|]).
    exact H.
Defined.

(** ** Failures of the store *)

(** When the file cannot be opened, or the statement raises, a query that
    passed the guard raises that very exception, after the DEBUG record of
    the query and, when the exception is an instance of [Exception], one
    ERROR record that names it; no other record is logged. *)
Theorem store_failure_reraised (lib : Sqlite3) (self : CPSSqliteDB.t)
        (query : str) (w : World) (e : exn) :
  CPSSqliteDB.classify query = CPSSqliteDB.READ ->
  connect_outcome lib (trace w) (CPSSqliteDB.sqlite_path self) = Some e \/
  (connect_outcome lib (trace w) (CPSSqliteDB.sqlite_path self) = None /\
   execute_outcome lib
     (EvCursor (next_handle w) (S (next_handle w))
      :: EvConnect (CPSSqliteDB.sqlite_path self) (next_handle w) :: trace w)
     query = Raise e) ->
  fst (CPSSqliteDB._execute_query lib self query w) = Raise e /\
  logs (snd (CPSSqliteDB._execute_query lib self query w))
  = (if is_Exception e
     then [(ERROR, "Database error executing query: " +++ str_of_exn e)]
     else [])
    ++ (DEBUG, "Executing query: " +++ query) :: logs w.
Proof.
  intros Hread Hfail.
  unfold CPSSqliteDB.classify in Hread.
  unfold CPSSqliteDB._execute_query.
  destruct (CPSSqliteDB.is_write_query query); [discriminate Hread|].
  unfold bind, try_except, log. rewrite run_query_outcome.
  cbn [trace logs next_handle].
  destruct Hfail as [Hconn|[Hconn Hexec]]; rewrite Hconn.
  - cbn [dispatch_exn]. destruct (is_Exception e); split; reflexivity.
  - rewrite Hexec. cbn [dispatch_exn].
    destruct (is_Exception e); split; reflexivity.
Qed.

Lemma store_failure_reraised_witness :
  let locked :=
    {| connect_outcome := fun _ _ =>
         Some (Sqlite3Error "OperationalError" "unable to open database file");
       execute_outcome := fun _ _ => Return [] |} in
  fst (CPSSqliteDB._execute_query locked Scenario.cps "SELECT 1" Scenario.w0)
  = Raise (Sqlite3Error "OperationalError" "unable to open database file")
  /\
  logs (snd (CPSSqliteDB._execute_query locked Scenario.cps "SELECT 1"
               Scenario.w0))
  = (if is_Exception
          (Sqlite3Error "OperationalError" "unable to open database file")
     then [(ERROR, "Database error executing query: "
                   +++ str_of_exn
                         (Sqlite3Error "OperationalError"
                            "unable to open database file"))]
     else [])
    ++ (DEBUG, "Executing query: " +++ "SELECT 1") :: logs Scenario.w0.
Proof.
  cbv zeta.
  apply (store_failure_reraised _ Scenario.cps "SELECT 1" Scenario.w0).
  - vm_compute. reflexivity.
  - left. reflexivity.
Defined.

(** ** Rows as dictionaries *)

Lemma dict_set_keys {V} (k : str) (v : V) (d : dict V) (k' : str) :
  In k' (map fst (dict_set k v d)) <-> k' = k \/ In k' (map fst d).
Proof.
  induction d as [|[k0 v0] d IH]; cbn.
  - intuition congruence.
  - destruct (String.eqb_spec k k0) as [->|Hne]; cbn.
    + intuition congruence.
    + rewrite IH. intuition congruence.
Qed.

Lemma dict_set_NoDup {V} (k : str) (v : V) (d : dict V) :
  NoDup (map fst d) -> NoDup (map fst (dict_set k v d)).
Proof.
  induction d as [|[k0 v0] d IH]; cbn; intros Hd.
  - repeat constructor. intros [].
  - inversion Hd as [|? ? Hnotin Hd']; subst.
    destruct (String.eqb_spec k k0) as [->|Hne]; cbn.
    + now constructor.
    + constructor; [|now apply IH].
      rewrite dict_set_keys. intros [->|H]; [now apply Hne|now apply Hnotin].
Qed.

Lemma dict_set_values {V} (k : str) (v : V) (d : dict V) (k' : str) (v' : V) :
  In (k', v') (dict_set k v d) -> (k' = k /\ v' = v) \/ In (k', v') d.
Proof.
  induction d as [|[k0 v0] d IH]; cbn.
  - intros [[= <- <-]|[]]. now left.
  - destruct (String.eqb_spec k k0) as [->|Hne]; cbn.
    + intros [[= <- <-]|H]; [now left|right; now right].
    + intros [H|H]; [right; now left|].
      destruct (IH H) as [?|?]; [now left|right; now right].
Qed.

Lemma dict_set_fresh {V} (k : str) (v : V) (d : dict V) :
  ~ In k (map fst d) -> dict_set k v d = d ++ [(k, v)].
Proof.
  induction d as [|[k0 v0] d IH]; cbn; intros Hk; [reflexivity|].
  destruct (String.eqb_spec k k0) as [->|Hne]; [tauto|].
  rewrite IH; [reflexivity|tauto].
Qed.

Lemma lower_char_ascii (c : ascii) :
  (Ascii7.code c <? 128) = true ->
  (Ascii7.code (Ascii7.lower_char c) <? 128) = true.
Proof.
  intros H. unfold Ascii7.lower_char.
  destruct (Ascii7.is_upper c) eqn:Hu; [|exact H].
  unfold Ascii7.is_upper in Hu. apply andb_true_iff in Hu.
  destruct Hu as [_ Hu]. apply Nat.leb_le in Hu.
  unfold Ascii7.code in *. rewrite nat_ascii_embedding by lia.
  apply Nat.ltb_lt. lia.
Qed.

Lemma is_ascii_lower (s : str) :
  Ascii7.is_ascii s = true -> Ascii7.is_ascii (Ascii7.lower s) = true.
Proof.
  induction s as [|c s IH]; cbn [Ascii7.is_ascii Ascii7.lower];
    [reflexivity|].
  intros H. apply andb_true_iff in H. destruct H as [Hc Hs].
  now rewrite (lower_char_ascii c Hc), IH.
Qed.

(** Two names match for [sqlite3.Row] exactly when they have the same
    key. *)
Lemma names_match_key (a b : str) :
  names_match a b = true <-> column_key a = column_key b.
Proof.
  unfold names_match, column_key. split.
  - intros H. apply orb_true_iff in H. destruct H as [H|H].
    + apply String.eqb_eq in H. now subst.
    + apply andb_true_iff in H. destruct H as [H Hl].
      apply andb_true_iff in H. destruct H as [-> ->].
      now apply String.eqb_eq.
  - destruct (Ascii7.is_ascii a) eqn:Ha, (Ascii7.is_ascii b) eqn:Hb;
      intros H; cbn.
    + apply orb_true_iff. right. now apply String.eqb_eq.
    + pose proof (is_ascii_lower a Ha) as Hl. rewrite H in Hl. congruence.
    + pose proof (is_ascii_lower b Hb) as Hl. rewrite <- H in Hl.
      congruence.
    + rewrite ?andb_false_r, ?orb_false_r. now apply String.eqb_eq.
Qed.

(** The entries of [dict(row)], whatever dictionary the filling starts
    from. *)
Lemma fill_row (row cols : Row) :
  forall acc : dict sqlval,
    let d := fold_left
               (fun d kv => dict_set (fst kv)
                              (row_get (fst kv) row (snd kv)) d)
               cols acc in
    (NoDup (map fst acc) -> NoDup (map fst d)) /\
    (forall k, In k (map fst d) <-> In k (map fst acc) \/ In k (map fst cols))
    /\
    (forall k v, In (k, v) d ->
                 In (k, v) acc \/
                 exists v0, In (k, v0) cols /\ v = row_get k row v0).
Proof.
  induction cols as [|[k0 v0] cols IH]; intros acc; cbn.
  - split; [tauto|]. split; [intros k; tauto|].
    intros k v H. now left.
  - specialize (IH (dict_set k0 (row_get k0 row v0) acc)).
    cbv zeta in IH. destruct IH as (IH1 & IH2 & IH3).
    split; [|split].
    + intros Hacc. apply IH1. now apply dict_set_NoDup.
    + intros k. rewrite IH2, dict_set_keys. intuition.
    + intros k v H. destruct (IH3 k v H) as [Hin|(v1 & Hin & Hv)].
      * apply dict_set_values in Hin as [[-> ->]|Hin]; [|now left].
        right. exists v0. split; [now left|reflexivity].
      * right. exists v1. split; [now right|exact Hv].
Qed.

Lemma row_get_default (k : str) (row : Row) (d1 d2 : sqlval) :
  In (column_key k) (column_names row) ->
  row_get k row d1 = row_get k row d2.
Proof.
  unfold column_names.
  induction row as [|[k0 v0] row IH]; cbn; [tauto|].
  destruct (names_match k0 k) eqn:Hm; [reflexivity|].
  intros [H|H]; [|now apply IH].
  apply names_match_key in H. congruence.
Qed.

(** The dictionary made of a row has pairwise distinct keys, which are the
    column names of the row, and the value under a key is the value of the
    first column of the row whose name matches the key as [sqlite3.Row]
    matches names (the case of letters set aside when both names are
    ASCII): of two such columns the second is lost. *)
Theorem dict_of_row_entries (row : Row) :
  NoDup (map fst (dict_of_row row)) /\
  (forall k, In k (map fst (dict_of_row row)) <-> In k (map fst row)) /\
  (forall k v default,
     In (k, v) (dict_of_row row) -> v = row_get k row default).
Proof.
  destruct (fill_row row row []) as (H1 & H2 & H3). cbv zeta in *.
  fold (dict_of_row row) in *.
  split; [apply H1; constructor|].
  split; [intros k; rewrite H2; cbn; tauto|].
  intros k v default H. destruct (H3 k v H) as [[]|(v0 & Hin & ->)].
  apply row_get_default. unfold column_names.
  apply in_map_iff. now exists (k, v0).
Qed.

(** Two columns whose names differ by an accented letter's neighbour in
    case only are both kept, two ASCII names that differ in case only are
    not. *)
Lemma dict_of_row_accented :
  dict_of_row [(Scenario.e_acute +++ "a", SqlInt 1);
               (Scenario.e_acute +++ "A", SqlInt 2)]
  = [(Scenario.e_acute +++ "a", SqlInt 1);
     (Scenario.e_acute +++ "A", SqlInt 2)] /\
  dict_of_row [("ea", SqlInt 1); ("eA", SqlInt 2)]
  = [("ea", SqlInt 1); ("eA", SqlInt 1)].
Proof. split; vm_compute; reflexivity. Qed.

Lemma row_get_first (row : Row) (k : str) (v d : sqlval) :
  NoDup (column_names row) -> In (k, v) row -> row_get k row d = v.
Proof.
  unfold column_names.
  induction row as [|[k0 v0] row IH]; cbn [map fst row_get In]; [tauto|].
  intros Hnd Hin. inversion Hnd as [|? ? Hnotin Hnd']; subst.
  destruct (names_match k0 k) eqn:Hm.
  - destruct Hin as [[= _ ->]|Hin]; [reflexivity|].
    exfalso. apply Hnotin. apply names_match_key in Hm. rewrite Hm.
    apply in_map_iff. now exists (k, v).
  - destruct Hin as [[= -> _]|Hin]; [|now apply IH].
    assert (Hr : names_match k k = true) by now apply names_match_key.
    congruence.
Qed.

Lemma dict_of_row_distinct (row : Row) :
  NoDup (column_names row) -> dict_of_row row = row.
Proof.
  intros Hnd. unfold dict_of_row.
  assert (Hkeys : NoDup (map fst row)).
  { unfold column_names in Hnd.
    rewrite <- (map_map fst column_key) in Hnd.
    now apply NoDup_map_inv in Hnd. }
  assert (Hgen : forall cols acc,
             acc ++ cols = row ->
             fold_left
               (fun d kv => dict_set (fst kv)
                              (row_get (fst kv) row (snd kv)) d)
               cols acc = row).
  { induction cols as [|[k v] cols IH]; intros acc Heq; cbn.
    - now rewrite app_nil_r in Heq.
    - apply IH.
      rewrite (row_get_first row k v v Hnd)
        by (rewrite <- Heq; apply in_or_app; right; now left).
      rewrite dict_set_fresh.
      + now rewrite <- app_assoc.
      + rewrite <- Heq, map_app in Hkeys. cbn in Hkeys.
        now apply NoDup_remove_2 in Hkeys as Hk;
          intros Hin; apply Hk, in_or_app; left. }
  now apply (Hgen row []).
Qed.

(** A statement whose rows have pairwise distinct column names, the case of
    letters set aside, returns those rows as they came: every row, in the
    order of the store, with its columns in their order and their
    values. *)
Theorem distinct_columns_returned_unchanged
        (lib : Sqlite3) (self : CPSSqliteDB.t) (query : str) (w : World)
        (rows : list Row) :
  CPSSqliteDB.classify query = CPSSqliteDB.READ ->
  connect_outcome lib (trace w) (CPSSqliteDB.sqlite_path self) = None ->
  execute_outcome lib
    (EvCursor (next_handle w) (S (next_handle w))
     :: EvConnect (CPSSqliteDB.sqlite_path self) (next_handle w) :: trace w)
    query = Return rows ->
  Forall (fun row => NoDup (column_names row)) rows ->
  fst (CPSSqliteDB._execute_query lib self query w) = Return rows.
Proof.
  intros Hread Hconn Hexec Hrows.
  unfold CPSSqliteDB.classify in Hread.
  unfold CPSSqliteDB._execute_query.
  destruct (CPSSqliteDB.is_write_query query); [discriminate Hread|].
  unfold bind, try_except, log. rewrite run_query_outcome.
  cbn [trace logs next_handle]. rewrite Hconn, Hexec. cbn [fst].
  f_equal. clear Hexec.
  induction Hrows as [|row rows Hrow _ IH]; [reflexivity|].
  cbn [map]. now rewrite (dict_of_row_distinct row Hrow), IH.
Qed.

Lemma distinct_columns_returned_unchanged_witness :
  let row := [("school_name", SqlText "ABC HIGH SCHOOL");
              ("neighborhood", SqlText "Logan Square")] in
  let store := {| connect_outcome := fun _ _ => None;
                  execute_outcome := fun _ _ => Return [row; row] |} in
  fst (CPSSqliteDB._execute_query store Scenario.cps
         "SELECT school_name, neighborhood FROM schooltoneighborhood"
         Scenario.w0)
  = Return [row; row].
Proof.
  cbv zeta.
  apply (distinct_columns_returned_unchanged _ Scenario.cps
           "SELECT school_name, neighborhood FROM schooltoneighborhood"
           Scenario.w0); try (vm_compute; reflexivity).
  assert (Hrow : NoDup (column_names
                          [("school_name", SqlText "ABC HIGH SCHOOL");
                           ("neighborhood", SqlText "Logan Square")])).
  { constructor; [|constructor; [intros []|constructor]].
    intros [H|[]]. vm_compute in H. discriminate H. }
  constructor; [exact Hrow|].
  constructor; [exact Hrow|constructor].
Defined.

(** ** What a search returns *)

Lemma drawn_from_refl {A} (l : list A) : drawn_from l l.
Proof. exists []. now rewrite app_nil_r. Qed.

Lemma drawn_from_trans {A} (a b c : list A) :
  drawn_from a b -> drawn_from b c -> drawn_from a c.
Proof.
  intros [r1 H1] [r2 H2]. exists (r1 ++ r2).
  now rewrite app_assoc, H1.
Qed.

Lemma drawn_from_perm {A} (a b : list A) :
  Permutation a b -> drawn_from a b.
Proof. intros H. exists []. now rewrite app_nil_r. Qed.

Lemma drawn_from_firstn {A} (n : nat) (l : list A) :
  drawn_from (firstn n l) l.
Proof. exists (skipn n l). now rewrite firstn_skipn. Qed.

Lemma drawn_from_filter {A} (f : A -> bool) (l : list A) :
  drawn_from (filter f l) l.
Proof.
  exists (filter (fun x => negb (f x)) l).
  induction l as [|x l IH]; cbn; [reflexivity|].
  destruct (f x); cbn.
  - now apply perm_skip.
  - rewrite <- Permutation_middle. now apply perm_skip.
Qed.

Lemma drawn_from_full {A} (a l : list A) :
  drawn_from a l -> List.length l <= List.length a -> Permutation a l.
Proof.
  intros [rest H] Hlen.
  pose proof (Permutation_length H) as Hl. rewrite length_app in Hl.
  destruct rest as [|x rest]; [now rewrite app_nil_r in H|].
  cbn in Hl. lia.
Qed.

(** Every result of a search is the projection of a row of the table (its
    school name, its page URL and its text, unaltered), and no row is
    returned more often than the table holds it. *)
Theorem results_drawn_from_table (self : SqliteLanceDB.t) (question : str)
        (school_name : option str) (w : World)
        (results : list SqliteLanceDB.SearchResult) :
  fst (SqliteLanceDB._execute_query self question school_name w)
  = Return results ->
  exists chosen,
    results = map SqliteLanceDB.project chosen /\
    drawn_from chosen (lancedb.rows (SqliteLanceDB.table self)).
Proof.
  intros Hout.
  destruct (search_returns _ _ _ _ _ Hout) as (v & p & Hv & Hp & ->).
  eexists. split; [reflexivity|].
  eapply drawn_from_trans; [apply drawn_from_perm, sort_by_perm|].
  eapply drawn_from_trans; [apply drawn_from_firstn|].
  eapply drawn_from_trans; [apply drawn_from_perm, sort_by_perm|].
  eapply drawn_from_trans; [apply drawn_from_filter|].
  destruct p as [p|]; cbn;
    [apply drawn_from_filter|apply drawn_from_refl].
Qed.

Lemma results_drawn_from_table_witness :
  exists chosen,
    [ {| SqliteLanceDB.school_name := "Abc High School";
         SqliteLanceDB.page_url := "https://abc.example/bell";
         SqliteLanceDB.content := "School starts at 8:00 am." |} ]
    = map SqliteLanceDB.project chosen /\
    drawn_from chosen
      (lancedb.rows (SqliteLanceDB.table Scenario.titled)).
Proof.
  apply (results_drawn_from_table Scenario.titled
           "What time does school start?" (Some "abc high school")
           Scenario.w0).
  vm_compute. reflexivity.
Defined.

(** ** The two tools and the world *)

Lemma sql_call_world (lib : Sqlite3) (self : CPSSqliteDB.t) (query : str)
                     (w : World) :
  well_formed w ->
  let w' := snd (CPSSqliteDB._execute_query lib self query w) in
  open_conns w' = open_conns w /\
  open_cursors w' = open_cursors w /\
  well_formed w' /\
  exists new, trace w' = new ++ trace w /\
              Forall (fun ev => is_store_event ev = true) new.
Proof.
  intros Hwf. cbv zeta. unfold CPSSqliteDB._execute_query.
  destruct (CPSSqliteDB.is_write_query query).
  - cbn. repeat split; try apply Hwf. exists []. now split.
  - unfold bind, try_except, log. rewrite run_query_outcome.
    cbn [trace logs next_handle open_conns open_cursors].
    assert (Rc : remove_handle (next_handle w) (next_handle w :: open_conns w)
                 = open_conns w).
    { destruct Hwf as [Hc _].
      now apply (remove_handle_fresh _ (next_handle w)). }
    assert (Rk : remove_handle (S (next_handle w))
                   (S (next_handle w) :: open_cursors w) = open_cursors w).
    { destruct Hwf as [_ Hk].
      apply (remove_handle_fresh _ (next_handle w)); [assumption|lia]. }
    destruct (connect_outcome lib (trace w) (CPSSqliteDB.sqlite_path self))
      as [e|].
    + cbn. destruct (is_Exception e); cbn;
        (repeat split; try apply Hwf);
        exists [EvConnectFailed (CPSSqliteDB.sqlite_path self)];
        (split; [reflexivity|repeat constructor]).
    + destruct (execute_outcome lib _ query) as [rows|e];
        rewrite Rc, Rk; cbn; [|destruct (is_Exception e); cbn];
        (split; [reflexivity|]); (split; [reflexivity|]);
        (split; [apply (well_formed_later w); [exact Hwf|lia]|]).
      * eexists [_; _; _; _; _; _]. split; [reflexivity|repeat constructor].
      * eexists [_; _; _; _; _]. split; [reflexivity|repeat constructor].
      * eexists [_; _; _; _; _]. split; [reflexivity|repeat constructor].
Qed.

Lemma search_call_world (self : SqliteLanceDB.t) (question : str)
                        (school_name : option str) (w : World) :
  let w' := snd (SqliteLanceDB._execute_query self question school_name w) in
  next_handle w' = next_handle w /\
  open_conns w' = open_conns w /\
  open_cursors w' = open_cursors w /\
  logs w' = logs w /\
  exists new, trace w' = new ++ trace w /\
              Forall (fun ev => is_search_event ev = true) new.
Proof.
  cbv zeta. rewrite search_outcome. cbv zeta.
  destruct (SqliteLanceDB.encode_outcome _ question) as [v|e].
  - assert (H : forall r : result (list SqliteLanceDB.SearchResult),
               let w' := snd (r, record_event
                                   (EvVectorSearch (filter_text school_name)
                                      10)
                                   (record_event (EvEncode question) w)) in
               next_handle w' = next_handle w /\
               open_conns w' = open_conns w /\
               open_cursors w' = open_cursors w /\
               logs w' = logs w /\
               exists new, trace w' = new ++ trace w /\
                           Forall (fun ev => is_search_event ev = true) new).
    { intros r. cbn. repeat split. eexists [_; _].
      split; [reflexivity|repeat constructor]. }
    destruct (lancedb.reading _ _); [|apply H].
    destruct (lancedb.lookup_outcome _ _ v _); [apply H|].
    destruct (lancedb.rerank_outcome _ _ question _); apply H.
  - cbn. repeat split. eexists [_].
    split; [reflexivity|repeat constructor].
Qed.

(** The handlers of the two [except] clauses leave the world as the body
    left it. *)
Lemma handle_call_tool_world (ctx : server.Context) (name : str)
      (arguments : server.Arguments) (w : World) :
  snd (server.handle_call_tool ctx name arguments w)
  = snd (server.call_tool_body ctx name arguments w).
Proof.
  rewrite handle_call_tool_outcome.
  destruct (server.call_tool_body ctx name arguments w) as [[items|e] w'];
    [reflexivity|].
  destruct (is_Exception e); reflexivity.
Qed.

Lemma subscript_world (arguments : server.Arguments) (key : str) (w : World) :
  snd (server.subscript arguments key w) = w.
Proof.
  unfold server.subscript. destruct arguments as [d|]; [|reflexivity].
  destruct (dict_get key d); reflexivity.
Qed.

Lemma websites_body_world (ctx : server.Context)
      (arguments : server.Arguments) (w : World) :
  snd (server.call_tool_body ctx "query_school_websites" arguments w) = w \/
  exists question school,
    snd (server.call_tool_body ctx "query_school_websites" arguments w)
    = snd (SqliteLanceDB._execute_query (server.lancedb_ ctx) question school
             w).
Proof.
  unfold server.call_tool_body. cbn [String.eqb Ascii.eqb Bool.eqb].
  unfold bind, server.subscript, server.get.
  destruct arguments as [d|]; [|now left].
  destruct (dict_get "question" d) as [question|]; [|now left].
  right. exists question, (dict_get "school_name" d).
  cbv beta iota delta [ret].
  destruct (SqliteLanceDB._execute_query (server.lancedb_ ctx) question
              (dict_get "school_name" d) w) as [[results|e] w'];
    reflexivity.
Qed.

Lemma schools_body_world (ctx : server.Context)
      (arguments : server.Arguments) (w : World) :
  snd (server.call_tool_body ctx "query_schools_and_neighborhoods"
         arguments w) = w \/
  exists query,
    snd (server.call_tool_body ctx "query_schools_and_neighborhoods"
           arguments w)
    = snd (CPSSqliteDB._execute_query (server.lib ctx) (server.sqlitedb ctx)
             query w).
Proof.
  unfold server.call_tool_body. cbn [String.eqb Ascii.eqb Bool.eqb].
  unfold bind, server.subscript.
  destruct arguments as [d|]; [|now left].
  destruct (dict_get "query" d) as [query|]; [|now left].
  right. exists query.
  cbv beta iota delta [ret].
  destruct (CPSSqliteDB._execute_query (server.lib ctx)
              (server.sqlitedb ctx) query w) as [[rows|e] w'];
    reflexivity.
Qed.

(** The two tools keep apart.  A call of the website tool, whatever its
    arguments and its outcome, gives out no handle, opens and closes no
    connection or cursor, logs nothing, and adds to the trace only calls on
    the embedding model and on the vector table.  A call of the schools
    tool adds to the trace only calls on the SQLite library: it never
    reaches the embedding model or the vector table. *)
Theorem tools_keep_apart (ctx : server.Context)
        (arguments : server.Arguments) (w : World) :
  (let w' := snd (server.handle_call_tool ctx "query_school_websites"
                    arguments w) in
   next_handle w' = next_handle w /\
   open_conns w' = open_conns w /\
   open_cursors w' = open_cursors w /\
   logs w' = logs w /\
   exists new, trace w' = new ++ trace w /\
               Forall (fun ev => is_search_event ev = true) new) /\
  (let w' := snd (server.handle_call_tool ctx
                    "query_schools_and_neighborhoods" arguments w) in
   exists new, trace w' = new ++ trace w /\
               Forall (fun ev => is_store_event ev = true) new).
Proof.
  cbv zeta. rewrite !handle_call_tool_world. split.
  - destruct (websites_body_world ctx arguments w)
      as [->|(question & school & ->)].
    + repeat split. exists []. now split.
    + apply search_call_world.
  - destruct (schools_body_world ctx arguments w) as [->|(query & ->)];
      [exists []; now split|].
    unfold CPSSqliteDB._execute_query.
    destruct (CPSSqliteDB.is_write_query query);
      [exists []; now split|].
    unfold bind, try_except, log. rewrite run_query_outcome.
    cbn [trace logs next_handle].
    destruct (connect_outcome _ _ _) as [e|].
    + cbn [dispatch_exn]. destruct (is_Exception e);
        eexists [_]; (split; [reflexivity|repeat constructor]).
    + destruct (execute_outcome _ _ query) as [rows|e].
      * eexists [_; _; _; _; _; _].
        split; [reflexivity|repeat constructor].
      * cbn [dispatch_exn]. destruct (is_Exception e);
          eexists [_; _; _; _; _];
          (split; [reflexivity|repeat constructor]).
Qed.

(** ** Sessions *)

(** The handler answers with one text item, or lets through an exception
    that is no instance of [Exception]. *)
Lemma call_answer (ctx : server.Context) (name : str)
      (arguments : server.Arguments) (w : World) :
  match fst (server.handle_call_tool ctx name arguments w) with
  | Return answer => exists text, answer = [server.TextContent "text" text]
  | Raise e => is_Exception e = false
  end.
Proof.
  rewrite handle_call_tool_outcome.
  destruct (server.call_tool_body ctx name arguments w)
    as [[items|e] w'] eqn:Hbody.
  - exact (call_tool_body_returns _ _ _ _ _ _ Hbody).
  - destruct (is_Exception e) eqn:He; cbn; [eexists; reflexivity|exact He].
Qed.

Lemma call_world (ctx : server.Context) (name : str)
      (arguments : server.Arguments) (w : World) :
  well_formed w ->
  let w' := snd (server.handle_call_tool ctx name arguments w) in
  open_conns w' = open_conns w /\
  open_cursors w' = open_cursors w /\
  well_formed w' /\
  exists new, trace w' = new ++ trace w.
Proof.
  intros Hwf. cbv zeta. rewrite handle_call_tool_world.
  assert (Hsame : open_conns w = open_conns w /\
                  open_cursors w = open_cursors w /\
                  well_formed w /\ exists new, trace w = new ++ trace w).
  { repeat split; try apply Hwf. now exists []. }
  destruct (String.eqb_spec name "query_schools_and_neighborhoods")
    as [->|H1].
  - destruct (schools_body_world ctx arguments w) as [->|(query & ->)];
      [exact Hsame|].
    destruct (sql_call_world (server.lib ctx) (server.sqlitedb ctx) query w
                Hwf) as (Hc & Hk & Hwf' & new & Hnew & _).
    repeat split; try assumption; try apply Hwf'. now exists new.
  - destruct (String.eqb_spec name "query_school_websites") as [->|H2].
    + destruct (websites_body_world ctx arguments w)
        as [->|(question & school & ->)]; [exact Hsame|].
      destruct (search_call_world (server.lancedb_ ctx) question school w)
        as (Hn & Hc & Hk & _ & new & Hnew & _).
      split; [exact Hc|]. split; [exact Hk|].
      split; [|now exists new].
      unfold well_formed. rewrite Hn, Hc, Hk. exact Hwf.
    + unfold server.call_tool_body.
      apply String.eqb_neq in H1. apply String.eqb_neq in H2.
      rewrite H1, H2. exact Hsame.
Qed.

(** Over a whole session, whatever the invocations: each one that is
    answered is answered by one text item; every invocation is answered
    unless an exception that is no instance of [Exception] escaped the
    handler and ended the session; and from a world in which every open
    handle was given out, the connections and cursors open at the end are
    those open at the start (none, when none was), also when the session
    was ended by such an exception, while the trace has only grown. *)
Theorem session_leaves_nothing_open (ctx : server.Context)
        (calls : list (str * server.Arguments)) (w : World) :
  well_formed w ->
  let out := run_session ctx calls w in
  let answers := fst (fst out) in
  let escaped := snd (fst out) in
  Forall (fun answer => exists text,
              answer = [server.TextContent "text" text]) answers /\
  match escaped with
  | None => List.length answers = List.length calls
  | Some e => is_Exception e = false /\
              List.length answers < List.length calls
  end /\
  open_conns (snd out) = open_conns w /\
  open_cursors (snd out) = open_cursors w /\
  well_formed (snd out) /\
  exists new, trace (snd out) = new ++ trace w.
Proof.
  cbv zeta. revert w.
  induction calls as [|[name arguments] calls IH]; intros w Hwf.
  - cbn. repeat split; try apply Hwf; [constructor|now exists []].
  - cbn [run_session].
    pose proof (call_answer ctx name arguments w) as Hans.
    destruct (call_world ctx name arguments w Hwf)
      as (Hc & Hk & Hwf1 & new1 & Hnew1).
    destruct (server.handle_call_tool ctx name arguments w) as [[answer|e] w1];
      cbn [fst snd] in *.
    + destruct (IH w1 Hwf1)
        as (Hall & Hesc & Hc2 & Hk2 & Hwf2 & new2 & Hnew2).
      destruct (run_session ctx calls w1) as [[answers escaped] w2].
      cbn [fst snd] in *.
      split; [constructor; assumption|].
      split; [destruct escaped; cbn [List.length]; [split; [tauto|lia]|lia]|].
      split; [congruence|]. split; [congruence|]. split; [exact Hwf2|].
      exists (new2 ++ new1). now rewrite Hnew2, Hnew1, app_assoc.
    + split; [constructor|].
      split; [split; [exact Hans|cbn; lia]|].
      split; [exact Hc|]. split; [exact Hk|]. split; [exact Hwf1|].
      now exists new1.
Qed.

Lemma session_leaves_nothing_open_witness :
  let calls :=
    [("query_schools_and_neighborhoods", Some [("query", "SELECT 1")]);
     ("query_school_websites", Some [("question", "recess")]);
     ("query_schools_and_neighborhoods", None)] in
  let out := run_session Instances.ctx_panicking calls Scenario.w0 in
  let answers := fst (fst out) in
  let escaped := snd (fst out) in
  Forall (fun answer => exists text,
              answer = [server.TextContent "text" text]) answers /\
  match escaped with
  | None => List.length answers = List.length calls
  | Some e => is_Exception e = false /\
              List.length answers < List.length calls
  end /\
  open_conns (snd out) = open_conns Scenario.w0 /\
  open_cursors (snd out) = open_cursors Scenario.w0 /\
  well_formed (snd out) /\
  exists new, trace (snd out) = new ++ trace Scenario.w0.
Proof.
  cbv zeta.
  apply (session_leaves_nothing_open Instances.ctx_panicking
           [("query_schools_and_neighborhoods",
             Some [("query", "SELECT 1")]);
            ("query_school_websites", Some [("question", "recess")]);
            ("query_schools_and_neighborhoods", None)] Scenario.w0).
  split; constructor.
Defined.

(** In the session of the witness the first invocation is answered and the
    second one ends the session with the panic of the lookup. *)
Lemma session_ended_by_panic :
  fst (run_session Instances.ctx_panicking
         [("query_schools_and_neighborhoods", Some [("query", "SELECT 1")]);
          ("query_school_websites", Some [("question", "recess")]);
          ("query_schools_and_neighborhoods", None)] Scenario.w0)
  = ([[server.TextContent "text" "[]"]],
     Some (PanicException "index out of bounds")).
Proof. vm_compute. reflexivity. Qed.

(** ** The registry and the dispatcher *)

(** The names [handle_list_tools] advertises are exactly the names
    [handle_call_tool] routes to an executor: the body of the handler takes
    its unknown-tool branch, whatever the arguments, exactly for the names
    that are not advertised. *)
Theorem advertised_iff_dispatched (ctx : server.Context) (name : str) :
  ~ In name (map tools.name tools.handle_list_tools) <->
  (forall (arguments : server.Arguments) (w : World),
     server.call_tool_body ctx name arguments w
     = (Raise (ValueError ("Unknown tool: " +++ name)), w)).
Proof.
  cbn [map tools.handle_list_tools tools.name In]. split.
  - intros Hnot arguments w. unfold server.call_tool_body.
    destruct (String.eqb_spec name "query_schools_and_neighborhoods")
      as [->|_]; [tauto|].
    destruct (String.eqb_spec name "query_school_websites") as [->|_];
      [tauto|reflexivity].
  - intros Hall [<-|[<-|[]]];
      specialize (Hall None Scenario.w0); discriminate Hall.
Qed.

(** A call of an advertised tool whose arguments lack a key the schema of
    the tool requires is answered by the error text that quotes the key, and
    neither store is reached. *)
Theorem missing_required_argument (ctx : server.Context) (tool : tools.Tool)
        (key : str) (d : dict str) (w : World) :
  In tool tools.handle_list_tools ->
  In key (tools.required (tools.inputSchema tool)) ->
  dict_get key d = None ->
  server.handle_call_tool ctx (tools.name tool) (Some d) w
  = (Return [server.TextContent "text" ("Error: '" +++ key +++ "'")], w).
Proof.
  intros [<-|[<-|[]]]; cbn [tools.required tools.inputSchema tools.name In];
    intros [<-|[]] Hmissing;
    unfold server.handle_call_tool, try_except, server.call_tool_body;
    cbn [String.eqb Ascii.eqb Bool.eqb];
    unfold bind, server.subscript; rewrite Hmissing; reflexivity.
Qed.

Lemma missing_required_argument_witness :
  server.handle_call_tool Instances.ctx "query_school_websites"
    (Some [("school_name", "Abc High School")]) Scenario.w0
  = (Return [server.TextContent "text" "Error: 'question'"], Scenario.w0).
Proof.
  apply (missing_required_argument Instances.ctx Instances.websites_tool
           "question" [("school_name", "Abc High School")] Scenario.w0).
  - right. left. reflexivity.
  - left. reflexivity.
  - reflexivity.
Defined.

(** The answer to a call of an advertised tool depends on the arguments
    only through the properties the schema of the tool declares: two
    argument dictionaries that agree on them get the same answer and have
    the same effects. *)
Theorem undeclared_arguments_ignored (ctx : server.Context)
        (tool : tools.Tool) (d1 d2 : dict str) (w : World) :
  In tool tools.handle_list_tools ->
  (forall key,
     In key (map fst (tools.properties (tools.inputSchema tool))) ->
     dict_get key d1 = dict_get key d2) ->
  server.handle_call_tool ctx (tools.name tool) (Some d1) w
  = server.handle_call_tool ctx (tools.name tool) (Some d2) w.
Proof.
  intros [<-|[<-|[]]];
    cbn [tools.properties tools.inputSchema tools.name map fst];
    intros Hagree;
    unfold server.handle_call_tool, try_except, server.call_tool_body;
    cbn [String.eqb Ascii.eqb Bool.eqb];
    unfold bind, server.subscript, server.get.
  - rewrite (Hagree "query") by (now left). reflexivity.
  - rewrite (Hagree "question") by (now left).
    rewrite (Hagree "school_name") by (right; now left). reflexivity.
Qed.

Lemma undeclared_arguments_ignored_witness :
  server.handle_call_tool Instances.ctx "query_schools_and_neighborhoods"
    (Some [("query", "SELECT 1"); ("limit", "5")]) Scenario.w0
  = server.handle_call_tool Instances.ctx "query_schools_and_neighborhoods"
      (Some [("verbose", "yes"); ("query", "SELECT 1")]) Scenario.w0.
Proof.
  apply (undeclared_arguments_ignored Instances.ctx Instances.schools_tool
           [("query", "SELECT 1"); ("limit", "5")]
           [("verbose", "yes"); ("query", "SELECT 1")] Scenario.w0).
  - left. reflexivity.
  - intros key [<-|[]]. reflexivity.
Defined.


